(** * security/headers.js: HTTP security-header middleware

    A shallow embedding of the JavaScript module [security/headers.js]
    ([securityHeaders], [rateLimitHeaders], [botDetectionHeaders],
    [securityHeadersHono], [buildConfig]; its text is the last part of
    [design_guidelines.md]) and the proofs of its header policy.

    The module is dynamically typed, so the embedding works over a universe
    of JavaScript values ([JsVal]) and gives the language operations the
    module uses (property reads, [?.], [??], truthiness, template literals,
    [Array.prototype.join], [Object.entries], [String.prototype.includes])
    their meaning on that universe, including the [TypeError]s they raise.
    Response headers live in a finite map keyed by the lower-cased header
    name, as in Node's [ServerResponse].

    Two things the module relies on are not part of it and are parameters
    of the embedding: the response object, which may refuse a header
    ([Response]; the header sink of the specification stores every header),
    and the conversions between numbers and strings where they are not
    plain decimal digits ([StringToNumber_positive],
    [NumberToString_unsafe]). *)

From Stdlib Require Import ZArith String Ascii List Bool Lia.
From stdpp Require Import base option list gmap strings pretty.

Local Set Warnings "-register-all".
Local Open Scope string_scope.
Local Open Scope Z_scope.
Local Open Scope stdpp_scope.

(** ** Values *)

(** The values an options object can hold.  [JNum n] is the Number with the
    integer value [n]; what is printed for it is fixed only when [n] is a
    safe integer ([|n| <= 2^53 - 1], see [Number_toString]).  [JStr] is a
    sequence of code units; [JObj] lists the own enumerable data properties
    of a plain object (prototype [Object.prototype]) in property enumeration
    order, with distinct keys.  Functions, symbols and accessor properties
    are outside the universe, so no property of a value is callable except
    the built-in methods of arrays and strings. *)
Inductive JsVal : Type :=
| JUndefined
| JNull
| JBool (b : bool)
| JNum (n : Z)
| JStr (s : string)
| JArr (elems : list JsVal)
| JObj (props : list (string * JsVal)).

Variant JsError : Type := TypeError.

(** The outcome of evaluating an expression: a value or a thrown error. *)
Inductive Completion (A : Type) : Type :=
| Normal (a : A)
| Abrupt (e : JsError).
Arguments Normal {A} a.
Arguments Abrupt {A} e.

#[global] Instance Completion_ret : MRet Completion := fun A a => Normal a.
#[global] Instance Completion_bind : MBind Completion := fun A B f c =>
  match c with
  | Normal a => f a
  | Abrupt e => Abrupt e
  end.

Definition is_normal {A} (c : Completion A) : bool :=
  match c with Normal _ => true | Abrupt _ => false end.

(** ** Language operations *)

Definition nullish (v : JsVal) : bool :=
  match v with JUndefined | JNull => true | _ => false end.

(** [ToBoolean]. *)
Definition truthy (v : JsVal) : bool :=
  match v with
  | JUndefined | JNull => false
  | JBool b => b
  | JNum n => negb (n =? 0)
  | JStr s => negb (String.eqb s "")
  | JArr _ | JObj _ => true
  end.

(** [v ?? d]. *)
Definition nullish_coalesce (v d : JsVal) : JsVal :=
  if nullish v then d else v.
Infix "??" := nullish_coalesce (at level 45, left associativity).

(** [a || b]. *)
Definition js_or (a b : JsVal) : JsVal := if truthy a then a else b.

(** [a !== b] against [null], the only strict comparison the module makes. *)
Definition strict_ne_null (v : JsVal) : bool :=
  match v with JNull => false | _ => true end.

(** First property of that name in a property list. *)
Fixpoint get_own (props : list (string * JsVal)) (k : string) : option JsVal :=
  match props with
  | [] => None
  | (k', v) :: rest => if String.eqb k' k then Some v else get_own rest k
  end.

Fixpoint chars (s : string) : list string :=
  match s with
  | EmptyString => []
  | String c rest => String c EmptyString :: chars rest
  end.

(** The own enumerable string-keyed properties of a value, in the order
    [Object.entries] lists them: the properties of an object, the indexed
    elements of an array, the indexed code units of a string. *)
Definition own_entries (v : JsVal) : list (string * JsVal) :=
  match v with
  | JObj props => props
  | JArr elems => imap (fun i x => (pretty i, x)) elems
  | JStr s => imap (fun i c => (pretty i, JStr c)) (chars s)
  | _ => []
  end.

(** [v.k] for a property name [k] that is not inherited from a built-in
    prototype (every name the module reads is of that kind); arrays and
    strings have their [length].  Reading a property of [undefined] or
    [null] throws. *)
Definition get_prop (v : JsVal) (k : string) : Completion JsVal :=
  match v with
  | JUndefined | JNull => Abrupt TypeError
  | JArr elems =>
      if String.eqb k "length" then Normal (JNum (Z.of_nat (length elems)))
      else Normal (default JUndefined (get_own (own_entries v) k))
  | JStr s =>
      if String.eqb k "length" then Normal (JNum (Z.of_nat (String.length s)))
      else Normal (default JUndefined (get_own (own_entries v) k))
  | _ => Normal (default JUndefined (get_own (own_entries v) k))
  end.

(** [v?.k]. *)
Definition opt_get (v : JsVal) (k : string) : Completion JsVal :=
  if nullish v then Normal JUndefined else get_prop v k.

(** [needle] occurs in [hay] ([String.prototype.includes]). *)
Fixpoint includes (needle hay : string) : bool :=
  String.prefix needle hay ||
  match hay with
  | EmptyString => false
  | String _ rest => includes needle rest
  end.

Definition is_str (s : string) (v : JsVal) : bool :=
  match v with JStr s' => String.eqb s' s | _ => false end.

(** The method call [v.includes(needle)] with a string argument: substring
    search on a string, element search on an array, a [TypeError] on a value
    with no such method. *)
Definition call_includes (v : JsVal) (needle : string) : Completion bool :=
  match v with
  | JStr s => Normal (includes needle s)
  | JArr elems => Normal (existsb (is_str needle) elems)
  | _ => Abrupt TypeError
  end.

(** ASCII lower-casing of a header name. *)
Definition lower_ascii (c : ascii) : ascii :=
  let n := nat_of_ascii c in
  if (Nat.leb 65 n && Nat.leb n 90)%bool then ascii_of_nat (n + 32) else c.

Fixpoint lower (s : string) : string :=
  match s with
  | EmptyString => EmptyString
  | String c rest => String (lower_ascii c) (lower rest)
  end.

(** ** Requests, responses and effects *)

(** Response headers are a [gmap string JsVal] keyed by the lower-cased
    name: [setHeader] overwrites the header of that name and the lookup is
    case-insensitive. *)

(** The inbound request: its headers, keyed by the lower-cased name. *)
Record Request : Type := { req_headers : gmap string JsVal }.

(** The calls a middleware makes on its three arguments: [res.setHeader]
    (Hono: [c.header]), [req.get] and [next].  A [setHeader] call that the
    response refuses stores nothing and is not logged: it throws. *)
Inductive Event : Type :=
| EvSetHeader (name : string) (value : JsVal)
| EvReqGet (name : string)
| EvNext.

(** What running a piece of middleware code gives: how it completed, the
    response headers it left, and the calls it made, oldest first. *)
Record Outcome (A : Type) : Type := mkOutcome {
  completion : Completion A;
  headers : gmap string JsVal;
  events : list Event
}.
Arguments mkOutcome {A} _ _ _.
Arguments completion {A} _.
Arguments headers {A} _.
Arguments events {A} _.

(** Middleware code: a function of the response headers it starts from.
    A throw ends the run and keeps the headers written so far. *)
Definition M (A : Type) : Type := gmap string JsVal -> Outcome A.

#[global] Instance M_ret : MRet M := fun A a h => mkOutcome (Normal a) h [].
#[global] Instance M_bind : MBind M := fun A B f m h =>
  let r := m h in
  match completion r with
  | Normal a =>
      let r' := f a (headers r) in
      mkOutcome (completion r') (headers r') (events r ++ events r')%list
  | Abrupt e => mkOutcome (Abrupt e) (headers r) (events r)
  end.

(** An expression evaluated inside middleware code. *)
Definition lift {A} (c : Completion A) : M A := fun h => mkOutcome c h [].

(** The response object is not part of the module, which calls its
    [setHeader] and [get].  A response may refuse a header: [setHeader] of
    a Node response throws a [TypeError] on a value it finds invalid.
    [accepts name value]: the response stores the header. *)
Class Response : Type := accepts : string -> JsVal -> bool.

(** The header sink: the response that stores every header it is given.
    A statement that names no response is about the header sink. *)
#[global] Instance header_sink : Response := fun _ _ => true.

(** [res.setHeader(name, value)]. *)
Definition setHeader {R : Response} (name : string) (value : JsVal) : M unit := fun h =>
  if accepts name value
  then mkOutcome (Normal tt) (<[lower name := value]> h) [EvSetHeader name value]
  else mkOutcome (Abrupt TypeError) h [].

(** [res.get(name)]: the header already set on the response, if any. *)
Definition res_get (name : string) : M JsVal := fun h =>
  mkOutcome (Normal (default JUndefined (h !! lower name))) h [].

(** [req.get(name)]. *)
Definition req_get (req : Request) (name : string) : M JsVal := fun h =>
  mkOutcome (Normal (default JUndefined (req_headers req !! lower name))) h
            [EvReqGet name].

(** [next()]. *)
Definition next : M unit := fun h => mkOutcome (Normal tt) h [EvNext].

(** ** Configuration *)

Record HstsConfig : Type := {
  hsts_enabled : JsVal;
  maxAge : JsVal;
  includeSubDomains : JsVal;
  preload : JsVal
}.

Record CspConfig : Type := {
  csp_enabled : JsVal;
  directives : JsVal
}.

Record CrossOriginConfig : Type := {
  embedderPolicy : JsVal;
  openerPolicy : JsVal;
  resourcePolicy : JsVal
}.

(** The [config] object of [securityHeaders]. *)
Record Config : Type := {
  hsts : HstsConfig;
  csp : CspConfig;
  xFrameOptions : JsVal;
  xContentTypeOptions : JsVal;
  xXssProtection : JsVal;
  referrerPolicy : JsVal;
  permissionsPolicy : JsVal;
  crossOrigin : CrossOriginConfig;
  cacheControl : JsVal
}.

Definition str_array (l : list string) : JsVal := JArr (map JStr l).

Definition default_directives : JsVal :=
  JObj [ ("defaultSrc", str_array ["'self'"]);
         ("scriptSrc", str_array ["'self'"; "'unsafe-inline'"]);
         ("styleSrc", str_array ["'self'"; "'unsafe-inline'"; "https://fonts.googleapis.com"]);
         ("imgSrc", str_array ["'self'"; "data:"; "https:"]);
         ("fontSrc", str_array ["'self'"; "https://fonts.gstatic.com"]);
         ("connectSrc", str_array ["'self'"]);
         ("frameSrc", str_array ["'none'"]);
         ("objectSrc", str_array ["'none'"]);
         ("baseUri", str_array ["'self'"]);
         ("formAction", str_array ["'self'"]);
         ("frameAncestors", str_array ["'none'"]);
         ("upgradeInsecureRequests", JBool true) ].

Definition default_permissionsPolicy : JsVal :=
  JObj [ ("accelerometer", JArr []);
         ("camera", JArr []);
         ("geolocation", JArr []);
         ("gyroscope", JArr []);
         ("magnetometer", JArr []);
         ("microphone", JArr []);
         ("payment", JArr []);
         ("usb", JArr []) ].

(** The default parameter [options = {}]: it replaces [undefined] only. *)
Definition default_param (options : JsVal) : JsVal :=
  match options with JUndefined => JObj [] | _ => options end.

(** [options.k ?? d]. *)
Definition option1 (options : JsVal) (k : string) (d : JsVal) : Completion JsVal :=
  v ← get_prop options k; Normal (v ?? d).

(** [options.k1?.k2 ?? d]. *)
Definition option2 (options : JsVal) (k1 k2 : string) (d : JsVal) : Completion JsVal :=
  o ← get_prop options k1; v ← opt_get o k2; Normal (v ?? d).

(** The [config] that [securityHeaders(options)] builds. *)
Definition securityHeaders_config (options : JsVal) : Completion Config :=
  let options := default_param options in
  h_enabled ← option2 options "hsts" "enabled" (JBool true);
  h_maxAge ← option2 options "hsts" "maxAge" (JNum 31536000);
  h_includeSubDomains ← option2 options "hsts" "includeSubDomains" (JBool true);
  h_preload ← option2 options "hsts" "preload" (JBool false);
  c_enabled ← option2 options "csp" "enabled" (JBool true);
  c_directives ← option2 options "csp" "directives" default_directives;
  o_xFrameOptions ← option1 options "xFrameOptions" (JStr "DENY");
  o_xContentTypeOptions ← option1 options "xContentTypeOptions" (JStr "nosniff");
  o_xXssProtection ← option1 options "xXssProtection" (JStr "1; mode=block");
  o_referrerPolicy ← option1 options "referrerPolicy" (JStr "strict-origin-when-cross-origin");
  o_permissionsPolicy ← option1 options "permissionsPolicy" default_permissionsPolicy;
  x_embedderPolicy ← option2 options "crossOrigin" "embedderPolicy" (JStr "require-corp");
  x_openerPolicy ← option2 options "crossOrigin" "openerPolicy" (JStr "same-origin");
  x_resourcePolicy ← option2 options "crossOrigin" "resourcePolicy" (JStr "same-origin");
  o_cacheControl ← option1 options "cacheControl"
                     (JStr "no-store, no-cache, must-revalidate, proxy-revalidate");
  Normal {|
    hsts := {| hsts_enabled := h_enabled; maxAge := h_maxAge;
               includeSubDomains := h_includeSubDomains; preload := h_preload |};
    csp := {| csp_enabled := c_enabled; directives := c_directives |};
    xFrameOptions := o_xFrameOptions;
    xContentTypeOptions := o_xContentTypeOptions;
    xXssProtection := o_xXssProtection;
    referrerPolicy := o_referrerPolicy;
    permissionsPolicy := o_permissionsPolicy;
    crossOrigin := {| embedderPolicy := x_embedderPolicy;
                      openerPolicy := x_openerPolicy;
                      resourcePolicy := x_resourcePolicy |};
    cacheControl := o_cacheControl
  |}.

(** [Number.isSafeInteger]. *)
Definition isSafeInteger (n : Z) : bool :=
  (- (2 ^ 53 - 1) <=? n) && (n <=? 2 ^ 53 - 1).

(** ** Conversions between numbers and strings, and the calls built on them *)

Section Middleware.

(** [StringToNumber_positive s]: the Number that the string [s] converts to
    is greater than zero.  The conversion reads a floating-point literal;
    the development holds for every such function. *)
Variable StringToNumber_positive : string -> bool.

(** [NumberToString_unsafe n]: what is printed for a Number whose integer
    value [n] is beyond the safe integers: the shortest digits that read
    back as the Number, in exponent form from [1e21].  The development holds
    for every such function. *)
Variable NumberToString_unsafe : Z -> string.

(** [Number::toString]: a safe integer prints as its decimal digits. *)
Definition Number_toString (n : Z) : string :=
  if isSafeInteger n then pretty n else NumberToString_unsafe n.

(** [ToString], as a template literal applies it.  A plain object prints as
    [[object Object]] unless an own property shadows [toString]: that
    property is not callable, [valueOf] returns the object itself, and the
    conversion throws.  An array prints its elements joined by a comma. *)
Fixpoint ToString (v : JsVal) : Completion string :=
  match v with
  | JUndefined => Normal "undefined"
  | JNull => Normal "null"
  | JBool b => Normal (if b then "true" else "false")
  | JNum n => Normal (Number_toString n)
  | JStr s => Normal s
  | JArr elems =>
      (fix go (l : list JsVal) : Completion (list string) :=
         match l with
         | [] => Normal []
         | x :: rest =>
             s ← (if nullish x then Normal "" else ToString x);
             ss ← go rest;
             Normal (s :: ss)
         end) elems ≫= fun ss => Normal (String.concat "," ss)
  | JObj props =>
      match get_own props "toString" with
      | Some _ => Abrupt TypeError
      | None => Normal "[object Object]"
      end
  end.

(** The element conversion of [Array.prototype.join]. *)
Definition join_element (x : JsVal) : Completion string :=
  if nullish x then Normal "" else ToString x.

Fixpoint join_elements (l : list JsVal) : Completion (list string) :=
  match l with
  | [] => Normal []
  | x :: rest =>
      s ← join_element x;
      ss ← join_elements rest;
      Normal (s :: ss)
  end.

(** [elems.join(sep)] on an array. *)
Definition array_join (elems : list JsVal) (sep : string) : Completion string :=
  ss ← join_elements elems; Normal (String.concat sep ss).

(** The method call [v.join(sep)]: only arrays have a callable [join]. *)
Definition call_join (v : JsVal) (sep : string) : Completion string :=
  match v with
  | JArr elems => array_join elems sep
  | _ => Abrupt TypeError
  end.

(** [v > 0]. *)
Definition js_gt_zero (v : JsVal) : Completion bool :=
  match v with
  | JUndefined | JNull => Normal false
  | JBool b => Normal b
  | JNum n => Normal (0 <? n)
  | JStr s => Normal (StringToNumber_positive s)
  | JArr _ => s ← ToString v; Normal (StringToNumber_positive s)
  | JObj _ => _ ← ToString v; Normal false
  end.

(** [Object.entries(v)]. *)
Definition Object_entries (v : JsVal) : Completion (list (string * JsVal)) :=
  if nullish v then Abrupt TypeError else Normal (own_entries v).

(** [l.map(f)] for a callback that may throw. *)
Fixpoint array_map {A B} (f : A -> Completion B) (l : list A) : Completion (list B) :=
  match l with
  | [] => Normal []
  | x :: rest => y ← f x; ys ← array_map f rest; Normal (y :: ys)
  end.

(** ** The middleware *)

(** The HSTS header value. *)
Definition hstsValue (config : HstsConfig) : Completion string :=
  n ← ToString (maxAge config);
  let hstsValue := "max-age=" +:+ n in
  let hstsValue :=
    if truthy (includeSubDomains config)
    then hstsValue +:+ "; includeSubDomains" else hstsValue in
  let hstsValue :=
    if truthy (preload config) then hstsValue +:+ "; preload" else hstsValue in
  Normal hstsValue.

(** [if (directives.prop) cspDirectives.push(`name ${directives.prop.join(' ')}`)]. *)
Definition push_sources (directives : JsVal) (prop name : string)
    (cspDirectives : list string) : Completion (list string) :=
  v ← get_prop directives prop;
  if truthy v
  then sources ← call_join v " ";
       Normal (cspDirectives ++ [name +:+ " " +:+ sources])%list
  else Normal cspDirectives.

(** [if (directives.prop) cspDirectives.push('name')]. *)
Definition push_flag (directives : JsVal) (prop name : string)
    (cspDirectives : list string) : Completion (list string) :=
  v ← get_prop directives prop;
  if truthy v then Normal (cspDirectives ++ [name])%list else Normal cspDirectives.

(** The Content-Security-Policy header value. *)
Definition cspValue (directives : JsVal) : Completion string :=
  let cspDirectives := [] in
  cspDirectives ← push_sources directives "defaultSrc" "default-src" cspDirectives;
  cspDirectives ← push_sources directives "scriptSrc" "script-src" cspDirectives;
  cspDirectives ← push_sources directives "styleSrc" "style-src" cspDirectives;
  cspDirectives ← push_sources directives "imgSrc" "img-src" cspDirectives;
  cspDirectives ← push_sources directives "fontSrc" "font-src" cspDirectives;
  cspDirectives ← push_sources directives "connectSrc" "connect-src" cspDirectives;
  cspDirectives ← push_sources directives "frameSrc" "frame-src" cspDirectives;
  cspDirectives ← push_sources directives "objectSrc" "object-src" cspDirectives;
  cspDirectives ← push_sources directives "baseUri" "base-uri" cspDirectives;
  cspDirectives ← push_sources directives "formAction" "form-action" cspDirectives;
  cspDirectives ← push_sources directives "frameAncestors" "frame-ancestors" cspDirectives;
  cspDirectives ← push_flag directives "upgradeInsecureRequests"
                    "upgrade-insecure-requests" cspDirectives;
  Normal (String.concat "; " cspDirectives).

(** [([feature, allowList]) => `${feature}=${value}`]. *)
Definition permissions_entry (entry : string * JsVal) : Completion string :=
  let '(feature, allowList) := entry in
  len ← get_prop allowList "length";
  nonempty ← js_gt_zero len;
  value ← (if nonempty : bool
           then origins ← call_join allowList " "; Normal ("(" +:+ origins +:+ ")")
           else Normal "()");
  Normal (feature +:+ "=" +:+ value).

(** The Permissions-Policy header value. *)
Definition permissionsValue (permissionsPolicy : JsVal) : Completion string :=
  entries ← Object_entries permissionsPolicy;
  policies ← array_map permissions_entry entries;
  Normal (String.concat ", " policies).

(** The cache-control condition on the response's content type. *)
Definition is_dynamic_content (contentType : JsVal) : Completion bool :=
  image ← call_includes contentType "image";
  if image : bool then Normal false else
  font ← call_includes contentType "font";
  if font : bool then Normal false else
  css ← call_includes contentType "css";
  if css : bool then Normal false else
  javascript ← call_includes contentType "javascript";
  Normal (negb javascript).

(** [if (value) res.setHeader(name, value)]. *)
Definition set_if_truthy {R : Response} (name : string) (value : JsVal) : M unit :=
  if truthy value then setHeader name value else mret tt.

(** The blocks of [securityHeadersMiddleware], in source order. *)

Definition hsts_block {R : Response} (config : Config) : M unit :=
  if truthy (hsts_enabled (hsts config))
  then v ← lift (hstsValue (hsts config));
       setHeader "Strict-Transport-Security" (JStr v)
  else mret tt.

Definition csp_block {R : Response} (config : Config) : M unit :=
  if truthy (csp_enabled (csp config))
  then v ← lift (cspValue (directives (csp config)));
       setHeader "Content-Security-Policy" (JStr v)
  else mret tt.

Definition permissions_block {R : Response} (config : Config) : M unit :=
  if truthy (permissionsPolicy config)
  then policies ← lift (permissionsValue (permissionsPolicy config));
       setHeader "Permissions-Policy" (JStr policies)
  else mret tt.

Definition cache_block {R : Response} (config : Config) : M unit :=
  contentType ← (v ← res_get "Content-Type"; mret (js_or v (JStr "")));
  dynamic ← lift (is_dynamic_content contentType);
  if dynamic : bool
  then setHeader "Cache-Control" (cacheControl config);;
       setHeader "Pragma" (JStr "no-cache");;
       setHeader "Expires" (JStr "0")
  else mret tt.

(** [securityHeadersMiddleware(req, res, next)], for the [config] of its
    closure. *)
Definition securityHeadersMiddleware {R : Response} (config : Config) (req : Request)
    : M unit :=
  hsts_block config;;
  csp_block config;;
  set_if_truthy "X-Frame-Options" (xFrameOptions config);;
  set_if_truthy "X-Content-Type-Options" (xContentTypeOptions config);;
  set_if_truthy "X-XSS-Protection" (xXssProtection config);;
  set_if_truthy "Referrer-Policy" (referrerPolicy config);;
  permissions_block config;;
  set_if_truthy "Cross-Origin-Embedder-Policy" (embedderPolicy (crossOrigin config));;
  set_if_truthy "Cross-Origin-Opener-Policy" (openerPolicy (crossOrigin config));;
  set_if_truthy "Cross-Origin-Resource-Policy" (resourcePolicy (crossOrigin config));;
  cache_block config;;
  next.

(** [securityHeaders(options)]: the middleware over the built [config]. *)
Definition securityHeaders {R : Response} (options : JsVal)
    : Completion (Request -> M unit) :=
  config ← securityHeaders_config options;
  Normal (securityHeadersMiddleware config).

(** ** Rate-limit and bot-detection headers *)

Record RateLimitConfig : Type := {
  limit : JsVal;
  window : JsVal;
  remaining : JsVal
}.

Definition rateLimitHeaders_config (options : JsVal) : Completion RateLimitConfig :=
  let options := default_param options in
  o_limit ← option1 options "limit" (JNum 100);
  o_window ← option1 options "window" (JNum 60);
  o_remaining ← option1 options "remaining" JNull;
  Normal {| limit := o_limit; window := o_window; remaining := o_remaining |}.

Definition rateLimitHeadersMiddleware {R : Response} (config : RateLimitConfig)
    (req : Request) : M unit :=
  setHeader "X-RateLimit-Limit" (limit config);;
  setHeader "X-RateLimit-Window" (window config);;
  (if strict_ne_null (remaining config)
   then setHeader "X-RateLimit-Remaining" (remaining config)
   else mret tt);;
  setHeader "CF-Cache-Status" (JStr "DYNAMIC");;
  next.

Definition rateLimitHeaders {R : Response} (options : JsVal)
    : Completion (Request -> M unit) :=
  config ← rateLimitHeaders_config options;
  Normal (rateLimitHeadersMiddleware config).

Definition botDetectionHeadersMiddleware {R : Response} (req : Request) : M unit :=
  cfBotScore ← req_get req "CF-Bot-Score";
  cfVerifiedBot ← req_get req "CF-Verified-Bot";
  set_if_truthy "X-Bot-Score" cfBotScore;;
  set_if_truthy "X-Verified-Bot" cfVerifiedBot;;
  next.

Definition botDetectionHeaders {R : Response} (options : JsVal)
    : Completion (Request -> M unit) :=
  let options := default_param options in
  challengeMode ← option1 options "challengeMode" (JBool false);
  Normal botDetectionHeadersMiddleware.

(** ** The Hono adapter *)

(** The object [buildConfig] returns. *)
Record AdapterConfig : Type := {
  adapter_hsts : HstsConfig;
  adapter_xFrameOptions : JsVal;
  adapter_xContentTypeOptions : JsVal;
  adapter_xXssProtection : JsVal;
  adapter_referrerPolicy : JsVal
}.

Definition buildConfig (options : JsVal) : Completion AdapterConfig :=
  let options := default_param options in
  h_enabled ← option2 options "hsts" "enabled" (JBool true);
  h_maxAge ← option2 options "hsts" "maxAge" (JNum 31536000);
  h_includeSubDomains ← option2 options "hsts" "includeSubDomains" (JBool true);
  h_preload ← option2 options "hsts" "preload" (JBool false);
  o_xFrameOptions ← option1 options "xFrameOptions" (JStr "DENY");
  o_xContentTypeOptions ← option1 options "xContentTypeOptions" (JStr "nosniff");
  o_xXssProtection ← option1 options "xXssProtection" (JStr "1; mode=block");
  o_referrerPolicy ← option1 options "referrerPolicy" (JStr "strict-origin-when-cross-origin");
  Normal {|
    adapter_hsts := {| hsts_enabled := h_enabled; maxAge := h_maxAge;
                       includeSubDomains := h_includeSubDomains;
                       preload := h_preload |};
    adapter_xFrameOptions := o_xFrameOptions;
    adapter_xContentTypeOptions := o_xContentTypeOptions;
    adapter_xXssProtection := o_xXssProtection;
    adapter_referrerPolicy := o_referrerPolicy
  |}.

(** The handler [securityHeadersHono] returns: [await next()] first, then
    the headers, written with [c.header]. *)
Definition securityHeadersHono_handler {R : Response} (config : AdapterConfig) : M unit :=
  next;;
  (if truthy (hsts_enabled (adapter_hsts config))
   then v ← lift (hstsValue (adapter_hsts config));
        setHeader "Strict-Transport-Security" (JStr v)
   else mret tt);;
  setHeader "X-Frame-Options" (adapter_xFrameOptions config);;
  setHeader "X-Content-Type-Options" (adapter_xContentTypeOptions config);;
  setHeader "Referrer-Policy" (adapter_referrerPolicy config).

Definition securityHeadersHono {R : Response} (options : JsVal) : Completion (M unit) :=
  config ← buildConfig options;
  Normal (securityHeadersHono_handler config).

(** ** Observations on a run *)

(** The value a call writes to the header [name], names compared without
    case. *)
Definition written (name : string) (e : Event) : option JsVal :=
  match e with
  | EvSetHeader n v => if String.eqb (lower n) (lower name) then Some v else None
  | _ => None
  end.

(** The values written to the header [name], oldest first: empty when the
    header is not emitted. *)
Definition header_writes (name : string) (evs : list Event) : list JsVal :=
  omap (written name) evs.

Definition is_set_header (e : Event) : bool :=
  match e with EvSetHeader _ _ => true | _ => false end.

Definition is_req_read (e : Event) : bool :=
  match e with EvReqGet _ => true | _ => false end.

(** No write to the header stored under [key]. *)
Definition leaves (key : string) (e : Event) : bool :=
  match e with
  | EvSetHeader n _ => negb (String.eqb (lower n) key)
  | _ => true
  end.

(** The effect of the logged calls on the response headers. *)
Definition replay_event (h : gmap string JsVal) (e : Event) : gmap string JsVal :=
  match e with
  | EvSetHeader n v => <[lower n := v]> h
  | _ => h
  end.

Definition replay (evs : list Event) (h : gmap string JsVal) : gmap string JsVal :=
  fold_left replay_event evs h.

(** The last value the logged calls store under [key]. *)
Definition last_write (key : string) (evs : list Event) : option JsVal :=
  fold_left (fun acc e =>
               match e with
               | EvSetHeader n v => if String.eqb (lower n) key then Some v else acc
               | _ => acc
               end) evs None.

(** Every call a piece of code makes satisfies [P], from whatever headers
    it starts. *)
Definition respects {A} (P : Event -> bool) (m : M A) : Prop :=
  forall h, forallb P (events (m h)) = true.

(** The code leaves the headers its logged writes give, never writes
    Content-Type, and reads nothing of the response but Content-Type. *)
Definition tame {A} (m : M A) : Prop :=
  forall h,
    headers (m h) = replay (events (m h)) h /\
    forallb (leaves "content-type") (events (m h)) = true /\
    forall h', h' !! "content-type" = h !! "content-type" ->
               completion (m h') = completion (m h) /\ events (m h') = events (m h).

(** ** The documented shape of the configuration *)

Definition is_number (v : JsVal) : bool :=
  match v with JNum _ => true | _ => false end.

Definition is_string (v : JsVal) : bool :=
  match v with JStr _ => true | _ => false end.

(** A list of strings. *)
Definition is_str_array (v : JsVal) : bool :=
  match v with JArr elems => forallb is_string elems | _ => false end.

(** The strings of a list of strings. *)
Definition strings_of (v : JsVal) : list string :=
  match v with
  | JArr elems => omap (fun x => match x with JStr s => Some s | _ => None end) elems
  | _ => []
  end.

(** The source-list directives the middleware knows: property name and
    directive name, in the order it emits them. *)
Definition source_directives : list (string * string) :=
  [ ("defaultSrc", "default-src"); ("scriptSrc", "script-src");
    ("styleSrc", "style-src"); ("imgSrc", "img-src"); ("fontSrc", "font-src");
    ("connectSrc", "connect-src"); ("frameSrc", "frame-src");
    ("objectSrc", "object-src"); ("baseUri", "base-uri");
    ("formAction", "form-action"); ("frameAncestors", "frame-ancestors") ].

(** A directive map: each source-list directive is absent or a list of
    strings, [upgradeInsecureRequests] is absent or a boolean. *)
Definition normal_directives (d : JsVal) : bool :=
  match d with
  | JObj props =>
      forallb (fun '(prop, _) =>
                 match get_own props prop with
                 | None => true
                 | Some v => is_str_array v
                 end) source_directives
      && match get_own props "upgradeInsecureRequests" with
         | None | Some (JBool _) => true
         | Some _ => false
         end
  | _ => false
  end.

(** A permissions map: every feature has a list of origins. *)
Definition normal_permissions (p : JsVal) : bool :=
  match p with
  | JObj props => forallb (fun '(_, allowList) => is_str_array allowList) props
  | _ => false
  end.

Definition normal_config (config : Config) : bool :=
  is_number (maxAge (hsts config))
  && normal_directives (directives (csp config))
  && normal_permissions (permissionsPolicy config).

(** The Content-Type already set on the response is a string, if any. *)
Definition normal_response (h : gmap string JsVal) : bool :=
  match h !! "content-type" with
  | None | Some (JStr _) => true
  | Some _ => false
  end.

(** The content type the cache-control rule inspects. *)
Definition content_type_of (h : gmap string JsVal) : string :=
  match h !! "content-type" with
  | Some (JStr s) => s
  | _ => ""
  end.

(** ** The header values, as formats *)

(** [sub] occurs in [s]. *)
Definition contains (sub s : string) : Prop :=
  exists pre post, s = pre +:+ sub +:+ post.

(** The content types the cache-control rule treats as static assets. *)
Definition static_asset (s : string) : Prop :=
  contains "image" s \/ contains "font" s \/ contains "css" s \/
  contains "javascript" s.

Definition suffix_if (b : bool) (s : string) : string := if b then s else "".

(** [max-age=<n>[; includeSubDomains][; preload]]. *)
Definition hsts_rendering (n : Z) (subdomains preloaded : bool) : string :=
  "max-age=" +:+ pretty n +:+ suffix_if subdomains "; includeSubDomains"
  +:+ suffix_if preloaded "; preload".

(** [<directive-name> <space-joined tokens>] for a directive that is
    present. *)
Definition render_directive (props : list (string * JsVal))
    (d : string * string) : option string :=
  match get_own props (fst d) with
  | Some v => Some (snd d +:+ " " +:+ String.concat " " (strings_of v))
  | None => None
  end.

(** The directives present, in the fixed order, joined by [; ]. *)
Definition csp_rendering (props : list (string * JsVal)) : string :=
  String.concat "; "
    (omap (render_directive props) source_directives
     ++ match get_own props "upgradeInsecureRequests" with
        | Some (JBool true) => ["upgrade-insecure-requests"]
        | _ => []
        end)%list.

(** [<feature>=(<space-joined origins>)], comma-joined in key order. *)
Definition permissions_rendering (props : list (string * JsVal)) : string :=
  String.concat ", "
    (map (fun '(feature, allowList) =>
            feature +:+ "=(" +:+ String.concat " " (strings_of allowList) +:+ ")")
         props).

(** ** Fields of the configuration *)

Inductive Field : Type :=
| F_hsts_enabled | F_hsts_maxAge | F_hsts_includeSubDomains | F_hsts_preload
| F_csp_enabled | F_csp_directives
| F_xFrameOptions | F_xContentTypeOptions | F_xXssProtection | F_referrerPolicy
| F_permissionsPolicy
| F_embedderPolicy | F_openerPolicy | F_resourcePolicy
| F_cacheControl.

(** Where a field sits in the options object: a top-level key, and a key
    inside it for the fields of a nested object. *)
Definition field_path (f : Field) : string * option string :=
  match f with
  | F_hsts_enabled => ("hsts", Some "enabled")
  | F_hsts_maxAge => ("hsts", Some "maxAge")
  | F_hsts_includeSubDomains => ("hsts", Some "includeSubDomains")
  | F_hsts_preload => ("hsts", Some "preload")
  | F_csp_enabled => ("csp", Some "enabled")
  | F_csp_directives => ("csp", Some "directives")
  | F_xFrameOptions => ("xFrameOptions", None)
  | F_xContentTypeOptions => ("xContentTypeOptions", None)
  | F_xXssProtection => ("xXssProtection", None)
  | F_referrerPolicy => ("referrerPolicy", None)
  | F_permissionsPolicy => ("permissionsPolicy", None)
  | F_embedderPolicy => ("crossOrigin", Some "embedderPolicy")
  | F_openerPolicy => ("crossOrigin", Some "openerPolicy")
  | F_resourcePolicy => ("crossOrigin", Some "resourcePolicy")
  | F_cacheControl => ("cacheControl", None)
  end.

Definition field_default (f : Field) : JsVal :=
  match f with
  | F_hsts_enabled => JBool true
  | F_hsts_maxAge => JNum 31536000
  | F_hsts_includeSubDomains => JBool true
  | F_hsts_preload => JBool false
  | F_csp_enabled => JBool true
  | F_csp_directives => default_directives
  | F_xFrameOptions => JStr "DENY"
  | F_xContentTypeOptions => JStr "nosniff"
  | F_xXssProtection => JStr "1; mode=block"
  | F_referrerPolicy => JStr "strict-origin-when-cross-origin"
  | F_permissionsPolicy => default_permissionsPolicy
  | F_embedderPolicy => JStr "require-corp"
  | F_openerPolicy => JStr "same-origin"
  | F_resourcePolicy => JStr "same-origin"
  | F_cacheControl => JStr "no-store, no-cache, must-revalidate, proxy-revalidate"
  end.

Definition config_field (config : Config) (f : Field) : JsVal :=
  match f with
  | F_hsts_enabled => hsts_enabled (hsts config)
  | F_hsts_maxAge => maxAge (hsts config)
  | F_hsts_includeSubDomains => includeSubDomains (hsts config)
  | F_hsts_preload => preload (hsts config)
  | F_csp_enabled => csp_enabled (csp config)
  | F_csp_directives => directives (csp config)
  | F_xFrameOptions => xFrameOptions config
  | F_xContentTypeOptions => xContentTypeOptions config
  | F_xXssProtection => xXssProtection config
  | F_referrerPolicy => referrerPolicy config
  | F_permissionsPolicy => permissionsPolicy config
  | F_embedderPolicy => embedderPolicy (crossOrigin config)
  | F_openerPolicy => openerPolicy (crossOrigin config)
  | F_resourcePolicy => resourcePolicy (crossOrigin config)
  | F_cacheControl => cacheControl config
  end.

(** The own property [k] of a value, [undefined] when there is none or the
    value is [undefined] or [null]. *)
Definition property (v : JsVal) (k : string) : JsVal :=
  match get_prop v k with Normal x => x | Abrupt _ => JUndefined end.

(** What the caller supplied for a field; [undefined] when it is omitted
    (or its enclosing object is). *)
Definition supplied (options : JsVal) (f : Field) : JsVal :=
  match field_path f with
  | (k, None) => property options k
  | (k1, Some k2) => property (property options k1) k2
  end.

(** The field is omitted: not supplied, or supplied as [null] or
    [undefined]. *)
Definition omitted (options : JsVal) (f : Field) : Prop :=
  nullish (supplied options f) = true.

(** The property list with the property [k] set to [v]: replaced where it
    is, added at the end when it is new. *)
Fixpoint set_own (props : list (string * JsVal)) (k : string) (v : JsVal)
    : list (string * JsVal) :=
  match props with
  | [] => [(k, v)]
  | (k', v') :: rest =>
      if String.eqb k' k then (k, v) :: rest else (k', v') :: set_own rest k v
  end.

(** The options with one field overridden: [{...options, k: v}], and
    [{...options, k1: {...options.k1, k2: v}}] for a field of a nested
    object. *)
Definition override (options : JsVal) (f : Field) (v : JsVal) : JsVal :=
  match field_path f with
  | (k, None) => JObj (set_own (own_entries options) k v)
  | (k1, Some k2) =>
      JObj (set_own (own_entries options) k1
              (JObj (set_own (own_entries (property options k1)) k2 v)))
  end.

(** ** Devices of the proofs *)

(** The outcome [r] after the calls [pre] were already made. *)
Definition prepend {A} (pre : list Event) (r : Outcome A) : Outcome A :=
  mkOutcome (completion r) (headers r) (pre ++ events r)%list.

(** The blocks [bs] in order, then [k]. *)
Definition seq_blocks (bs : list (M unit)) (k : M unit) : M unit :=
  foldr (fun b k => b;; k) k bs.

(** A block that always completes, writes what it logs, and logs only
    calls that satisfy [Q]. *)
Definition steady (Q : Event -> bool) (b : M unit) : Prop :=
  tame b /\ respects Q b /\ forall h, completion (b h) = Normal tt.

(** The blocks before the cache-control rule. *)
Definition prefix_blocks {R : Response} (config : Config) : list (M unit) :=
  [ hsts_block config;
    csp_block config;
    set_if_truthy "X-Frame-Options" (xFrameOptions config);
    set_if_truthy "X-Content-Type-Options" (xContentTypeOptions config);
    set_if_truthy "X-XSS-Protection" (xXssProtection config);
    set_if_truthy "Referrer-Policy" (referrerPolicy config);
    permissions_block config;
    set_if_truthy "Cross-Origin-Embedder-Policy" (embedderPolicy (crossOrigin config));
    set_if_truthy "Cross-Origin-Opener-Policy" (openerPolicy (crossOrigin config));
    set_if_truthy "Cross-Origin-Resource-Policy" (resourcePolicy (crossOrigin config)) ].

(** The calls before the cache-control rule never touch its headers. *)
Definition before_cache (e : Event) : bool :=
  is_set_header e && leaves "cache-control" e && leaves "pragma" e
  && leaves "expires" e.

(** The result of a run that made header writes only, then called [next],
    and returned. *)
Definition calls_next_once (r : Outcome unit) : Prop :=
  completion r = Normal tt /\
  exists writes, events r = (writes ++ [EvNext])%list /\
                 forallb is_set_header writes = true.

Definition no_request_read (e : Event) : bool := negb (is_req_read e).

(** The calls the Hono handler makes: [next], and writes to four headers. *)
Definition adapter_call (e : Event) : bool :=
  match e with
  | EvNext => true
  | EvSetHeader n _ =>
      bool_decide (lower n ∈ ["strict-transport-security"; "x-frame-options";
                              "x-content-type-options"; "referrer-policy"])
  | EvReqGet _ => false
  end.

(** ** Inputs of the closed instances *)

(** An instance of the string-to-number comparison: exact on strings of
    decimal digits. *)
Fixpoint digits_positive_from (seen_digit nonzero : bool) (s : string) : bool :=
  match s with
  | EmptyString => seen_digit && nonzero
  | String c rest =>
      match Ascii.is_nat c with
      | Some d => digits_positive_from true (nonzero || negb (Nat.eqb d 0)) rest
      | None => false
      end
  end.

Definition digits_positive (s : string) : bool := digits_positive_from false false s.

(** An instance of the printing beyond the safe integers, which the closed
    instances never reach: the decimal digits. *)
Definition large_digits (n : Z) : string := pretty n.

Definition empty_request : Request := {| req_headers := ∅ |}.

(** The configuration built from [options], for options that are not
    [null]. *)
Definition config_of (options : JsVal) : Config :=
  match securityHeaders_config options with
  | Normal config => config
  | Abrupt _ =>
      {| hsts := {| hsts_enabled := JUndefined; maxAge := JUndefined;
                    includeSubDomains := JUndefined; preload := JUndefined |};
         csp := {| csp_enabled := JUndefined; directives := JUndefined |};
         xFrameOptions := JUndefined; xContentTypeOptions := JUndefined;
         xXssProtection := JUndefined; referrerPolicy := JUndefined;
         permissionsPolicy := JUndefined;
         crossOrigin := {| embedderPolicy := JUndefined; openerPolicy := JUndefined;
                           resourcePolicy := JUndefined |};
         cacheControl := JUndefined |}
  end.

Definition default_config : Config := config_of JUndefined.

(** [{ hsts: { preload: true }, csp: { directives: { defaultSrc: ["'self'"] } } }] *)
Definition partial_options : JsVal :=
  JObj [ ("hsts", JObj [("preload", JBool true)]);
         ("csp", JObj [("directives", JObj [("defaultSrc", str_array ["'self'"])])]) ].

(** [{ permissionsPolicy: { camera: [], geolocation: ["'self'"] } }] *)
Definition camera_options : JsVal :=
  JObj [ ("permissionsPolicy",
          JObj [("camera", JArr []); ("geolocation", str_array ["'self'"])]) ].

(** [{ permissionsPolicy: {} }] *)
Definition no_permissions_options : JsVal :=
  JObj [ ("permissionsPolicy", JObj []) ].

Definition with_content_type (s : string) : gmap string JsVal :=
  <["content-type" := JStr s]> ∅.

(** [{ remaining: 0 }]: a remaining count of zero is supplied, and sent. *)
Definition exhausted_options : JsVal := JObj [("remaining", JNum 0)].

(** The adapter built from the options, for options that are not [null]. *)
Definition adapter_of (options : JsVal) : AdapterConfig :=
  match buildConfig options with
  | Normal config => config
  | Abrupt _ =>
      {| adapter_hsts := {| hsts_enabled := JUndefined; maxAge := JUndefined;
                            includeSubDomains := JUndefined; preload := JUndefined |};
         adapter_xFrameOptions := JUndefined;
         adapter_xContentTypeOptions := JUndefined;
         adapter_xXssProtection := JUndefined;
         adapter_referrerPolicy := JUndefined |}
  end.

(** ** The combined middleware and its chain *)

(** [allSecurityMiddleware(options)]: the three middlewares, built in
    order from [options.headers], [options.rateLimit] and
    [options.botDetection]. *)
Definition allSecurityMiddleware {R : Response} (options : JsVal)
    : Completion (list (Request -> M unit)) :=
  let options := default_param options in
  o_headers ← get_prop options "headers";
  security ← securityHeaders o_headers;
  o_rateLimit ← get_prop options "rateLimit";
  rateLimit ← rateLimitHeaders o_rateLimit;
  o_botDetection ← get_prop options "botDetection";
  botDetection ← botDetectionHeaders o_botDetection;
  Normal [security; rateLimit; botDetection].

(** The handlers of a chain on one request: each calls [next] last, which
    hands over to the handler after it; a throw ends the chain. *)
Definition run_chain (handlers : list (Request -> M unit)) (req : Request) : M unit :=
  foldr (fun handler rest => handler req;; rest) (mret tt) handlers.

(** ** Further observations *)

(** A run that made header writes only and then either called [next] and
    returned, or threw a [TypeError] without calling [next]. *)
Definition next_or_throw (r : Outcome unit) : Prop :=
  (completion r = Normal tt /\
   exists writes, events r = (writes ++ [EvNext])%list /\
                  forallb is_set_header writes = true) \/
  (completion r = Abrupt TypeError /\ forallb is_set_header (events r) = true).

(** The writes of a call go to headers stored under [keys]. *)
Definition writes_within (keys : list string) (e : Event) : bool :=
  match e with
  | EvSetHeader n _ => bool_decide (lower n ∈ keys)
  | _ => true
  end.

(** The headers [securityHeadersMiddleware] can write, as stored. *)
Definition security_keys : list string :=
  [ "strict-transport-security"; "content-security-policy"; "x-frame-options";
    "x-content-type-options"; "x-xss-protection"; "referrer-policy";
    "permissions-policy"; "cross-origin-embedder-policy";
    "cross-origin-opener-policy"; "cross-origin-resource-policy";
    "cache-control"; "pragma"; "expires" ].

(** The headers [rateLimitHeadersMiddleware] can write. *)
Definition rateLimit_keys : list string :=
  [ "x-ratelimit-limit"; "x-ratelimit-window"; "x-ratelimit-remaining";
    "cf-cache-status" ].

(** The headers [botDetectionHeadersMiddleware] can write. *)
Definition botDetection_keys : list string := [ "x-bot-score"; "x-verified-bot" ].

(** A configuration each of whose three computed policies is switched
    off or typed. *)
Definition lenient_config (config : Config) : bool :=
  (negb (truthy (hsts_enabled (hsts config))) || is_number (maxAge (hsts config)))
  && (negb (truthy (csp_enabled (csp config)))
      || normal_directives (directives (csp config)))
  && (negb (truthy (permissionsPolicy config))
      || normal_permissions (permissionsPolicy config)).

Definition is_array (v : JsVal) : bool :=
  match v with JArr _ => true | _ => false end.

(** A call that writes the header [name]. *)
Definition is_write_to (name : string) (e : Event) : bool :=
  match e with EvSetHeader n _ => String.eqb n name | _ => false end.

(** An origin list that is missing ([null], [undefined]) or a non-empty
    string. *)
Definition bad_origins (v : JsVal) : bool :=
  match v with
  | JUndefined | JNull => true
  | JStr s => negb (String.eqb s "")
  | _ => false
  end.

Definition before_permissions (e : Event) : bool :=
  is_set_header e && leaves "permissions-policy" e.

(** The headers that carry a configured value as it is, with the field
    that configures each. *)
Definition simple_headers : list (string * Field) :=
  [ ("X-Frame-Options", F_xFrameOptions);
    ("X-Content-Type-Options", F_xContentTypeOptions);
    ("X-XSS-Protection", F_xXssProtection);
    ("Referrer-Policy", F_referrerPolicy);
    ("Cross-Origin-Embedder-Policy", F_embedderPolicy);
    ("Cross-Origin-Opener-Policy", F_openerPolicy);
    ("Cross-Origin-Resource-Policy", F_resourcePolicy) ].

(** A value that is not a plain object. *)
Definition not_a_map (v : JsVal) : bool :=
  match v with JObj _ => false | _ => true end.

(** A call that does not pass [undefined] or [null] as a header value. *)
Definition defined_write (e : Event) : bool :=
  match e with
  | EvSetHeader _ v => negb (nullish v)
  | _ => true
  end.

(** The properties of the directive map that [cspValue] reads. *)
Definition known_directives : list string :=
  (map fst source_directives ++ ["upgradeInsecureRequests"])%list.

(** A truthy value that has no [includes] method. *)
Definition no_includes (v : JsVal) : bool :=
  truthy v && negb (is_string v) && negb (is_array v).

Definition is_null (v : JsVal) : bool :=
  match v with JNull => true | _ => false end.

(** The inbound header [name] of a request, [undefined] when it is absent. *)
Definition inbound (req : Request) (name : string) : JsVal :=
  default JUndefined (req_headers req !! lower name).

(** The write of a header whose value is truthy. *)
Definition write_if_truthy (name : string) (value : JsVal) : list Event :=
  if truthy value then [EvSetHeader name value] else [].

(** A handler that reads nothing of the response but Content-Type and
    completes from every response with the Content-Type of [h]. *)
Definition settled (h : gmap string JsVal) (m : M unit) : Prop :=
  tame m /\
  forall h', h' !! "content-type" = h !! "content-type" -> completion (m h') = Normal tt.

(** A boolean, a number or the empty string. *)
Definition blank_origins (v : JsVal) : bool :=
  match v with
  | JBool _ | JNum _ => true
  | JStr s => String.eqb s ""
  | _ => false
  end.

(** A permissions map whose allow lists are lists of strings or blank. *)
Definition loose_permissions (props : list (string * JsVal)) : bool :=
  forallb (fun '(_, allowList) => is_str_array allowList || blank_origins allowList) props.

(** A boolean, a number, a string or a list: a value that has properties
    but is not a map. *)
Definition flat (v : JsVal) : bool :=
  match v with
  | JBool _ | JNum _ | JStr _ | JArr _ => true
  | _ => false
  end.

(** The first character is a decimal digit, as in every index key. *)
Definition starts_with_digit (s : string) : bool :=
  match s with
  | String c _ => Nat.leb 48 (nat_of_ascii c) && Nat.leb (nat_of_ascii c) 57
  | EmptyString => false
  end.

(** [{ hsts: { enabled: false, maxAge: { toString: 1 } },
       csp: { enabled: false, directives: "default-src 'self'" },
       permissionsPolicy: false }]: the three policies off, their values
    ill-typed. *)
Definition switched_off_options : JsVal :=
  JObj [ ("hsts", JObj [("enabled", JBool false);
                        ("maxAge", JObj [("toString", JNum 1)])]);
         ("csp", JObj [("enabled", JBool false);
                       ("directives", JStr "default-src 'self'")]);
         ("permissionsPolicy", JBool false) ].

(** [{ csp: { directives: { defaultSrc: "'self'" } } }] *)
Definition string_source_options : JsVal :=
  JObj [ ("csp", JObj [("directives", JObj [("defaultSrc", JStr "'self'")])]) ].

(** [{ permissionsPolicy: { camera: "self" } }] *)
Definition string_origins_options : JsVal :=
  JObj [ ("permissionsPolicy", JObj [("camera", JStr "self")]) ].

(** [{ xFrameOptions: false, referrerPolicy: "no-referrer" }] *)
Definition frame_options_off : JsVal :=
  JObj [ ("xFrameOptions", JBool false); ("referrerPolicy", JStr "no-referrer") ].

(** [{ hsts: { enabled: "yes", maxAge: "86400", includeSubDomains: 1, preload: "" } }] *)
Definition coerced_hsts_options : JsVal :=
  JObj [ ("hsts", JObj [("enabled", JStr "yes"); ("maxAge", JStr "86400");
                        ("includeSubDomains", JNum 1); ("preload", JStr "")]) ].

(** [{ hsts: false }] *)
Definition hsts_false_options : JsVal := JObj [ ("hsts", JBool false) ].

(** [{ defaultSrc: ["'self'"], workerSrc: ["'none'"] }] *)
Definition worker_directives : list (string * JsVal) :=
  [ ("defaultSrc", str_array ["'self'"]); ("workerSrc", str_array ["'none'"]) ].

(** A response whose Content-Type was set to the number 5. *)
Definition numeric_content_type : gmap string JsVal := <["content-type" := JNum 5]> ∅.

(** [{ permissionsPolicy: { camera: true, geolocation: ["'self'"] } }] *)
Definition camera_true_options : JsVal :=
  JObj [ ("permissionsPolicy",
          JObj [("camera", JBool true); ("geolocation", str_array ["'self'"])]) ].

(** [{ csp: { directives: "default-src 'self'" } }] *)
Definition string_policy_options : JsVal :=
  JObj [ ("csp", JObj [("directives", JStr "default-src 'self'")]) ].

(** The limits [rateLimitHeaders({ remaining: 0 })] builds. *)
Definition exhausted_limits : RateLimitConfig :=
  {| limit := JNum 100; window := JNum 60; remaining := JNum 0 |}.

(** ** Responses that refuse a header *)

(** The response stores the write. *)
Definition accepted {R : Response} (e : Event) : bool :=
  match e with
  | EvSetHeader name value => accepts name value
  | _ => true
  end.

(** The calls before the first write that the response refuses. *)
Fixpoint admitted {R : Response} (evs : list Event) : list Event :=
  match evs with
  | [] => []
  | e :: rest => if accepted e then e :: admitted rest else []
  end.

(** The code [m], run on the response [R], goes as [sink] goes on the
    header sink for as long as [R] stores the writes, and throws at the
    first write that [R] refuses. *)
Definition follows {A} {R : Response} (m sink : M A) : Prop :=
  forall h,
    if forallb accepted (events (sink h))
    then m h = sink h
    else completion (m h) = Abrupt TypeError /\
         events (m h) = admitted (events (sink h)).

(** A character that Node allows in a header value: the tab, and the
    characters from the space on, but for DEL. *)
Definition valid_header_char (c : ascii) : bool :=
  let n := nat_of_ascii c in
  Nat.eqb n 9 || (Nat.leb 32 n && negb (Nat.eqb n 127)).

Fixpoint valid_header_chars (s : string) : bool :=
  match s with
  | EmptyString => true
  | String c rest => valid_header_char c && valid_header_chars rest
  end.

(** A response that refuses [undefined] and a string with a control
    character, as the responses of Node's [http] module do, and stores
    every other value. *)
Definition checking_response : Response := fun _ value =>
  match value with
  | JUndefined => false
  | JStr s => valid_header_chars s
  | _ => true
  end.

(** [{ xFrameOptions: "DENY\nX-Injected: 1" }]: a string with a line feed. *)
Definition injected_options : JsVal :=
  JObj [ ("xFrameOptions", JStr ("DENY" +:+ String "010"%char "X-Injected: 1")) ].

(** * Proofs *)

(** ** Strings and lists of strings *)

Lemma append_nil (s : string) : "" +:+ s = s.
Proof. reflexivity. Qed.

Lemma append_cons (c : ascii) (s t : string) : String c s +:+ t = String c (s +:+ t).
Proof. reflexivity. Qed.

Lemma prefix_app (sub s : string) :
  String.prefix sub s = true <-> exists post, s = sub +:+ post.
Proof.
  revert s. induction sub as [|c sub IH]; intros s; simpl.
  - split; [intros _; exists s; reflexivity | intros _; destruct s; reflexivity].
  - setoid_rewrite append_cons. destruct s as [|c' s]; simpl.
    + split; [discriminate | intros [post H]; discriminate].
    + destruct (Ascii.ascii_dec c c') as [->|Hne].
      * rewrite IH. split; intros [post H]; exists post; congruence.
      * split; [discriminate | intros [post H]; congruence].
Qed.

Lemma includes_nil (sub : string) : includes sub "" = String.prefix sub "" || false.
Proof. reflexivity. Qed.

Lemma includes_cons (sub : string) (c : ascii) (s : string) :
  includes sub (String c s) = String.prefix sub (String c s) || includes sub s.
Proof. reflexivity. Qed.

Lemma includes_contains (sub s : string) :
  includes sub s = true <-> contains sub s.
Proof.
  unfold contains. induction s as [|c s IH].
  - rewrite includes_nil, orb_false_r, prefix_app. split.
    + intros [post H]. exists "", post. exact H.
    + intros [pre [post H]]. destruct pre; rewrite ?append_cons, ?append_nil in H.
      * exists post. exact H.
      * discriminate.
  - rewrite includes_cons, orb_true_iff, prefix_app, IH. split.
    + intros [[post H] | [pre [post H]]].
      * exists "", post. exact H.
      * exists (String c pre), post. rewrite append_cons. congruence.
    + intros [pre [post H]].
      destruct pre as [|c' pre]; rewrite ?append_cons, ?append_nil in H.
      * left. exists post. exact H.
      * right. exists pre, post. congruence.
Qed.

Lemma str_array_strings (v : JsVal) :
  is_str_array v = true -> v = str_array (strings_of v).
Proof.
  destruct v as [| | | | |elems|]; try discriminate. simpl. intros H.
  unfold str_array. f_equal.
  induction elems as [|x elems IH]; simpl in *; [reflexivity|].
  apply andb_true_iff in H as [Hx H].
  destruct x; try discriminate. simpl. f_equal. apply IH, H.
Qed.

Lemma strings_of_str_array (l : list string) : strings_of (str_array l) = l.
Proof.
  unfold str_array, strings_of.
  induction l as [|s l IH]; [reflexivity|]. cbn. rewrite IH. reflexivity.
Qed.

Lemma join_elements_strings (l : list string) :
  join_elements (map JStr l) = Normal l.
Proof. induction l as [|s l IH]; simpl; [reflexivity|]. rewrite IH. reflexivity. Qed.

Lemma call_join_strings (l : list string) (sep : string) :
  call_join (str_array l) sep = Normal (String.concat sep l).
Proof. unfold call_join, str_array, array_join. rewrite join_elements_strings. reflexivity. Qed.

Lemma ToString_array (elems : list JsVal) :
  ToString (JArr elems) = array_join elems ",".
Proof. reflexivity. Qed.

(** ** Running middleware code *)

Lemma run_bind {A B} (m : M A) (f : A -> M B) (h : gmap string JsVal) :
  (m ≫= f) h =
  match completion (m h) with
  | Normal a =>
      let r' := f a (headers (m h)) in
      mkOutcome (completion r') (headers r') (events (m h) ++ events r')%list
  | Abrupt e => mkOutcome (Abrupt e) (headers (m h)) (events (m h))
  end.
Proof. reflexivity. Qed.

Lemma header_writes_app name (e1 e2 : list Event) :
  header_writes name (e1 ++ e2) = (header_writes name e1 ++ header_writes name e2)%list.
Proof. unfold header_writes. apply omap_app. Qed.

(** ** Calls that satisfy a property *)

Lemma respects_ret {A} P (a : A) : respects P (mret a).
Proof. intros h. reflexivity. Qed.

Lemma respects_lift {A} P (c : Completion A) : respects P (lift c).
Proof. intros h. reflexivity. Qed.

Lemma respects_res_get P name : respects P (res_get name).
Proof. intros h. reflexivity. Qed.

Lemma respects_setHeader {R : Response} P name v :
  P (EvSetHeader name v) = true -> respects P (setHeader name v).
Proof.
  intros H h. unfold setHeader. destruct (accepts name v); [|reflexivity].
  simpl. rewrite H. reflexivity.
Qed.

Lemma respects_next P : P EvNext = true -> respects P next.
Proof. intros H h. simpl. rewrite H. reflexivity. Qed.

Lemma respects_req_get P req name :
  P (EvReqGet name) = true -> respects P (req_get req name).
Proof. intros H h. simpl. rewrite H. reflexivity. Qed.

Lemma respects_bind {A B} P (m : M A) (f : A -> M B) :
  respects P m -> (forall a, respects P (f a)) -> respects P (m ≫= f).
Proof.
  intros Hm Hf h. rewrite run_bind. specialize (Hm h).
  destruct (completion (m h)) as [a|e]; simpl; [|exact Hm].
  rewrite forallb_app, Hm. apply Hf.
Qed.

Lemma respects_if {A} P (b : bool) (m1 m2 : M A) :
  respects P m1 -> respects P m2 -> respects P (if b then m1 else m2).
Proof. destruct b; auto. Qed.

Lemma respects_set_if_truthy {R : Response} P name v :
  (forall v, P (EvSetHeader name v) = true) -> respects P (set_if_truthy name v).
Proof.
  intros H. unfold set_if_truthy.
  apply respects_if; [apply respects_setHeader, H | apply respects_ret].
Qed.

(** ** Replaying the logged writes *)

Lemma replay_app (e1 e2 : list Event) (h : gmap string JsVal) :
  replay (e1 ++ e2) h = replay e2 (replay e1 h).
Proof. unfold replay. apply fold_left_app. Qed.

Lemma lookup_replay_leaves key (evs : list Event) (h : gmap string JsVal) :
  forallb (leaves key) evs = true -> replay evs h !! key = h !! key.
Proof.
  revert h. induction evs as [|e evs IH]; intros h H; simpl in *; [reflexivity|].
  apply andb_true_iff in H as [He H]. rewrite (IH _ H).
  destruct e as [n v| |]; simpl in *; try reflexivity.
  apply lookup_insert_ne. intros Heq. rewrite Heq, String.eqb_refl in He. discriminate.
Qed.

Lemma last_write_snoc key (evs : list Event) (e : Event) :
  last_write key (evs ++ [e]) =
  match e with
  | EvSetHeader n v => if String.eqb (lower n) key then Some v else last_write key evs
  | _ => last_write key evs
  end.
Proof. unfold last_write. rewrite fold_left_app. reflexivity. Qed.

Lemma lookup_replay key (evs : list Event) (h : gmap string JsVal) :
  replay evs h !! key =
  match last_write key evs with Some v => Some v | None => h !! key end.
Proof.
  induction evs as [|e evs IH] using rev_ind; [reflexivity|].
  rewrite replay_app, last_write_snoc. simpl.
  destruct e as [n v| |]; simpl; try exact IH.
  destruct (String.eqb_spec (lower n) key) as [->|Hne].
  - apply lookup_insert_eq.
  - rewrite lookup_insert_ne by exact Hne. exact IH.
Qed.

(** Writing the same headers again changes nothing: [setHeader] overwrites. *)
Lemma replay_idempotent (evs : list Event) (h : gmap string JsVal) :
  replay evs (replay evs h) = replay evs h.
Proof.
  apply map_eq. intros key. rewrite (lookup_replay key evs (replay evs h)).
  rewrite lookup_replay. destruct (last_write key evs); reflexivity.
Qed.

(** ** Code that reads nothing of the response but Content-Type *)

Lemma tame_ret {A} (a : A) : tame (mret a).
Proof. intros h. repeat split. Qed.

Lemma tame_lift {A} (c : Completion A) : tame (lift c).
Proof. intros h. repeat split. Qed.

Lemma tame_next : tame next.
Proof. intros h. repeat split. Qed.

Lemma tame_req_get req name : tame (req_get req name).
Proof. intros h. repeat split. Qed.

Lemma tame_setHeader {R : Response} name v :
  leaves "content-type" (EvSetHeader name v) = true -> tame (setHeader name v).
Proof.
  intros H h. unfold setHeader. destruct (accepts name v).
  - split; [reflexivity|]. split; [|intros; split; reflexivity].
    change (leaves "content-type" (EvSetHeader name v) && true = true).
    rewrite H. reflexivity.
  - split; [reflexivity|]. split; [reflexivity|]. intros; split; reflexivity.
Qed.

Lemma tame_res_get_content_type : tame (res_get "Content-Type").
Proof.
  intros h. split; [reflexivity|]. split; [reflexivity|].
  intros h' Heq. split; [|reflexivity]. unfold res_get. cbn [completion].
  change (lower "Content-Type") with "content-type". rewrite Heq. reflexivity.
Qed.

Lemma tame_bind {A B} (m : M A) (f : A -> M B) :
  tame m -> (forall a, tame (f a)) -> tame (m ≫= f).
Proof.
  intros Hm Hf h. destruct (Hm h) as (Hh & Hl & Hd).
  rewrite !run_bind. destruct (completion (m h)) as [a|e] eqn:Hc; simpl.
  - destruct (Hf a (headers (m h))) as (Hh' & Hl' & Hd').
    split; [|split].
    + rewrite replay_app, <- Hh. exact Hh'.
    + rewrite forallb_app, Hl. exact Hl'.
    + intros h' Heq. destruct (Hd h' Heq) as [Hc' He'].
      rewrite run_bind, Hc'. simpl. rewrite He'.
      destruct (Hm h') as (Hh2 & Hl2 & _).
      destruct (Hd' (headers (m h'))) as [Hc3 He3].
      { rewrite Hh2, Hh, He'.
        rewrite !lookup_replay_leaves by exact Hl. exact Heq. }
      rewrite Hc3, He3. split; reflexivity.
  - split; [exact Hh|split; [exact Hl|]].
    intros h' Heq. destruct (Hd h' Heq) as [Hc' He'].
    rewrite run_bind, Hc'. simpl. split; [reflexivity | exact He'].
Qed.

Lemma tame_if {A} (b : bool) (m1 m2 : M A) :
  tame m1 -> tame m2 -> tame (if b then m1 else m2).
Proof. destruct b; auto. Qed.

Lemma tame_set_if_truthy {R : Response} name v :
  (forall v, leaves "content-type" (EvSetHeader name v) = true) ->
  tame (set_if_truthy name v).
Proof.
  intros H. unfold set_if_truthy.
  apply tame_if; [apply tame_setHeader, H | apply tame_ret].
Qed.

(** ** The header values on a typed configuration *)

Lemma append_assoc (s t u : string) : (s +:+ t) +:+ u = s +:+ t +:+ u.
Proof.
  induction s as [|c s IH]; [reflexivity|].
  rewrite !append_cons, IH. reflexivity.
Qed.

Lemma append_nil_r (s : string) : s +:+ "" = s.
Proof.
  induction s as [|c s IH]; [reflexivity|]. rewrite append_cons, IH. reflexivity.
Qed.

Lemma hstsValue_printed (config : HstsConfig) (n : string) :
  ToString (maxAge config) = Normal n ->
  hstsValue config
  = Normal ("max-age=" +:+ n
            +:+ suffix_if (truthy (includeSubDomains config)) "; includeSubDomains"
            +:+ suffix_if (truthy (preload config)) "; preload").
Proof.
  intros Hn. unfold hstsValue, suffix_if. rewrite Hn. cbn [mbind Completion_bind].
  destruct (truthy (includeSubDomains config)), (truthy (preload config)); f_equal;
    rewrite ?append_assoc, ?append_nil_r; reflexivity.
Qed.

Lemma hstsValue_typed (n : Z) (enabled subdomains preloaded : bool) :
  isSafeInteger n = true ->
  hstsValue {| hsts_enabled := JBool enabled; maxAge := JNum n;
               includeSubDomains := JBool subdomains; preload := JBool preloaded |}
  = Normal (hsts_rendering n subdomains preloaded).
Proof.
  intros Hsafe. rewrite (hstsValue_printed _ (pretty n)).
  - reflexivity.
  - cbn [maxAge ToString]. unfold Number_toString. rewrite Hsafe. reflexivity.
Qed.

Lemma hstsValue_number (config : HstsConfig) :
  is_number (maxAge config) = true -> is_normal (hstsValue config) = true.
Proof.
  unfold hstsValue. destruct (maxAge config); try discriminate. reflexivity.
Qed.

Lemma omap_cons_app {A B} (f : A -> option B) (x : A) (l : list A) :
  omap f (x :: l) = (option_list (f x) ++ omap f l)%list.
Proof. cbn. destruct (f x); reflexivity. Qed.

Lemma push_sources_normal (props : list (string * JsVal)) (prop name : string)
    (acc : list string) :
  match get_own props prop with None => true | Some v => is_str_array v end = true ->
  push_sources (JObj props) prop name acc
  = Normal (acc ++ option_list (render_directive props (prop, name)))%list.
Proof.
  unfold push_sources, render_directive. cbn [get_prop own_entries fst snd mbind Completion_bind].
  destruct (get_own props prop) as [v|]; cbn [default from_option id option_list];
    intros H.
  - rewrite (str_array_strings v H), strings_of_str_array.
    change (truthy (str_array (strings_of v))) with true. cbv iota.
    rewrite call_join_strings. reflexivity.
  - cbn [truthy]. rewrite app_nil_r. reflexivity.
Qed.

Lemma cspValue_normal (props : list (string * JsVal)) :
  normal_directives (JObj props) = true ->
  cspValue (JObj props) = Normal (csp_rendering props).
Proof.
  unfold normal_directives, source_directives. cbn [forallb].
  rewrite !andb_true_iff.
  intros [(H1 & H2 & H3 & H4 & H5 & H6 & H7 & H8 & H9 & H10 & H11 & _) Hu].
  unfold cspValue, csp_rendering, source_directives.
  rewrite (push_sources_normal _ _ _ _ H1); cbn [mbind Completion_bind].
  rewrite (push_sources_normal _ _ _ _ H2); cbn [mbind Completion_bind].
  rewrite (push_sources_normal _ _ _ _ H3); cbn [mbind Completion_bind].
  rewrite (push_sources_normal _ _ _ _ H4); cbn [mbind Completion_bind].
  rewrite (push_sources_normal _ _ _ _ H5); cbn [mbind Completion_bind].
  rewrite (push_sources_normal _ _ _ _ H6); cbn [mbind Completion_bind].
  rewrite (push_sources_normal _ _ _ _ H7); cbn [mbind Completion_bind].
  rewrite (push_sources_normal _ _ _ _ H8); cbn [mbind Completion_bind].
  rewrite (push_sources_normal _ _ _ _ H9); cbn [mbind Completion_bind].
  rewrite (push_sources_normal _ _ _ _ H10); cbn [mbind Completion_bind].
  rewrite (push_sources_normal _ _ _ _ H11); cbn [mbind Completion_bind].
  unfold push_flag. cbn [get_prop own_entries mbind Completion_bind].
  rewrite !omap_cons_app. cbn [omap list_omap]. rewrite app_nil_l, !app_nil_r, <- !app_assoc.
  destruct (get_own props "upgradeInsecureRequests") as [[| |[]| | | |]|];
    try discriminate; cbn [default from_option id truthy];
    rewrite ?app_nil_r, <- ?app_assoc; reflexivity.
Qed.

Lemma permissions_entry_normal (feature : string) (allowList : JsVal) :
  is_str_array allowList = true ->
  permissions_entry (feature, allowList)
  = Normal (feature +:+ "=(" +:+ String.concat " " (strings_of allowList) +:+ ")").
Proof.
  intros H. rewrite (str_array_strings _ H), strings_of_str_array.
  generalize (strings_of allowList). intros l. unfold permissions_entry.
  assert (Hlen : get_prop (str_array l) "length" = Normal (JNum (Z.of_nat (length l)))).
  { unfold str_array, get_prop. cbn [String.eqb]. rewrite length_map. reflexivity. }
  rewrite Hlen. cbn [mbind Completion_bind js_gt_zero].
  destruct l as [|s l].
  - reflexivity.
  - replace (0 <? Z.of_nat (length (s :: l))) with true
      by (symmetry; apply Z.ltb_lt; simpl; lia).
    rewrite call_join_strings. reflexivity.
Qed.

Lemma permissionsValue_normal (props : list (string * JsVal)) :
  normal_permissions (JObj props) = true ->
  permissionsValue (JObj props) = Normal (permissions_rendering props).
Proof.
  unfold normal_permissions, permissionsValue, permissions_rendering, Object_entries.
  cbn [nullish own_entries mbind Completion_bind]. intros H.
  assert (Hmap : array_map permissions_entry props
                 = Normal (map (fun '(feature, allowList) =>
                                  feature +:+ "=(" +:+
                                  String.concat " " (strings_of allowList) +:+ ")")
                               props)).
  { induction props as [|[feature allowList] props IH]; [reflexivity|].
    cbn [forallb] in H. apply andb_true_iff in H as [Hx H].
    cbn [array_map map]. rewrite (permissions_entry_normal _ _ Hx).
    cbn [mbind Completion_bind]. rewrite (IH H). reflexivity. }
  rewrite Hmap. reflexivity.
Qed.

(** ** The blocks of the middleware *)

Ltac tame_step :=
  lazymatch goal with
  | |- tame (mbind _ _) => apply tame_bind; [|intros]
  | |- tame (set_if_truthy _ _) => apply tame_set_if_truthy; intros; reflexivity
  | |- tame (if _ then _ else _) => apply tame_if
  | |- tame (mret _) => apply tame_ret
  | |- tame (lift _) => apply tame_lift
  | |- tame next => apply tame_next
  | |- tame (res_get _) => apply tame_res_get_content_type
  | |- tame (req_get _ _) => apply tame_req_get
  | |- tame (setHeader _ _) => apply tame_setHeader; reflexivity
  end.

Ltac tame_steps := repeat tame_step.

Ltac respects_step :=
  lazymatch goal with
  | |- respects _ (mbind _ _) => apply respects_bind; [|intros]
  | |- respects _ (set_if_truthy _ _) =>
      apply respects_set_if_truthy; intros; reflexivity
  | |- respects _ (if _ then _ else _) => apply respects_if
  | |- respects _ (mret _) => apply respects_ret
  | |- respects _ (lift _) => apply respects_lift
  | |- respects _ next => apply respects_next; reflexivity
  | |- respects _ (res_get _) => apply respects_res_get
  | |- respects _ (req_get _ _) => apply respects_req_get; reflexivity
  | |- respects _ (setHeader _ _) => apply respects_setHeader; reflexivity
  end.

Ltac respects_steps := repeat respects_step.

Lemma tame_hsts_block {R : Response} config : tame (hsts_block config).
Proof. unfold hsts_block. tame_steps. Qed.

Lemma tame_csp_block {R : Response} config : tame (csp_block config).
Proof. unfold csp_block. tame_steps. Qed.

Lemma tame_permissions_block {R : Response} config : tame (permissions_block config).
Proof. unfold permissions_block. tame_steps. Qed.

Lemma tame_cache_block {R : Response} config : tame (cache_block config).
Proof. unfold cache_block. tame_steps. Qed.

Lemma tame_securityHeadersMiddleware {R : Response} config req :
  tame (securityHeadersMiddleware config req).
Proof.
  unfold securityHeadersMiddleware, hsts_block, csp_block, permissions_block,
    cache_block.
  tame_steps.
Qed.

Lemma tame_content_type {A} (m : M A) (h : gmap string JsVal) :
  tame m -> headers (m h) !! "content-type" = h !! "content-type".
Proof.
  intros Ht. destruct (Ht h) as (Hh & Hl & _). rewrite Hh.
  apply lookup_replay_leaves, Hl.
Qed.

Lemma hsts_block_normal config h :
  is_number (maxAge (hsts config)) = true ->
  completion (hsts_block config h) = Normal tt.
Proof.
  intros H. apply hstsValue_number in H. unfold hsts_block.
  destruct (truthy (hsts_enabled (hsts config))); [|reflexivity].
  rewrite run_bind. unfold lift. cbn [completion].
  destruct (hstsValue (hsts config)); [reflexivity | discriminate].
Qed.

Lemma csp_block_run config props h :
  directives (csp config) = JObj props ->
  normal_directives (JObj props) = true ->
  csp_block config h =
  if truthy (csp_enabled (csp config))
  then mkOutcome (Normal tt) (<["content-security-policy" := JStr (csp_rendering props)]> h)
                 [EvSetHeader "Content-Security-Policy" (JStr (csp_rendering props))]
  else mkOutcome (Normal tt) h [].
Proof.
  intros Hd Hn. unfold csp_block. rewrite Hd.
  destruct (truthy (csp_enabled (csp config))); [|reflexivity].
  rewrite run_bind. unfold lift. cbn [completion].
  rewrite (cspValue_normal _ Hn). reflexivity.
Qed.

Lemma csp_block_normal config h :
  normal_directives (directives (csp config)) = true ->
  completion (csp_block config h) = Normal tt.
Proof.
  intros Hn. destruct (directives (csp config)) as [| | | | | |props] eqn:Hd;
    try discriminate.
  rewrite (csp_block_run _ _ _ Hd Hn).
  destruct (truthy (csp_enabled (csp config))); reflexivity.
Qed.

Lemma permissions_block_run config props h :
  permissionsPolicy config = JObj props ->
  normal_permissions (JObj props) = true ->
  permissions_block config h =
  mkOutcome (Normal tt)
            (<["permissions-policy" := JStr (permissions_rendering props)]> h)
            [EvSetHeader "Permissions-Policy" (JStr (permissions_rendering props))].
Proof.
  intros Hp Hn. unfold permissions_block. rewrite Hp. cbn [truthy].
  rewrite run_bind. unfold lift. cbn [completion].
  rewrite (permissionsValue_normal _ Hn). reflexivity.
Qed.

Lemma permissions_block_normal config h :
  normal_permissions (permissionsPolicy config) = true ->
  completion (permissions_block config h) = Normal tt.
Proof.
  intros Hn. destruct (permissionsPolicy config) as [| | | | | |props] eqn:Hp;
    try discriminate.
  rewrite (permissions_block_run _ _ _ Hp Hn). reflexivity.
Qed.

Lemma set_if_truthy_normal name v h :
  completion (set_if_truthy name v h) = Normal tt.
Proof. unfold set_if_truthy. destruct (truthy v); reflexivity. Qed.

(** The content type the cache-control rule reads from a response whose
    Content-Type is a string or absent. *)
Lemma read_content_type (h : gmap string JsVal) :
  normal_response h = true ->
  js_or (default JUndefined (h !! "content-type")) (JStr "") = JStr (content_type_of h).
Proof.
  unfold normal_response, content_type_of.
  destruct (h !! "content-type") as [[| | | |s| |]|]; try discriminate; intros _;
    try reflexivity.
  unfold js_or. cbn [default from_option id truthy].
  destruct (String.eqb_spec s ""); [subst|]; reflexivity.
Qed.

Lemma is_dynamic_content_string (s : string) :
  is_dynamic_content (JStr s) =
  Normal (negb (includes "image" s || includes "font" s || includes "css" s
                || includes "javascript" s)).
Proof.
  unfold is_dynamic_content. cbn [call_includes mbind Completion_bind].
  destruct (includes "image" s), (includes "font" s), (includes "css" s); reflexivity.
Qed.

Lemma static_asset_includes (s : string) :
  includes "image" s || includes "font" s || includes "css" s
  || includes "javascript" s = true <-> static_asset s.
Proof.
  unfold static_asset. rewrite !orb_true_iff, !includes_contains. tauto.
Qed.

Lemma cache_block_run config h :
  normal_response h = true ->
  cache_block config h =
  if includes "image" (content_type_of h) || includes "font" (content_type_of h)
     || includes "css" (content_type_of h) || includes "javascript" (content_type_of h)
  then mkOutcome (Normal tt) h []
  else mkOutcome (Normal tt)
         (<["expires" := JStr "0"]>
            (<["pragma" := JStr "no-cache"]>
               (<["cache-control" := cacheControl config]> h)))
         [EvSetHeader "Cache-Control" (cacheControl config);
          EvSetHeader "Pragma" (JStr "no-cache");
          EvSetHeader "Expires" (JStr "0")].
Proof.
  intros Hn. unfold cache_block. rewrite !run_bind.
  unfold res_get at 1. cbn [completion headers events mret M_ret].
  change (lower "Content-Type") with "content-type".
  rewrite (read_content_type _ Hn). unfold lift at 1. cbn [completion headers events].
  rewrite is_dynamic_content_string.
  destruct (includes "image" (content_type_of h) || includes "font" (content_type_of h)
            || includes "css" (content_type_of h)
            || includes "javascript" (content_type_of h)); reflexivity.
Qed.

(** ** Sequences of blocks *)

(** Steady blocks run to the end: the code after them starts from a
    response with the same Content-Type. *)
Lemma seq_blocks_steady (Q : Event -> bool) (bs : list (M unit)) (k : M unit)
    (h : gmap string JsVal) :
  Forall (steady Q) bs ->
  exists pre h',
    h' !! "content-type" = h !! "content-type" /\
    forallb Q pre = true /\
    seq_blocks bs k h = prepend pre (k h').
Proof.
  intros Hbs. revert h. induction Hbs as [|b bs (Ht & Hr & Hn) _ IH]; intros h.
  - exists [], h. split; [reflexivity|]. split; [reflexivity|].
    cbn [seq_blocks foldr]. destruct (k h); reflexivity.
  - destruct (IH (headers (b h))) as (pre & h' & Hct & HQ & Hrun).
    exists (events (b h) ++ pre)%list, h'. split; [|split].
    + rewrite Hct. apply tame_content_type, Ht.
    + rewrite forallb_app, (Hr h), HQ. reflexivity.
    + cbn [seq_blocks foldr]. rewrite run_bind, (Hn h). cbn zeta.
      fold (seq_blocks bs k). rewrite Hrun. unfold prepend. cbn [completion headers events].
      rewrite app_assoc. reflexivity.
Qed.

Lemma header_writes_quiet name (evs : list Event) :
  forallb (leaves (lower name)) evs = true -> header_writes name evs = [].
Proof.
  unfold header_writes. induction evs as [|e evs IH]; simpl; [reflexivity|].
  intros H. apply andb_true_iff in H as [He H].
  destruct e as [n v| |]; simpl in *; auto.
  destruct (String.eqb (lower n) (lower name)); [discriminate | auto].
Qed.

(** The writes to a header by the one block that owns it. *)
Lemma header_writes_here {B} name (m : M unit) (f : unit -> M B) h :
  (forall a, respects (leaves (lower name)) (f a)) ->
  header_writes name (events ((m ≫= f) h)) = header_writes name (events (m h)).
Proof.
  intros Hf. rewrite run_bind. destruct (completion (m h)) as [a|e]; [|reflexivity].
  cbn [events]. rewrite header_writes_app, (header_writes_quiet name (events (f a _))).
  - apply app_nil_r.
  - apply Hf.
Qed.

Lemma steady_set_if_truthy Q name v :
  (forall v, Q (EvSetHeader name v) = true) ->
  (forall v, leaves "content-type" (EvSetHeader name v) = true) ->
  steady Q (set_if_truthy name v).
Proof.
  intros HQ Hct. split; [|split].
  - apply tame_set_if_truthy, Hct.
  - apply respects_set_if_truthy, HQ.
  - intros h. apply set_if_truthy_normal.
Qed.

Lemma steady_hsts_block Q config :
  (forall v, Q (EvSetHeader "Strict-Transport-Security" v) = true) ->
  is_number (maxAge (hsts config)) = true ->
  steady Q (hsts_block config).
Proof.
  intros HQ Hn. split; [|split].
  - apply tame_hsts_block.
  - unfold hsts_block. respects_steps. apply respects_setHeader, HQ.
  - intros h. apply hsts_block_normal, Hn.
Qed.

Lemma steady_csp_block Q config :
  (forall v, Q (EvSetHeader "Content-Security-Policy" v) = true) ->
  normal_directives (directives (csp config)) = true ->
  steady Q (csp_block config).
Proof.
  intros HQ Hn. split; [|split].
  - apply tame_csp_block.
  - unfold csp_block. respects_steps. apply respects_setHeader, HQ.
  - intros h. apply csp_block_normal, Hn.
Qed.

Lemma steady_permissions_block Q config :
  (forall v, Q (EvSetHeader "Permissions-Policy" v) = true) ->
  normal_permissions (permissionsPolicy config) = true ->
  steady Q (permissions_block config).
Proof.
  intros HQ Hn. split; [|split].
  - apply tame_permissions_block.
  - unfold permissions_block. respects_steps. apply respects_setHeader, HQ.
  - intros h. apply permissions_block_normal, Hn.
Qed.

Ltac steady_block :=
  lazymatch goal with
  | |- steady _ (set_if_truthy _ _) =>
      apply steady_set_if_truthy; intros; reflexivity
  | |- steady _ (hsts_block _) =>
      apply steady_hsts_block; [intros; reflexivity | assumption]
  | |- steady _ (csp_block _) =>
      apply steady_csp_block; [intros; reflexivity | assumption]
  | |- steady _ (permissions_block _) =>
      apply steady_permissions_block; [intros; reflexivity | assumption]
  end.

Ltac steady_blocks :=
  repeat (apply List.Forall_cons; [steady_block|]); apply List.Forall_nil.

Lemma normal_config_parts config :
  normal_config config = true ->
  is_number (maxAge (hsts config)) = true /\
  normal_directives (directives (csp config)) = true /\
  normal_permissions (permissionsPolicy config) = true.
Proof. unfold normal_config. rewrite !andb_true_iff. tauto. Qed.

Lemma middleware_blocks config req :
  securityHeadersMiddleware config req
  = seq_blocks (prefix_blocks config) (cache_block config;; next).
Proof. reflexivity. Qed.

Lemma seq_blocks_split (n : nat) (bs : list (M unit)) (k : M unit) :
  seq_blocks bs k = seq_blocks (take n bs) (seq_blocks (drop n bs) k).
Proof.
  unfold seq_blocks. rewrite <- foldr_app, take_drop. reflexivity.
Qed.

(** Run the steady blocks in front: the goal speaks of what follows them. *)
Ltac run_prefix Q pre h' Hct HQ :=
  match goal with
  | |- context [seq_blocks ?bs ?k ?h] =>
      let Hrun := fresh "Hrun" in
      destruct (seq_blocks_steady Q bs k h) as (pre & h' & Hct & HQ & Hrun);
      [ steady_blocks | rewrite Hrun; clear Hrun ]
  end.

Ltac tail_respects :=
  intros; cbn [seq_blocks foldr];
  unfold hsts_block, csp_block, permissions_block, cache_block; respects_steps.

(** ** Running on a response that refuses headers *)

Lemma admitted_accepted {R : Response} (e1 e2 : list Event) :
  forallb accepted e1 = true -> admitted (e1 ++ e2) = (e1 ++ admitted e2)%list.
Proof.
  induction e1 as [|e e1 IH]; [reflexivity|].
  cbn [forallb app admitted]. intros H. apply andb_true_iff in H as [He H].
  rewrite He, (IH H). reflexivity.
Qed.

Lemma admitted_refused {R : Response} (e1 e2 : list Event) :
  forallb accepted e1 = false -> admitted (e1 ++ e2) = admitted e1.
Proof.
  induction e1 as [|e e1 IH]; [discriminate|].
  cbn [forallb app admitted]. destruct (accepted e); [|reflexivity].
  cbn [andb]. intros H. rewrite (IH H). reflexivity.
Qed.

(** Code that writes no header goes the same way on every response. *)
Lemma follows_quiet {A} {R : Response} (m : M A) :
  respects accepted m -> follows m m.
Proof. intros Hm h. rewrite (Hm h). reflexivity. Qed.

Lemma follows_setHeader {R : Response} name v :
  follows (setHeader name v) (setHeader (R := header_sink) name v).
Proof.
  intros h. unfold setHeader. cbn [accepts header_sink events forallb accepted].
  change (@accepts header_sink name v) with true. cbv iota.
  cbn [events forallb accepted]. rewrite andb_true_r.
  destruct (accepts name v) eqn:E; [reflexivity|]. split; [reflexivity|].
  cbn [admitted accepted events]. rewrite E. reflexivity.
Qed.

Lemma follows_bind {A B} {R : Response} (m sink : M A) (f g : A -> M B) :
  follows m sink -> (forall a, follows (f a) (g a)) ->
  follows (m ≫= f) (sink ≫= g).
Proof.
  intros Hm Hf h. specialize (Hm h). rewrite (run_bind sink g h), (run_bind m f h).
  destruct (forallb accepted (events (sink h))) eqn:Hs.
  - rewrite Hm. destruct (completion (sink h)) as [a|e].
    + cbn zeta. cbn [events]. rewrite forallb_app, Hs. cbn [andb].
      specialize (Hf a (headers (sink h))).
      destruct (forallb accepted (events (g a (headers (sink h))))).
      * rewrite Hf. reflexivity.
      * destruct Hf as (Hc & He). cbn [completion events]. split; [exact Hc|].
        rewrite He, (admitted_accepted _ _ Hs). reflexivity.
    + cbn [events]. rewrite Hs. reflexivity.
  - destruct Hm as (Hc & He). rewrite Hc.
    destruct (completion (sink h)) as [a|e]; cbn zeta; cbn [completion events].
    + rewrite forallb_app, Hs. cbn [andb]. split; [reflexivity|].
      rewrite He, (admitted_refused _ _ Hs). reflexivity.
    + rewrite Hs. split; [reflexivity | exact He].
Qed.

Lemma follows_if {A} {R : Response} (b : bool) (m1 m2 s1 s2 : M A) :
  follows m1 s1 -> follows m2 s2 ->
  follows (if b then m1 else m2) (if b then s1 else s2).
Proof. destruct b; auto. Qed.

Ltac follows_step :=
  lazymatch goal with
  | |- follows (mbind _ _) (mbind _ _) => apply follows_bind; [|intros]
  | |- follows (setHeader _ _) _ => apply follows_setHeader
  | |- follows (if _ then _ else _) _ => apply follows_if
  | |- follows _ _ => apply follows_quiet; respects_steps
  end.

Ltac follows_steps := repeat follows_step.

Lemma follows_securityHeadersMiddleware {R : Response} config req :
  follows (securityHeadersMiddleware config req)
          (securityHeadersMiddleware (R := header_sink) config req).
Proof.
  unfold securityHeadersMiddleware, hsts_block, csp_block, permissions_block,
    cache_block, set_if_truthy.
  follows_steps.
Qed.

Lemma follows_rateLimitHeadersMiddleware {R : Response} limits req :
  follows (rateLimitHeadersMiddleware limits req)
          (rateLimitHeadersMiddleware (R := header_sink) limits req).
Proof. unfold rateLimitHeadersMiddleware. follows_steps. Qed.

Lemma follows_botDetectionHeadersMiddleware {R : Response} req :
  follows (botDetectionHeadersMiddleware req)
          (botDetectionHeadersMiddleware (R := header_sink) req).
Proof. unfold botDetectionHeadersMiddleware, set_if_truthy. follows_steps. Qed.

Lemma follows_securityHeadersHono_handler {R : Response} aconfig :
  follows (securityHeadersHono_handler aconfig)
          (securityHeadersHono_handler (R := header_sink) aconfig).
Proof. unfold securityHeadersHono_handler. follows_steps. Qed.

(** On a response that stores every write of the run, the run is the run
    on the header sink. *)
Lemma follows_accepted {A} {R : Response} (m sink : M A) (h : gmap string JsVal) :
  follows m sink ->
  forallb accepted (events (sink h)) = true ->
  m h = sink h.
Proof. intros Hf Ha. specialize (Hf h). rewrite Ha in Hf. exact Hf. Qed.

(** ** The header policy *)

(** C2. The Strict-Transport-Security header is emitted exactly when
    [hsts.enabled] is true, and its value is [max-age=<n>] followed by
    [; includeSubDomains] and then [; preload], each present exactly when
    its flag is true.  The number [n] is a safe integer, which prints as
    its decimal digits. *)
Theorem hsts_header_emitted (config : Config) (req : Request)
    (h : gmap string JsVal) (n : Z) (enabled subdomains preloaded : bool) :
  hsts config = {| hsts_enabled := JBool enabled; maxAge := JNum n;
                   includeSubDomains := JBool subdomains;
                   preload := JBool preloaded |} ->
  isSafeInteger n = true ->
  header_writes "Strict-Transport-Security"
    (events (securityHeadersMiddleware config req h))
  = if enabled then [JStr (hsts_rendering n subdomains preloaded)] else [].
Proof.
  intros Hh Hsafe. unfold securityHeadersMiddleware. rewrite header_writes_here.
  - unfold hsts_block. rewrite Hh. cbn [hsts_enabled truthy].
    destruct enabled; [|reflexivity].
    rewrite run_bind. unfold lift. cbn [completion].
    rewrite (hstsValue_typed _ _ _ _ Hsafe). reflexivity.
  - tail_respects.
Qed.

(** C3. With CSP enabled, the Content-Security-Policy value is the
    [; ]-joined rendering of the directives present in the directive map,
    each as its kebab-case name and its space-joined tokens, in the fixed
    order, with the bare [upgrade-insecure-requests] last when
    [upgradeInsecureRequests] is true. *)
Theorem csp_header_rendering (config : Config) (req : Request)
    (h : gmap string JsVal) (props : list (string * JsVal)) :
  is_number (maxAge (hsts config)) = true ->
  truthy (csp_enabled (csp config)) = true ->
  directives (csp config) = JObj props ->
  normal_directives (JObj props) = true ->
  header_writes "Content-Security-Policy"
    (events (securityHeadersMiddleware config req h))
  = [JStr (csp_rendering props)].
Proof.
  intros Hn He Hd Hnd.
  rewrite middleware_blocks, (seq_blocks_split 1 (prefix_blocks config)).
  cbn [prefix_blocks take drop firstn skipn].
  run_prefix (leaves (lower "Content-Security-Policy")) pre h' Hct HQ.
  unfold prepend. cbn [events seq_blocks foldr].
  rewrite header_writes_app, (header_writes_quiet _ _ HQ), header_writes_here.
  - rewrite (csp_block_run _ _ _ Hd Hnd), He. reflexivity.
  - tail_respects.
Qed.

(** C4 (amended). The Permissions-Policy header is emitted whenever the
    configured [permissionsPolicy] is a map, the empty map included; its
    value is the comma-joined list of [<feature>=(<space-joined origins>)]
    in key order, an empty origin list giving [()] and the empty map the
    empty string. *)
Theorem permissions_header_rendering (config : Config) (req : Request)
    (h : gmap string JsVal) (props : list (string * JsVal)) :
  is_number (maxAge (hsts config)) = true ->
  normal_directives (directives (csp config)) = true ->
  permissionsPolicy config = JObj props ->
  normal_permissions (JObj props) = true ->
  header_writes "Permissions-Policy"
    (events (securityHeadersMiddleware config req h))
  = [JStr (permissions_rendering props)].
Proof.
  intros Hn Hnd Hp Hnp.
  rewrite middleware_blocks, (seq_blocks_split 6 (prefix_blocks config)).
  cbn [prefix_blocks take drop firstn skipn].
  run_prefix (leaves (lower "Permissions-Policy")) pre h' Hct HQ.
  unfold prepend. cbn [events seq_blocks foldr].
  rewrite header_writes_app, (header_writes_quiet _ _ HQ), header_writes_here.
  - rewrite (permissions_block_run _ _ _ Hp Hnp). reflexivity.
  - tail_respects.
Qed.

Lemma forallb_weaken {A} (P Q : A -> bool) (l : list A) :
  (forall x, P x = true -> Q x = true) -> forallb P l = true -> forallb Q l = true.
Proof.
  intros HPQ. induction l as [|x l IH]; simpl; [reflexivity|].
  intros H. apply andb_true_iff in H as [Hx H]. rewrite (HPQ _ Hx), (IH H). reflexivity.
Qed.

Lemma before_cache_parts (e : Event) :
  before_cache e = true ->
  is_set_header e = true /\ leaves "cache-control" e = true /\
  leaves "pragma" e = true /\ leaves "expires" e = true.
Proof. unfold before_cache. rewrite !andb_true_iff. tauto. Qed.

(** The whole run on a typed configuration and response. *)
Lemma middleware_normal_run (config : Config) (req : Request) (h : gmap string JsVal) :
  normal_config config = true ->
  normal_response h = true ->
  exists pre,
    forallb before_cache pre = true /\
    completion (securityHeadersMiddleware config req h) = Normal tt /\
    events (securityHeadersMiddleware config req h)
    = (pre ++
       (if includes "image" (content_type_of h) || includes "font" (content_type_of h)
           || includes "css" (content_type_of h)
           || includes "javascript" (content_type_of h)
        then []
        else [EvSetHeader "Cache-Control" (cacheControl config);
              EvSetHeader "Pragma" (JStr "no-cache");
              EvSetHeader "Expires" (JStr "0")])
       ++ [EvNext])%list.
Proof.
  intros Hc Hr. destruct (normal_config_parts _ Hc) as (Hn & Hnd & Hnp).
  rewrite middleware_blocks. unfold prefix_blocks.
  run_prefix before_cache pre h' Hct HQ.
  assert (Hr' : normal_response h' = true)
    by (unfold normal_response in *; rewrite Hct; exact Hr).
  assert (Hty : content_type_of h' = content_type_of h)
    by (unfold content_type_of; rewrite Hct; reflexivity).
  exists pre. split; [exact HQ|].
  unfold prepend. cbn [completion events]. rewrite run_bind.
  rewrite (cache_block_run _ _ Hr'), Hty.
  destruct (includes "image" (content_type_of h) || includes "font" (content_type_of h)
            || includes "css" (content_type_of h)
            || includes "javascript" (content_type_of h)); split; reflexivity.
Qed.

(** C5. Cache-Control (with the configured value), [Pragma: no-cache] and
    [Expires: 0] are emitted exactly when the Content-Type already set on
    the response, read as the empty string when absent, contains none of
    [image], [font], [css], [javascript]. *)
Theorem cache_control_rule (config : Config) (req : Request) (h : gmap string JsVal) :
  normal_config config = true ->
  normal_response h = true ->
  (~ static_asset (content_type_of h) ->
   header_writes "Cache-Control" (events (securityHeadersMiddleware config req h))
   = [cacheControl config] /\
   header_writes "Pragma" (events (securityHeadersMiddleware config req h))
   = [JStr "no-cache"] /\
   header_writes "Expires" (events (securityHeadersMiddleware config req h))
   = [JStr "0"]) /\
  (static_asset (content_type_of h) ->
   header_writes "Cache-Control" (events (securityHeadersMiddleware config req h)) = [] /\
   header_writes "Pragma" (events (securityHeadersMiddleware config req h)) = [] /\
   header_writes "Expires" (events (securityHeadersMiddleware config req h)) = []).
Proof.
  intros Hc Hr.
  destruct (middleware_normal_run config req h Hc Hr) as (pre & HQ & _ & ->).
  assert (Hcc : header_writes "Cache-Control" pre = []).
  { apply header_writes_quiet. revert HQ. apply forallb_weaken.
    intros e He. apply before_cache_parts in He. tauto. }
  assert (Hpr : header_writes "Pragma" pre = []).
  { apply header_writes_quiet. revert HQ. apply forallb_weaken.
    intros e He. apply before_cache_parts in He. tauto. }
  assert (Hex : header_writes "Expires" pre = []).
  { apply header_writes_quiet. revert HQ. apply forallb_weaken.
    intros e He. apply before_cache_parts in He. tauto. }
  rewrite !header_writes_app, Hcc, Hpr, Hex.
  pose proof (static_asset_includes (content_type_of h)) as Hs.
  destruct (includes "image" (content_type_of h) || includes "font" (content_type_of h)
            || includes "css" (content_type_of h)
            || includes "javascript" (content_type_of h)).
  - split; [intros Hno; exfalso; apply Hno, Hs; reflexivity|].
    intros _. repeat split.
  - split; [intros _; repeat split|].
    intros Hyes. apply Hs in Hyes. discriminate.
Qed.

(** C6. Applying the middleware again changes no header: a second run
    from the headers the first one left, or sequenced after it, leaves the
    same header map as one run. *)
Theorem securityHeaders_idempotent (config : Config) (req : Request)
    (h : gmap string JsVal) :
  headers (securityHeadersMiddleware config req
             (headers (securityHeadersMiddleware config req h)))
  = headers (securityHeadersMiddleware config req h) /\
  headers ((securityHeadersMiddleware config req;;
            securityHeadersMiddleware config req) h)
  = headers (securityHeadersMiddleware config req h).
Proof.
  pose proof (tame_securityHeadersMiddleware config req) as Ht.
  assert (Hagain :
    headers (securityHeadersMiddleware config req
               (headers (securityHeadersMiddleware config req h)))
    = headers (securityHeadersMiddleware config req h)).
  { destruct (Ht h) as (Hh & Hl & Hd).
    destruct (Ht (headers (securityHeadersMiddleware config req h))) as (Hh2 & _).
    destruct (Hd (headers (securityHeadersMiddleware config req h))) as [_ He].
    { apply tame_content_type, Ht. }
    rewrite Hh2, He, Hh. apply replay_idempotent. }
  split; [exact Hagain|].
  rewrite run_bind.
  destruct (completion (securityHeadersMiddleware config req h)); [|reflexivity].
  exact Hagain.
Qed.

(** C8 (amended). On a typed configuration and a response whose
    Content-Type is a string and which stores every header the middleware
    writes, the middleware never throws, makes no call but header writes,
    and calls [next] exactly once, after its writes.  The writes are those
    of the run on the header sink: a response that refuses one of them
    makes the run throw there. *)
Theorem securityHeaders_never_throws {R : Response} (config : Config) (req : Request)
    (h : gmap string JsVal) :
  normal_config config = true ->
  normal_response h = true ->
  forallb accepted
    (events (securityHeadersMiddleware (R := header_sink) config req h)) = true ->
  calls_next_once (securityHeadersMiddleware config req h).
Proof.
  intros Hc Hr Ha.
  rewrite (follows_accepted _ _ h (follows_securityHeadersMiddleware config req) Ha).
  destruct (middleware_normal_run config req h Hc Hr) as (pre & HQ & Hn & He).
  split; [exact Hn|]. rewrite He, app_assoc. eexists. split; [reflexivity|].
  rewrite forallb_app. apply andb_true_iff. split.
  - revert HQ. apply forallb_weaken. intros e H. apply before_cache_parts in H. tauto.
  - destruct (includes "image" (content_type_of h) || includes "font" (content_type_of h)
              || includes "css" (content_type_of h)
              || includes "javascript" (content_type_of h)); reflexivity.
Qed.

(** C10. The middleware never reads the request: it makes no [req.get]
    call, and two runs on different requests from the same configuration
    and response headers have the same outcome. *)
Theorem securityHeaders_ignores_request (config : Config) (req1 req2 : Request)
    (h : gmap string JsVal) :
  forallb no_request_read (events (securityHeadersMiddleware config req1 h)) = true /\
  securityHeadersMiddleware config req1 h = securityHeadersMiddleware config req2 h.
Proof.
  split; [|reflexivity].
  assert (Hr : respects no_request_read (securityHeadersMiddleware config req1)).
  { unfold securityHeadersMiddleware, hsts_block, csp_block, permissions_block,
      cache_block. respects_steps. }
  apply Hr.
Qed.

(** ** Building the configuration *)

Lemma get_prop_property (v : JsVal) (k : string) :
  nullish v = false -> get_prop v k = Normal (property v k).
Proof.
  unfold property. destruct v; try discriminate; intros _; cbn [get_prop];
    try reflexivity; destruct (String.eqb k "length"); reflexivity.
Qed.

Lemma opt_get_property (v : JsVal) (k : string) :
  opt_get v k = Normal (property v k).
Proof.
  unfold opt_get. destruct (nullish v) eqn:Hv.
  - destruct v; try discriminate; reflexivity.
  - apply get_prop_property, Hv.
Qed.

Lemma option1_run (options : JsVal) (k : string) (d : JsVal) :
  nullish options = false ->
  option1 options k d = Normal (property options k ?? d).
Proof. intros H. unfold option1. rewrite (get_prop_property _ _ H). reflexivity. Qed.

Lemma option2_run (options : JsVal) (k1 k2 : string) (d : JsVal) :
  nullish options = false ->
  option2 options k1 k2 d = Normal (property (property options k1) k2 ?? d).
Proof.
  intros H. unfold option2. rewrite (get_prop_property _ _ H).
  cbn [mbind Completion_bind]. rewrite opt_get_property. reflexivity.
Qed.

Lemma default_param_nullish (options : JsVal) :
  options <> JNull -> nullish (default_param options) = false.
Proof. destruct options; intros H; try reflexivity. congruence. Qed.

Lemma property_default_param (options : JsVal) (k : string) :
  property (default_param options) k = property options k.
Proof. destruct options; reflexivity. Qed.

(** The built configuration, field by field. *)
Lemma securityHeaders_config_fields (options : JsVal) :
  options <> JNull ->
  exists config,
    securityHeaders_config options = Normal config /\
    forall f, config_field config f = supplied options f ?? field_default f.
Proof.
  intros Hn. apply default_param_nullish in Hn. unfold securityHeaders_config.
  rewrite !(option2_run _ _ _ _ Hn), !(option1_run _ _ _ Hn).
  cbn [mbind Completion_bind]. eexists. split; [reflexivity|].
  intros f. unfold supplied.
  destruct f; cbn [config_field field_path field_default hsts csp crossOrigin
                   hsts_enabled maxAge includeSubDomains preload csp_enabled
                   directives xFrameOptions xContentTypeOptions xXssProtection
                   referrerPolicy permissionsPolicy embedderPolicy openerPolicy
                   resourcePolicy cacheControl];
    rewrite property_default_param; reflexivity.
Qed.

Lemma get_own_set_own props k v k' :
  get_own (set_own props k v) k' = if String.eqb k k' then Some v else get_own props k'.
Proof.
  induction props as [|[k0 v0] props IH]; simpl.
  - reflexivity.
  - destruct (String.eqb_spec k0 k) as [->|Hne]; simpl.
    + destruct (String.eqb k k'); reflexivity.
    + destruct (String.eqb_spec k0 k') as [->|Hne'].
      * destruct (String.eqb_spec k k'); [congruence | reflexivity].
      * exact IH.
Qed.

Lemma property_set_own props k v k' :
  property (JObj (set_own props k v)) k'
  = if String.eqb k k' then v else default JUndefined (get_own props k').
Proof.
  unfold property. cbn [get_prop own_entries]. rewrite get_own_set_own.
  destruct (String.eqb k k'); reflexivity.
Qed.

(** A spread copy has the properties of the value it copies, [length]
    apart. *)
Lemma property_own_entries (x : JsVal) (k : string) :
  String.eqb k "length" = false ->
  default JUndefined (get_own (own_entries x) k) = property x k.
Proof.
  intros Hk. unfold property. destruct x; cbn [get_prop]; rewrite ?Hk; reflexivity.
Qed.

Ltac supplied_override_steps :=
  unfold supplied, override; cbn [field_path];
  rewrite ?property_set_own; simpl (String.eqb _ _); cbv iota;
  rewrite ?property_set_own; simpl (String.eqb _ _); cbv iota;
  rewrite ?property_own_entries by reflexivity.

Lemma supplied_override_same (options : JsVal) (f : Field) (v : JsVal) :
  supplied (override options f v) f = v.
Proof. destruct f; supplied_override_steps; reflexivity. Qed.

Lemma supplied_override_other (options : JsVal) (f g : Field) (v : JsVal) :
  g <> f -> supplied (override options f v) g = supplied options g.
Proof.
  destruct f, g; intros Hne; try congruence; supplied_override_steps; reflexivity.
Qed.

Lemma override_not_null (options : JsVal) (f : Field) (v : JsVal) :
  override options f v <> JNull.
Proof. unfold override. destruct (field_path f) as [k [k2|]]; discriminate. Qed.

(** C1. [securityHeaders] merges the options over the defaults field by
    field: an omitted field has its default and a supplied field has the
    supplied value, a supplied [csp.directives] or [permissionsPolicy] map
    being one field, taken whole; and overriding one field, of a nested
    object or not, sets that field and leaves every other field of the
    configuration as it was. *)
Theorem securityHeaders_config_merges (options : JsVal) :
  options <> JNull ->
  exists config,
    securityHeaders_config options = Normal config /\
    (forall f,
       (omitted options f -> config_field config f = field_default f) /\
       (~ omitted options f -> config_field config f = supplied options f)) /\
    (forall f v,
       nullish v = false ->
       exists config',
         securityHeaders_config (override options f v) = Normal config' /\
         config_field config' f = v /\
         forall g, g <> f -> config_field config' g = config_field config g).
Proof.
  intros Hn. destruct (securityHeaders_config_fields options Hn) as (config & Hc & Hf).
  exists config. split; [exact Hc|]. split.
  - intros f. rewrite Hf. unfold omitted, nullish_coalesce.
    destruct (nullish (supplied options f)); split; congruence.
  - intros f v Hv.
    destruct (securityHeaders_config_fields _ (override_not_null options f v))
      as (config' & Hc' & Hf').
    exists config'. split; [exact Hc'|]. split.
    + rewrite Hf', supplied_override_same. unfold nullish_coalesce. rewrite Hv.
      reflexivity.
    + intros g Hg. rewrite Hf', Hf, (supplied_override_other _ _ _ _ Hg). reflexivity.
Qed.

(** [securityHeaders(options)] returns the middleware over that
    configuration. *)
Lemma securityHeaders_closure (options : JsVal) (config : Config) :
  securityHeaders_config options = Normal config ->
  securityHeaders options = Normal (securityHeadersMiddleware config).
Proof. intros Hc. unfold securityHeaders. rewrite Hc. reflexivity. Qed.

(** A field of the built configuration depends on nothing but what was
    supplied for that field. *)
Lemma config_field_independent (options options' : JsVal) (config config' : Config)
    (f : Field) :
  securityHeaders_config options = Normal config ->
  securityHeaders_config options' = Normal config' ->
  supplied options f = supplied options' f ->
  config_field config f = config_field config' f.
Proof.
  intros Hc Hc' Hs.
  assert (Hn : options <> JNull) by (intros ->; discriminate).
  assert (Hn' : options' <> JNull) by (intros ->; discriminate).
  destruct (securityHeaders_config_fields _ Hn) as (c & Hc1 & Hf).
  destruct (securityHeaders_config_fields _ Hn') as (c' & Hc1' & Hf').
  assert (c = config) by congruence. assert (c' = config') by congruence. subst.
  rewrite Hf, Hf', Hs. reflexivity.
Qed.

(** ** Rate-limit headers *)

(** C7. [rateLimitHeaders] always emits X-RateLimit-Limit and
    X-RateLimit-Window with the configured values and
    [CF-Cache-Status: DYNAMIC], and emits X-RateLimit-Remaining exactly
    when the caller supplied a remaining count. *)
Theorem rateLimitHeaders_emitted (options : JsVal) (req : Request)
    (h : gmap string JsVal) :
  options <> JNull ->
  exists config,
    rateLimitHeaders_config options = Normal config /\
    limit config = property options "limit" ?? JNum 100 /\
    window config = property options "window" ?? JNum 60 /\
    completion (rateLimitHeadersMiddleware config req h) = Normal tt /\
    events (rateLimitHeadersMiddleware config req h)
    = ([EvSetHeader "X-RateLimit-Limit" (limit config);
        EvSetHeader "X-RateLimit-Window" (window config)]
       ++ (if nullish (property options "remaining") then []
           else [EvSetHeader "X-RateLimit-Remaining" (property options "remaining")])
       ++ [EvSetHeader "CF-Cache-Status" (JStr "DYNAMIC"); EvNext])%list.
Proof.
  intros Hn. apply default_param_nullish in Hn. unfold rateLimitHeaders_config.
  rewrite !(option1_run _ _ _ Hn), !property_default_param.
  cbn [mbind Completion_bind]. eexists. split; [reflexivity|].
  cbn [limit window remaining]. split; [reflexivity|]. split; [reflexivity|].
  unfold rateLimitHeadersMiddleware. cbn [limit window remaining].
  unfold nullish_coalesce at 3 4.
  destruct (property options "remaining"); split; reflexivity.
Qed.

(** ** The Hono adapter against the Express middleware *)

Lemma buildConfig_fields (options : JsVal) :
  options <> JNull ->
  exists config aconfig,
    securityHeaders_config options = Normal config /\
    buildConfig options = Normal aconfig /\
    adapter_hsts aconfig = hsts config /\
    adapter_xFrameOptions aconfig = xFrameOptions config /\
    adapter_xContentTypeOptions aconfig = xContentTypeOptions config /\
    adapter_xXssProtection aconfig = xXssProtection config /\
    adapter_referrerPolicy aconfig = referrerPolicy config.
Proof.
  intros Hn. apply default_param_nullish in Hn.
  unfold securityHeaders_config, buildConfig.
  rewrite !(option2_run _ _ _ _ Hn), !(option1_run _ _ _ Hn).
  cbn [mbind Completion_bind]. do 2 eexists. repeat split.
Qed.

Lemma hono_hsts_writes (aconfig : AdapterConfig) (config : Config)
    (req : Request) (h h' : gmap string JsVal) :
  adapter_hsts aconfig = hsts config ->
  header_writes "Strict-Transport-Security" (events (securityHeadersHono_handler aconfig h))
  = header_writes "Strict-Transport-Security"
      (events (securityHeadersMiddleware config req h')).
Proof.
  intros Hh. unfold securityHeadersHono_handler, securityHeadersMiddleware.
  rewrite (run_bind next). cbn [next completion headers events app].
  rewrite !header_writes_here by tail_respects.
  unfold hsts_block. rewrite Hh.
  destruct (truthy (hsts_enabled (hsts config))); [|reflexivity].
  rewrite !run_bind. unfold lift. cbn [completion headers events].
  destruct (hstsValue (hsts config)); reflexivity.
Qed.

(** A header the Express middleware writes when its configured value is
    truthy, after [n] steady blocks. *)
Ltac express_header n Htruthy :=
  rewrite middleware_blocks;
  match goal with
  | |- context [seq_blocks (prefix_blocks ?config)] =>
      rewrite (seq_blocks_split n (prefix_blocks config))
  end;
  cbn [prefix_blocks take drop firstn skipn];
  match goal with
  | |- header_writes ?name _ = _ =>
      let pre := fresh "pre" in
      let h' := fresh "h'" in
      let Hct := fresh "Hct" in
      let HQ := fresh "HQ" in
      run_prefix (leaves (lower name)) pre h' Hct HQ;
      unfold prepend; cbn [events seq_blocks foldr];
      rewrite header_writes_app, (header_writes_quiet _ _ HQ), header_writes_here;
      [ unfold set_if_truthy; rewrite Htruthy; reflexivity | tail_respects ]
  end.

Lemma express_frame_options config req h :
  is_number (maxAge (hsts config)) = true ->
  normal_directives (directives (csp config)) = true ->
  truthy (xFrameOptions config) = true ->
  header_writes "X-Frame-Options" (events (securityHeadersMiddleware config req h))
  = [xFrameOptions config].
Proof. intros Hn Hd Ht. express_header 2%nat Ht. Qed.

Lemma express_content_type_options config req h :
  is_number (maxAge (hsts config)) = true ->
  normal_directives (directives (csp config)) = true ->
  truthy (xContentTypeOptions config) = true ->
  header_writes "X-Content-Type-Options" (events (securityHeadersMiddleware config req h))
  = [xContentTypeOptions config].
Proof. intros Hn Hd Ht. express_header 3%nat Ht. Qed.

Lemma express_referrer_policy config req h :
  is_number (maxAge (hsts config)) = true ->
  normal_directives (directives (csp config)) = true ->
  truthy (referrerPolicy config) = true ->
  header_writes "Referrer-Policy" (events (securityHeadersMiddleware config req h))
  = [referrerPolicy config].
Proof. intros Hn Hd Ht. express_header 5%nat Ht. Qed.

(** What the Hono handler logs when the HSTS value can be built. *)
Lemma hono_events (aconfig : AdapterConfig) (h : gmap string JsVal) :
  is_number (maxAge (adapter_hsts aconfig)) = true ->
  exists hsts_events,
    forallb is_set_header hsts_events = true /\
    forallb (leaves "x-frame-options") hsts_events = true /\
    forallb (leaves "x-content-type-options") hsts_events = true /\
    forallb (leaves "referrer-policy") hsts_events = true /\
    events (securityHeadersHono_handler aconfig h)
    = (EvNext :: hsts_events ++
       [EvSetHeader "X-Frame-Options" (adapter_xFrameOptions aconfig);
        EvSetHeader "X-Content-Type-Options" (adapter_xContentTypeOptions aconfig);
        EvSetHeader "Referrer-Policy" (adapter_referrerPolicy aconfig)])%list.
Proof.
  intros Hn. apply hstsValue_number in Hn. unfold securityHeadersHono_handler.
  destruct (hstsValue (adapter_hsts aconfig)) as [v|] eqn:Hv; [|discriminate].
  destruct (truthy (hsts_enabled (adapter_hsts aconfig))).
  - exists [EvSetHeader "Strict-Transport-Security" (JStr v)].
    do 4 (split; [reflexivity|]).
    rewrite !run_bind. reflexivity.
  - exists []. do 4 (split; [reflexivity|]). reflexivity.
Qed.

(** C9 (amended). The Hono adapter resolves [hsts], [xFrameOptions],
    [xContentTypeOptions] and [referrerPolicy] as [securityHeaders] does
    and writes those four headers only: Strict-Transport-Security as the
    Express middleware writes it, and, on a typed configuration whose three
    other values are truthy, X-Frame-Options, X-Content-Type-Options and
    Referrer-Policy with the values the Express middleware writes. *)
Theorem hono_writes_four_headers (options : JsVal) (req : Request)
    (h : gmap string JsVal) :
  options <> JNull ->
  exists config aconfig,
    securityHeaders_config options = Normal config /\
    buildConfig options = Normal aconfig /\
    adapter_hsts aconfig = hsts config /\
    adapter_xFrameOptions aconfig = xFrameOptions config /\
    adapter_xContentTypeOptions aconfig = xContentTypeOptions config /\
    adapter_referrerPolicy aconfig = referrerPolicy config /\
    forallb adapter_call (events (securityHeadersHono_handler aconfig h)) = true /\
    header_writes "Strict-Transport-Security"
      (events (securityHeadersHono_handler aconfig h))
    = header_writes "Strict-Transport-Security"
        (events (securityHeadersMiddleware config req h)) /\
    (is_number (maxAge (hsts config)) = true ->
     normal_directives (directives (csp config)) = true ->
     truthy (xFrameOptions config) = true ->
     truthy (xContentTypeOptions config) = true ->
     truthy (referrerPolicy config) = true ->
     forall name,
       In name ["X-Frame-Options"; "X-Content-Type-Options"; "Referrer-Policy"] ->
       header_writes name (events (securityHeadersHono_handler aconfig h))
       = header_writes name (events (securityHeadersMiddleware config req h))).
Proof.
  intros Hnull.
  destruct (buildConfig_fields options Hnull)
    as (config & aconfig & Hc & Ha & Hh & Hxfo & Hxcto & _ & Hrp).
  exists config, aconfig. split; [exact Hc|]. split; [exact Ha|].
  split; [exact Hh|]. split; [exact Hxfo|]. split; [exact Hxcto|]. split; [exact Hrp|].
  split; [|split].
  - assert (Hr : respects adapter_call (securityHeadersHono_handler aconfig)).
    { unfold securityHeadersHono_handler. respects_steps. }
    apply Hr.
  - apply hono_hsts_writes, Hh.
  - intros Hn Hd Tx Tc Tr name Hname.
    assert (Hn' : is_number (maxAge (adapter_hsts aconfig)) = true)
      by (rewrite Hh; exact Hn).
    destruct (hono_events aconfig h Hn') as (he & _ & Lx & Lc & Lr & ->).
    rewrite Hxfo, Hxcto, Hrp.
    change (EvNext :: he ++ ?l)%list with ([EvNext] ++ he ++ l)%list.
    rewrite !header_writes_app.
    destruct Hname as [<-|[<-|[<-|[]]]].
    + rewrite (express_frame_options _ _ _ Hn Hd Tx).
      rewrite (header_writes_quiet "X-Frame-Options" he Lx). reflexivity.
    + rewrite (express_content_type_options _ _ _ Hn Hd Tc).
      rewrite (header_writes_quiet "X-Content-Type-Options" he Lc). reflexivity.
    + rewrite (express_referrer_policy _ _ _ Hn Hd Tr).
      rewrite (header_writes_quiet "Referrer-Policy" he Lr). reflexivity.
Qed.

(** * Beyond the header policy *)

(** ** Every run calls [next] or throws *)

Lemma next_or_throw_bind {A} (m : M A) (f : A -> M unit) (h : gmap string JsVal) :
  respects is_set_header m ->
  (forall a h', next_or_throw (f a h')) ->
  next_or_throw ((m ≫= f) h).
Proof.
  intros Hm Hf. rewrite run_bind. specialize (Hm h).
  destruct (completion (m h)) as [a|[]].
  - destruct (Hf a (headers (m h))) as [(Hc & ws & He & Hw)|(Hc & Hw)]; cbn zeta.
    + left. split; [exact Hc|]. exists (events (m h) ++ ws)%list. cbn [events].
      rewrite He, app_assoc, forallb_app, Hm, Hw. split; reflexivity.
    + right. split; [exact Hc|]. cbn [events]. rewrite forallb_app, Hm, Hw. reflexivity.
  - right. split; [reflexivity | exact Hm].
Qed.

Lemma next_or_throw_next (h : gmap string JsVal) : next_or_throw (next h).
Proof. left. split; [reflexivity|]. exists []. split; reflexivity. Qed.

(** X1. Whatever the configuration and the response, a run of
    [securityHeadersMiddleware] makes header writes only and then either
    calls [next], as its last call, and returns, or throws a [TypeError]
    and never calls [next]. *)
Theorem securityHeaders_next_or_throw (config : Config) (req : Request)
    (h : gmap string JsVal) :
  next_or_throw (securityHeadersMiddleware config req h).
Proof.
  unfold securityHeadersMiddleware.
  repeat (apply next_or_throw_bind;
          [ unfold hsts_block, csp_block, permissions_block, cache_block;
            respects_steps
          | intros ? ? ]).
  apply next_or_throw_next.
Qed.

(** ** The headers a run leaves *)

Lemma last_snoc_list {A} (l : list A) (x : A) : last (l ++ [x]) = Some x.
Proof. induction l as [|y [|z l] IH]; [reflexivity| reflexivity |exact IH]. Qed.

Lemma last_write_header_writes (name : string) (evs : list Event) :
  last_write (lower name) evs = last (header_writes name evs).
Proof.
  induction evs as [|e evs IH] using rev_ind; [reflexivity|].
  rewrite last_write_snoc, header_writes_app.
  destruct e as [n v| |]; cbn [header_writes omap list_omap written];
    rewrite ?app_nil_r; try exact IH.
  destruct (String.eqb (lower n) (lower name)).
  - symmetry. apply last_snoc_list.
  - rewrite app_nil_r. exact IH.
Qed.

(** After tame code a header holds the last value written to it, and
    what it held before when the code did not write it. *)
Lemma tame_final_header {A} (m : M A) (name : string) (h : gmap string JsVal) :
  tame m ->
  headers (m h) !! lower name
  = match last (header_writes name (events (m h))) with
    | Some v => Some v
    | None => h !! lower name
    end.
Proof.
  intros Ht. destruct (Ht h) as (Hh & _). rewrite Hh at 1.
  rewrite lookup_replay, last_write_header_writes. reflexivity.
Qed.

Lemma writes_within_leaves (keys : list string) (key : string) (evs : list Event) :
  key ∉ keys ->
  forallb (writes_within keys) evs = true -> forallb (leaves key) evs = true.
Proof.
  intros Hk. apply forallb_weaken. intros [n v| |]; try reflexivity.
  cbn [writes_within leaves]. intros Hn. apply bool_decide_eq_true in Hn.
  destruct (String.eqb_spec (lower n) key) as [<-|]; [contradiction | reflexivity].
Qed.

Lemma respects_securityHeadersMiddleware_keys {R : Response} config req :
  respects (writes_within security_keys) (securityHeadersMiddleware config req).
Proof.
  unfold securityHeadersMiddleware, hsts_block, csp_block, permissions_block,
    cache_block. respects_steps.
Qed.

(** X2. After a run of [securityHeadersMiddleware], complete or not, every
    header holds the last value the run wrote to it, or what it held
    before when the run did not write it: no header is removed, and a
    header other than the thirteen of the middleware is left as it was. *)
Theorem securityHeaders_final_headers (config : Config) (req : Request)
    (h : gmap string JsVal) :
  (forall name,
     headers (securityHeadersMiddleware config req h) !! lower name
     = match last (header_writes name
                     (events (securityHeadersMiddleware config req h))) with
       | Some v => Some v
       | None => h !! lower name
       end) /\
  (forall key,
     key ∉ security_keys ->
     headers (securityHeadersMiddleware config req h) !! key = h !! key) /\
  (forall key,
     is_Some (h !! key) ->
     is_Some (headers (securityHeadersMiddleware config req h) !! key)).
Proof.
  pose proof (tame_securityHeadersMiddleware config req) as Ht.
  split; [|split].
  - intros name. apply tame_final_header, Ht.
  - intros key Hk. destruct (Ht h) as (Hh & _). rewrite Hh.
    apply lookup_replay_leaves, (writes_within_leaves security_keys); [exact Hk|].
    apply respects_securityHeadersMiddleware_keys.
  - intros key Hs. destruct (Ht h) as (Hh & _). rewrite Hh, lookup_replay.
    destruct (last_write key _); [eexists; reflexivity | exact Hs].
Qed.

(** ** Policies that are switched off *)

Lemma steady_hsts_block_lenient Q config :
  (forall v, Q (EvSetHeader "Strict-Transport-Security" v) = true) ->
  negb (truthy (hsts_enabled (hsts config))) || is_number (maxAge (hsts config)) = true ->
  steady Q (hsts_block config).
Proof.
  intros HQ Hn. split; [|split].
  - apply tame_hsts_block.
  - unfold hsts_block. respects_steps. apply respects_setHeader, HQ.
  - intros h. apply orb_true_iff in Hn as [Hn|Hn].
    + unfold hsts_block. apply negb_true_iff in Hn. rewrite Hn. reflexivity.
    + apply hsts_block_normal, Hn.
Qed.

Lemma steady_csp_block_lenient Q config :
  (forall v, Q (EvSetHeader "Content-Security-Policy" v) = true) ->
  negb (truthy (csp_enabled (csp config)))
  || normal_directives (directives (csp config)) = true ->
  steady Q (csp_block config).
Proof.
  intros HQ Hn. split; [|split].
  - apply tame_csp_block.
  - unfold csp_block. respects_steps. apply respects_setHeader, HQ.
  - intros h. apply orb_true_iff in Hn as [Hn|Hn].
    + unfold csp_block. apply negb_true_iff in Hn. rewrite Hn. reflexivity.
    + apply csp_block_normal, Hn.
Qed.

Lemma steady_permissions_block_lenient Q config :
  (forall v, Q (EvSetHeader "Permissions-Policy" v) = true) ->
  negb (truthy (permissionsPolicy config))
  || normal_permissions (permissionsPolicy config) = true ->
  steady Q (permissions_block config).
Proof.
  intros HQ Hn. split; [|split].
  - apply tame_permissions_block.
  - unfold permissions_block. respects_steps. apply respects_setHeader, HQ.
  - intros h. apply orb_true_iff in Hn as [Hn|Hn].
    + unfold permissions_block. apply negb_true_iff in Hn. rewrite Hn. reflexivity.
    + apply permissions_block_normal, Hn.
Qed.

Lemma lenient_config_parts config :
  lenient_config config = true ->
  negb (truthy (hsts_enabled (hsts config))) || is_number (maxAge (hsts config)) = true /\
  negb (truthy (csp_enabled (csp config)))
  || normal_directives (directives (csp config)) = true /\
  negb (truthy (permissionsPolicy config))
  || normal_permissions (permissionsPolicy config) = true.
Proof. unfold lenient_config. rewrite !andb_true_iff. tauto. Qed.

Ltac steady_block_lenient :=
  lazymatch goal with
  | |- steady _ (set_if_truthy _ _) =>
      apply steady_set_if_truthy; intros; reflexivity
  | |- steady _ (hsts_block _) =>
      apply steady_hsts_block_lenient; [intros; reflexivity | assumption]
  | |- steady _ (csp_block _) =>
      apply steady_csp_block_lenient; [intros; reflexivity | assumption]
  | |- steady _ (permissions_block _) =>
      apply steady_permissions_block_lenient; [intros; reflexivity | assumption]
  end.

(** The blocks before the cache-control rule all complete on a lenient
    configuration. *)
Lemma prefix_blocks_lenient (config : Config) (k : M unit) (h : gmap string JsVal) :
  lenient_config config = true ->
  exists pre h',
    h' !! "content-type" = h !! "content-type" /\
    forallb before_cache pre = true /\
    seq_blocks (prefix_blocks config) k h = prepend pre (k h').
Proof.
  intros Hc. destruct (lenient_config_parts _ Hc) as (Hn & Hnd & Hnp).
  apply seq_blocks_steady. unfold prefix_blocks.
  repeat (apply List.Forall_cons; [steady_block_lenient|]). apply List.Forall_nil.
Qed.

Lemma hsts_off_quiet {R : Response} config req :
  truthy (hsts_enabled (hsts config)) = false ->
  respects (leaves "strict-transport-security") (securityHeadersMiddleware config req).
Proof.
  intros Hoff. unfold securityHeadersMiddleware, hsts_block, csp_block,
    permissions_block, cache_block. rewrite Hoff. cbv iota. respects_steps.
Qed.

Lemma csp_off_quiet {R : Response} config req :
  truthy (csp_enabled (csp config)) = false ->
  respects (leaves "content-security-policy") (securityHeadersMiddleware config req).
Proof.
  intros Hoff. unfold securityHeadersMiddleware, hsts_block, csp_block,
    permissions_block, cache_block. rewrite Hoff. cbv iota. respects_steps.
Qed.

Lemma permissions_off_quiet {R : Response} config req :
  truthy (permissionsPolicy config) = false ->
  respects (leaves "permissions-policy") (securityHeadersMiddleware config req).
Proof.
  intros Hoff. unfold securityHeadersMiddleware, hsts_block, csp_block,
    permissions_block, cache_block. rewrite Hoff. cbv iota. respects_steps.
Qed.

(** On the header sink, a lenient configuration lets the run complete. *)
Lemma lenient_calls_next_once (config : Config) (req : Request) (h : gmap string JsVal) :
  lenient_config config = true ->
  normal_response h = true ->
  calls_next_once (securityHeadersMiddleware config req h).
Proof.
  intros Hc Hr. rewrite middleware_blocks.
  destruct (prefix_blocks_lenient config (cache_block config;; next) h Hc)
    as (pre & h' & Hct & HQ & ->).
  assert (Hr' : normal_response h' = true)
    by (unfold normal_response in *; rewrite Hct; exact Hr).
  unfold prepend, calls_next_once. cbn [completion events].
  rewrite run_bind, (cache_block_run _ _ Hr').
  assert (Hpre : forallb is_set_header pre = true).
  { revert HQ. apply forallb_weaken. intros e H. apply before_cache_parts in H. tauto. }
  destruct (includes "image" (content_type_of h') || includes "font" (content_type_of h')
            || includes "css" (content_type_of h')
            || includes "javascript" (content_type_of h'));
    (split; [reflexivity|]); cbn [completion headers events next app].
  - exists pre. split; [reflexivity | exact Hpre].
  - eexists (pre ++ [_; _; _])%list. rewrite <- app_assoc. split; [reflexivity|].
    rewrite forallb_app, Hpre. reflexivity.
Qed.

(** X3. A policy that is switched off is not evaluated: when each of HSTS,
    CSP and Permissions-Policy is either off (a falsy [enabled], a falsy
    [permissionsPolicy]) or typed, the middleware returns after calling
    [next] once on a response that stores the headers it writes, whatever
    the ill-typed values of the policies that are off; and, on every
    response, a policy that is off writes no header. *)
Theorem disabled_policies_not_evaluated {R : Response} (config : Config)
    (req : Request) (h : gmap string JsVal) :
  lenient_config config = true ->
  normal_response h = true ->
  (forallb accepted
     (events (securityHeadersMiddleware (R := header_sink) config req h)) = true ->
   calls_next_once (securityHeadersMiddleware config req h)) /\
  (truthy (hsts_enabled (hsts config)) = false ->
   header_writes "Strict-Transport-Security"
     (events (securityHeadersMiddleware config req h)) = []) /\
  (truthy (csp_enabled (csp config)) = false ->
   header_writes "Content-Security-Policy"
     (events (securityHeadersMiddleware config req h)) = []) /\
  (truthy (permissionsPolicy config) = false ->
   header_writes "Permissions-Policy"
     (events (securityHeadersMiddleware config req h)) = []).
Proof.
  intros Hc Hr. split; [|split; [|split]].
  - intros Ha.
    rewrite (follows_accepted _ _ h (follows_securityHeadersMiddleware config req) Ha).
    exact (lenient_calls_next_once config req h Hc Hr).
  - intros Hoff. apply header_writes_quiet, (hsts_off_quiet config req Hoff).
  - intros Hoff. apply header_writes_quiet, (csp_off_quiet config req Hoff).
  - intros Hoff. apply header_writes_quiet, (permissions_off_quiet config req Hoff).
Qed.

(** ** Ill-typed directives and origins *)

Lemma push_sources_throws (props : list (string * JsVal)) (prop name : string)
    (v : JsVal) (acc : list string) :
  get_own props prop = Some v -> truthy v = true -> is_array v = false ->
  push_sources (JObj props) prop name acc = Abrupt TypeError.
Proof.
  intros Hv Ht Ha. unfold push_sources. cbn [get_prop own_entries mbind Completion_bind].
  rewrite Hv. cbn [default from_option id]. rewrite Ht.
  destruct v; try discriminate; reflexivity.
Qed.

Ltac csp_steps Hthrow :=
  repeat match goal with
         | |- context [push_sources ?d ?p ?n ?acc] =>
             first [ rewrite (Hthrow acc)
                   | destruct (push_sources d p n acc) as [?|[]] ];
             cbn [mbind Completion_bind]
         end.

Lemma cspValue_throws (props : list (string * JsVal)) (prop name : string) (v : JsVal) :
  In (prop, name) source_directives ->
  get_own props prop = Some v -> truthy v = true -> is_array v = false ->
  cspValue (JObj props) = Abrupt TypeError.
Proof.
  intros Hin Hv Ht Ha.
  pose proof (fun acc => push_sources_throws props prop name v acc Hv Ht Ha) as Hthrow.
  unfold source_directives in Hin. cbn [In] in Hin. unfold cspValue.
  repeat (destruct Hin as [Hin|Hin];
          [ injection Hin as <- <-; csp_steps Hthrow; reflexivity |]).
  destruct Hin.
Qed.

(** X4. A directive that is set to a truthy value other than a list, such
    as a string, makes every request fail: with CSP on, the middleware
    throws a [TypeError] while it builds the header value, having written
    at most Strict-Transport-Security; it writes no
    Content-Security-Policy and does not call [next]. *)
Theorem malformed_directive_throws (config : Config) (req : Request)
    (h : gmap string JsVal) (props : list (string * JsVal))
    (prop name : string) (v : JsVal) :
  negb (truthy (hsts_enabled (hsts config))) || is_number (maxAge (hsts config)) = true ->
  truthy (csp_enabled (csp config)) = true ->
  directives (csp config) = JObj props ->
  In (prop, name) source_directives ->
  get_own props prop = Some v ->
  truthy v = true ->
  is_array v = false ->
  completion (securityHeadersMiddleware config req h) = Abrupt TypeError /\
  forallb (is_write_to "Strict-Transport-Security")
    (events (securityHeadersMiddleware config req h)) = true.
Proof.
  intros Hn He Hd Hin Hv Ht Ha.
  rewrite middleware_blocks, (seq_blocks_split 1 (prefix_blocks config)).
  cbn [prefix_blocks take drop firstn skipn].
  match goal with
  | |- context [seq_blocks ?bs ?k ?h] =>
      destruct (seq_blocks_steady (is_write_to "Strict-Transport-Security") bs k h)
        as (pre & h' & Hct & HQ & ->)
  end.
  { apply List.Forall_cons; [|apply List.Forall_nil].
    apply steady_hsts_block_lenient; [intros; reflexivity | exact Hn]. }
  unfold prepend. cbn [seq_blocks foldr]. rewrite run_bind.
  assert (Hcsp : csp_block config h' = mkOutcome (Abrupt TypeError) h' []).
  { unfold csp_block. rewrite He, Hd, run_bind. unfold lift. cbn [completion].
    rewrite (cspValue_throws props prop name v Hin Hv Ht Ha). reflexivity. }
  rewrite Hcsp. cbn [completion events]. rewrite app_nil_r. split; [reflexivity | exact HQ].
Qed.

Lemma array_map_throws {A B} (f : A -> Completion B) (l : list A) (x : A) :
  In x l -> f x = Abrupt TypeError -> array_map f l = Abrupt TypeError.
Proof.
  intros Hin Hx. induction l as [|y l IH]; [destruct Hin|].
  cbn [array_map]. destruct Hin as [->|Hin].
  - rewrite Hx. reflexivity.
  - destruct (f y) as [b|[]]; [|reflexivity]. cbn [mbind Completion_bind].
    rewrite (IH Hin). reflexivity.
Qed.

Lemma permissions_entry_throws (feature : string) (allowList : JsVal) :
  bad_origins allowList = true ->
  permissions_entry (feature, allowList) = Abrupt TypeError.
Proof.
  destruct allowList as [| | | |s| |]; try discriminate; intros Hb; try reflexivity.
  unfold permissions_entry. cbn [get_prop String.eqb].
  change (String.eqb "length" "length") with true. cbv iota.
  cbn [mbind Completion_bind js_gt_zero].
  destruct s as [|c s]; [discriminate|]. reflexivity.
Qed.

(** X5. An origin list that is missing or given as a non-empty string
    makes every request fail: the middleware throws a [TypeError] while it
    builds the Permissions-Policy value, after the headers before it; it
    writes no Permissions-Policy and does not call [next]. *)
Theorem malformed_origins_throw (config : Config) (req : Request)
    (h : gmap string JsVal) (props : list (string * JsVal))
    (feature : string) (allowList : JsVal) :
  negb (truthy (hsts_enabled (hsts config))) || is_number (maxAge (hsts config)) = true ->
  negb (truthy (csp_enabled (csp config)))
  || normal_directives (directives (csp config)) = true ->
  permissionsPolicy config = JObj props ->
  In (feature, allowList) props ->
  bad_origins allowList = true ->
  completion (securityHeadersMiddleware config req h) = Abrupt TypeError /\
  forallb is_set_header (events (securityHeadersMiddleware config req h)) = true /\
  header_writes "Permissions-Policy"
    (events (securityHeadersMiddleware config req h)) = [].
Proof.
  intros Hn Hnd Hp Hin Hb.
  rewrite middleware_blocks, (seq_blocks_split 6 (prefix_blocks config)).
  cbn [prefix_blocks take drop firstn skipn].
  match goal with
  | |- context [seq_blocks ?bs ?k ?h] =>
      destruct (seq_blocks_steady before_permissions bs k h)
        as (pre & h' & Hct & HQ & ->)
  end.
  { repeat (apply List.Forall_cons; [steady_block_lenient|]). apply List.Forall_nil. }
  unfold prepend. cbn [seq_blocks foldr]. rewrite run_bind.
  assert (Hpp : permissions_block config h' = mkOutcome (Abrupt TypeError) h' []).
  { unfold permissions_block. rewrite Hp. cbn [truthy]. rewrite run_bind.
    unfold lift. cbn [completion]. unfold permissionsValue, Object_entries.
    cbn [nullish own_entries mbind Completion_bind].
    rewrite (array_map_throws _ _ _ Hin (permissions_entry_throws _ _ Hb)).
    reflexivity. }
  rewrite Hpp. cbn [completion events]. rewrite app_nil_r.
  split; [reflexivity|]. split.
  - revert HQ. apply forallb_weaken. unfold before_permissions.
    intros e He. apply andb_true_iff in He. tauto.
  - apply header_writes_quiet. revert HQ. apply forallb_weaken.
    unfold before_permissions. intros e He. apply andb_true_iff in He. tauto.
Qed.

(** ** The headers that carry a configured value *)

(** A header written when its configured value is truthy, after [n] blocks
    that complete on a lenient configuration. *)
Ltac simple_header n :=
  rewrite middleware_blocks;
  match goal with
  | |- context [seq_blocks (prefix_blocks ?config)] =>
      rewrite (seq_blocks_split n (prefix_blocks config))
  end;
  cbn [prefix_blocks take drop firstn skipn];
  match goal with
  | |- header_writes ?name (events (seq_blocks ?bs ?k ?h)) = _ =>
      let pre := fresh "pre" in
      let h' := fresh "h'" in
      let Hct := fresh "Hct" in
      let HQ := fresh "HQ" in
      destruct (seq_blocks_steady (leaves (lower name)) bs k h)
        as (pre & h' & Hct & HQ & ->);
      [ repeat (apply List.Forall_cons; [steady_block_lenient|]); apply List.Forall_nil
      | unfold prepend; cbn [events seq_blocks foldr];
        rewrite header_writes_app, (header_writes_quiet _ _ HQ), header_writes_here;
        [ lazymatch goal with
          | |- context [set_if_truthy _ ?v] =>
              unfold set_if_truthy; destruct (truthy v); reflexivity
          end
        | tail_respects ] ]
  end.

Lemma simple_header_writes (config : Config) (req : Request) (h : gmap string JsVal)
    (name : string) (f : Field) :
  lenient_config config = true ->
  In (name, f) simple_headers ->
  header_writes name (events (securityHeadersMiddleware config req h))
  = if truthy (config_field config f) then [config_field config f] else [].
Proof.
  intros Hc Hin. destruct (lenient_config_parts _ Hc) as (Hn & Hnd & Hnp).
  unfold simple_headers in Hin. cbn [In] in Hin.
  destruct Hin as [Hin|[Hin|[Hin|[Hin|[Hin|[Hin|[Hin|[]]]]]]]];
    injection Hin as <- <-; cbn [config_field].
  - simple_header 2%nat.
  - simple_header 3%nat.
  - simple_header 4%nat.
  - simple_header 5%nat.
  - simple_header 7%nat.
  - simple_header 8%nat.
  - simple_header 9%nat.
Qed.

Lemma securityHeaders_config_not_null (options : JsVal) (config : Config) :
  securityHeaders_config options = Normal config -> options <> JNull.
Proof. intros H ->. discriminate. Qed.

(** X6. Each of X-Frame-Options, X-Content-Type-Options, X-XSS-Protection,
    Referrer-Policy and the three Cross-Origin headers is governed by its
    option alone: omitted ([undefined] or [null]) the header carries its
    default; a falsy value ([false], [0], the empty string) switches the
    header off; any other value is written once, as it is. *)
Theorem simple_header_switch (options : JsVal) (config : Config) (req : Request)
    (h : gmap string JsVal) (name : string) (f : Field) :
  securityHeaders_config options = Normal config ->
  lenient_config config = true ->
  In (name, f) simple_headers ->
  header_writes name (events (securityHeadersMiddleware config req h))
  = if nullish (supplied options f) then [field_default f]
    else if truthy (supplied options f) then [supplied options f]
    else [].
Proof.
  intros Hb Hc Hin.
  rewrite (simple_header_writes _ _ _ _ _ Hc Hin).
  destruct (securityHeaders_config_fields options
              (securityHeaders_config_not_null _ _ Hb)) as (config' & Hb' & Hf).
  rewrite Hb in Hb'. injection Hb' as <-. rewrite Hf. unfold nullish_coalesce.
  destruct (nullish (supplied options f)); [|reflexivity].
  unfold simple_headers in Hin. cbn [In] in Hin.
  destruct Hin as [Hin|[Hin|[Hin|[Hin|[Hin|[Hin|[Hin|[]]]]]]]];
    injection Hin as <- <-; reflexivity.
Qed.

(** ** HSTS on values of any type *)

Lemma hsts_block_printed (config : Config) (h : gmap string JsVal) (n : string) :
  ToString (maxAge (hsts config)) = Normal n ->
  events (hsts_block config h)
  = if truthy (hsts_enabled (hsts config))
    then [EvSetHeader "Strict-Transport-Security"
            (JStr ("max-age=" +:+ n
                   +:+ suffix_if (truthy (includeSubDomains (hsts config)))
                         "; includeSubDomains"
                   +:+ suffix_if (truthy (preload (hsts config))) "; preload"))]
    else [].
Proof.
  intros Hn. unfold hsts_block.
  destruct (truthy (hsts_enabled (hsts config))); [|reflexivity].
  rewrite run_bind. unfold lift. cbn [completion].
  rewrite (hstsValue_printed _ n Hn). reflexivity.
Qed.

(** X7. The HSTS settings are used as JavaScript coerces them: the header
    is written exactly when [enabled] is truthy, [maxAge] is printed by
    string conversion (a numeric string gives the header its number
    gives), and [includeSubDomains] and [preload] count when truthy. *)
Theorem hsts_header_coerced (config : Config) (req : Request)
    (h : gmap string JsVal) (n : string) :
  ToString (maxAge (hsts config)) = Normal n ->
  header_writes "Strict-Transport-Security"
    (events (securityHeadersMiddleware config req h))
  = if truthy (hsts_enabled (hsts config))
    then [JStr ("max-age=" +:+ n
                +:+ suffix_if (truthy (includeSubDomains (hsts config)))
                      "; includeSubDomains"
                +:+ suffix_if (truthy (preload (hsts config))) "; preload")]
    else [].
Proof.
  intros Hn. unfold securityHeadersMiddleware. rewrite header_writes_here.
  - rewrite (hsts_block_printed _ _ n Hn).
    destruct (truthy (hsts_enabled (hsts config))); reflexivity.
  - tail_respects.
Qed.

(** ** Header values are never missing *)

Lemma respects_set_if_truthy_defined name v :
  respects defined_write (set_if_truthy name v).
Proof.
  unfold set_if_truthy. destruct (truthy v) eqn:Hv.
  - apply respects_setHeader. cbn [defined_write].
    destruct v; try discriminate; reflexivity.
  - apply respects_ret.
Qed.

Lemma securityHeaders_config_defined (options : JsVal) (config : Config) (f : Field) :
  securityHeaders_config options = Normal config ->
  nullish (config_field config f) = false.
Proof.
  intros Hb.
  destruct (securityHeaders_config_fields options
              (securityHeaders_config_not_null _ _ Hb)) as (config' & Hb' & Hfields).
  rewrite Hb in Hb'. injection Hb' as <-. rewrite Hfields. unfold nullish_coalesce.
  destruct (nullish (supplied options f)) eqn:Hs; [|exact Hs].
  destruct f; reflexivity.
Qed.

Lemma rateLimitHeaders_config_run (options : JsVal) :
  options <> JNull ->
  rateLimitHeaders_config options
  = Normal {| limit := property options "limit" ?? JNum 100;
              window := property options "window" ?? JNum 60;
              remaining := property options "remaining" ?? JNull |}.
Proof.
  intros Hn. apply default_param_nullish in Hn. unfold rateLimitHeaders_config.
  rewrite !(option1_run _ _ _ Hn), !property_default_param. reflexivity.
Qed.

Lemma coalesce_defined (v d : JsVal) : nullish d = false -> nullish (v ?? d) = false.
Proof. intros Hd. unfold nullish_coalesce. destruct (nullish v) eqn:Hv; assumption. Qed.

(** X9. No middleware passes [undefined] or [null] to [res.setHeader]:
    every setting of a built configuration is defined (an omitted one has
    its default), the optional headers are written only for a value that
    is truthy, or not [null] for X-RateLimit-Remaining, and the computed
    values are strings. *)
Theorem header_values_defined (options rateLimit : JsVal) (config : Config)
    (limits : RateLimitConfig) (req : Request) (h : gmap string JsVal) :
  securityHeaders_config options = Normal config ->
  rateLimitHeaders_config rateLimit = Normal limits ->
  (forall f, nullish (config_field config f) = false) /\
  forallb defined_write (events (securityHeadersMiddleware config req h)) = true /\
  forallb defined_write (events (rateLimitHeadersMiddleware limits req h)) = true /\
  forallb defined_write (events (botDetectionHeadersMiddleware req h)) = true.
Proof.
  intros Hb Hr. split; [|split; [|split]].
  - intros f. exact (securityHeaders_config_defined _ _ f Hb).
  - assert (Hs : respects defined_write (securityHeadersMiddleware config req)).
    { unfold securityHeadersMiddleware, hsts_block, csp_block, permissions_block,
        cache_block.
      repeat first [ apply respects_set_if_truthy_defined | respects_step ].
      apply respects_setHeader. cbn [defined_write].
      pose proof (securityHeaders_config_defined _ _ F_cacheControl Hb) as Hd.
      cbn [config_field] in Hd. rewrite Hd. reflexivity. }
    apply Hs.
  - assert (Hn : rateLimit <> JNull) by (intros ->; discriminate).
    rewrite (rateLimitHeaders_config_run _ Hn) in Hr. injection Hr as <-.
    assert (Hs : respects defined_write
                   (rateLimitHeadersMiddleware
                      {| limit := property rateLimit "limit" ?? JNum 100;
                         window := property rateLimit "window" ?? JNum 60;
                         remaining := property rateLimit "remaining" ?? JNull |} req)).
    { unfold rateLimitHeadersMiddleware. cbn [limit window remaining].
      apply respects_bind; [|intros].
      { apply respects_setHeader. cbn [defined_write].
        rewrite coalesce_defined; reflexivity. }
      apply respects_bind; [|intros].
      { apply respects_setHeader. cbn [defined_write].
        rewrite coalesce_defined; reflexivity. }
      apply respects_bind; [|intros; respects_steps].
      unfold nullish_coalesce.
      destruct (property rateLimit "remaining"); cbn [nullish strict_ne_null];
        first [ apply respects_ret | apply respects_setHeader; reflexivity ]. }
    apply Hs.
  - assert (Hs : respects defined_write (botDetectionHeadersMiddleware req)).
    { unfold botDetectionHeadersMiddleware.
      repeat first [ apply respects_set_if_truthy_defined | respects_step ]. }
    apply Hs.
Qed.

(** ** Directives the middleware does not know *)

(** X10. The Content-Security-Policy value depends on the twelve
    directives the middleware knows and on nothing else of the directive
    map: any other directive, such as [workerSrc] or [reportUri], is
    dropped without an error. *)
Theorem csp_ignores_unknown_directives (props props' : list (string * JsVal)) :
  (forall prop, In prop known_directives -> get_own props prop = get_own props' prop) ->
  cspValue (JObj props) = cspValue (JObj props').
Proof.
  intros Hsame.
  assert (E : forall prop, In prop known_directives ->
                           get_prop (JObj props) prop = get_prop (JObj props') prop).
  { intros prop Hin. cbn [get_prop own_entries]. rewrite (Hsame prop Hin). reflexivity. }
  unfold cspValue, push_sources, push_flag.
  rewrite (E "defaultSrc"), (E "scriptSrc"), (E "styleSrc"), (E "imgSrc"),
    (E "fontSrc"), (E "connectSrc"), (E "frameSrc"), (E "objectSrc"), (E "baseUri"),
    (E "formAction"), (E "frameAncestors"), (E "upgradeInsecureRequests");
    first [ reflexivity
          | unfold known_directives; cbn [map fst source_directives app In]; tauto ].
Qed.

(** ** A Content-Type that is not a string *)

Lemma is_dynamic_content_throws (v : JsVal) :
  no_includes v = true -> is_dynamic_content (js_or v (JStr "")) = Abrupt TypeError.
Proof.
  unfold no_includes, js_or. rewrite !andb_true_iff, !negb_true_iff.
  intros ((-> & Hs) & Ha). destruct v; try discriminate; reflexivity.
Qed.

(** X11. A Content-Type held on the response as a truthy value that is
    neither a string nor a list (a number, [true], an object) makes the
    run fail at the cache-control rule: a [TypeError] is thrown after the
    other headers are written, no Cache-Control, Pragma or Expires is
    written and [next] is not called. *)
Theorem non_string_content_type_throws (config : Config) (req : Request)
    (h : gmap string JsVal) (v : JsVal) :
  lenient_config config = true ->
  h !! "content-type" = Some v ->
  no_includes v = true ->
  completion (securityHeadersMiddleware config req h) = Abrupt TypeError /\
  forallb before_cache (events (securityHeadersMiddleware config req h)) = true.
Proof.
  intros Hc Hv Hno. rewrite middleware_blocks.
  destruct (prefix_blocks_lenient config (cache_block config;; next) h Hc)
    as (pre & h' & Hct & HQ & ->).
  assert (Hcache : cache_block config h' = mkOutcome (Abrupt TypeError) h' []).
  { unfold cache_block. rewrite !run_bind.
    unfold res_get at 1. cbn [completion headers events mret M_ret].
    change (lower "Content-Type") with "content-type".
    rewrite Hct, Hv. cbn [default from_option id].
    unfold lift at 1. cbn [completion headers events].
    rewrite (is_dynamic_content_throws _ Hno). reflexivity. }
  unfold prepend. cbn [completion events]. rewrite run_bind, Hcache.
  cbn [completion events]. rewrite app_nil_r. split; [reflexivity | exact HQ].
Qed.

(** ** Bot-detection headers *)

(** X12. [botDetectionHeaders] makes no use of its options: for every
    options value but [null] (which throws) it returns the same
    middleware, whatever [challengeMode] is.  The middleware reads
    CF-Bot-Score and CF-Verified-Bot from the request, copies each to
    X-Bot-Score and X-Verified-Bot when its value is truthy, calls [next]
    and returns. *)
Theorem botDetectionHeaders_ignores_options (options : JsVal) (req : Request)
    (h : gmap string JsVal) :
  botDetectionHeaders options
  = (if is_null options then Abrupt TypeError else Normal botDetectionHeadersMiddleware) /\
  completion (botDetectionHeadersMiddleware req h) = Normal tt /\
  events (botDetectionHeadersMiddleware req h)
  = ([EvReqGet "CF-Bot-Score"; EvReqGet "CF-Verified-Bot"]
     ++ write_if_truthy "X-Bot-Score" (inbound req "CF-Bot-Score")
     ++ write_if_truthy "X-Verified-Bot" (inbound req "CF-Verified-Bot")
     ++ [EvNext])%list.
Proof.
  split; [|split].
  - destruct options; try reflexivity.
    all: unfold botDetectionHeaders, option1; cbn [default_param get_prop];
      try destruct (String.eqb "challengeMode" "length"); reflexivity.
  - unfold botDetectionHeadersMiddleware, req_get.
    do 2 (rewrite run_bind; cbn [completion headers events]).
    unfold set_if_truthy.
    destruct (truthy (default JUndefined (req_headers req !! lower "CF-Bot-Score"))),
      (truthy (default JUndefined (req_headers req !! lower "CF-Verified-Bot")));
      reflexivity.
  - unfold botDetectionHeadersMiddleware, req_get, write_if_truthy, inbound.
    do 2 (rewrite run_bind; cbn [completion headers events]).
    unfold set_if_truthy.
    destruct (truthy (default JUndefined (req_headers req !! lower "CF-Bot-Score"))),
      (truthy (default JUndefined (req_headers req !! lower "CF-Verified-Bot")));
      reflexivity.
Qed.

(** ** The combined middleware *)

Lemma is_null_spec (v : JsVal) : is_null v = false -> v <> JNull.
Proof. intros H ->. discriminate. Qed.

Lemma securityHeaders_null : securityHeaders JNull = Abrupt TypeError.
Proof. reflexivity. Qed.

Lemma rateLimitHeaders_null : rateLimitHeaders JNull = Abrupt TypeError.
Proof. reflexivity. Qed.

Lemma botDetectionHeaders_run (options : JsVal) :
  options <> JNull -> botDetectionHeaders options = Normal botDetectionHeadersMiddleware.
Proof.
  intros Hn. apply default_param_nullish in Hn. unfold botDetectionHeaders.
  rewrite (option1_run _ _ _ Hn). reflexivity.
Qed.

(** X13. [allSecurityMiddleware(options)] throws exactly when [options],
    [options.headers], [options.rateLimit] or [options.botDetection] is
    [null]; otherwise, also when they are absent, it returns the three
    middlewares in the order security headers, rate-limit headers,
    bot-detection headers, each built from its own part of the options. *)
Theorem allSecurityMiddleware_builds (options : JsVal) :
  if is_null options || is_null (property options "headers")
     || is_null (property options "rateLimit")
     || is_null (property options "botDetection")
  then allSecurityMiddleware options = Abrupt TypeError
  else exists config limits,
      securityHeaders_config (property options "headers") = Normal config /\
      rateLimitHeaders_config (property options "rateLimit") = Normal limits /\
      allSecurityMiddleware options
      = Normal [ securityHeadersMiddleware config;
                 rateLimitHeadersMiddleware limits;
                 botDetectionHeadersMiddleware ].
Proof.
  destruct (is_null options) eqn:Ho.
  { destruct options; try discriminate. reflexivity. }
  apply is_null_spec in Ho. pose proof (default_param_nullish _ Ho) as Hd.
  unfold allSecurityMiddleware.
  rewrite !(get_prop_property _ _ Hd), !property_default_param.
  cbn [mbind Completion_bind orb].
  destruct (is_null (property options "headers")) eqn:Hh.
  { destruct (property options "headers"); try discriminate. reflexivity. }
  apply is_null_spec in Hh.
  destruct (securityHeaders_config_fields _ Hh) as (config & Hconfig & _).
  unfold securityHeaders. rewrite Hconfig. cbn [mbind Completion_bind orb].
  destruct (is_null (property options "rateLimit")) eqn:Hr.
  { destruct (property options "rateLimit"); try discriminate. reflexivity. }
  apply is_null_spec in Hr.
  unfold rateLimitHeaders. rewrite (rateLimitHeaders_config_run _ Hr).
  cbn [mbind Completion_bind orb].
  destruct (is_null (property options "botDetection")) eqn:Hb.
  { destruct (property options "botDetection"); try discriminate. reflexivity. }
  apply is_null_spec in Hb. rewrite (botDetectionHeaders_run _ Hb).
  cbn [mbind Completion_bind]. exists config. eexists. repeat split.
Qed.

(** ** The three middlewares in a chain *)

Lemma tame_rateLimitHeadersMiddleware {R : Response} limits req :
  tame (rateLimitHeadersMiddleware limits req).
Proof. unfold rateLimitHeadersMiddleware. tame_steps. Qed.

Lemma tame_botDetectionHeadersMiddleware {R : Response} req :
  tame (botDetectionHeadersMiddleware req).
Proof. unfold botDetectionHeadersMiddleware. tame_steps. Qed.

Lemma respects_rateLimitHeadersMiddleware_keys {R : Response} limits req :
  respects (writes_within rateLimit_keys) (rateLimitHeadersMiddleware limits req).
Proof. unfold rateLimitHeadersMiddleware. respects_steps. Qed.

Lemma respects_botDetectionHeadersMiddleware_keys {R : Response} req :
  respects (writes_within botDetection_keys) (botDetectionHeadersMiddleware req).
Proof. unfold botDetectionHeadersMiddleware. respects_steps. Qed.

Lemma rateLimitHeadersMiddleware_normal limits req h :
  completion (rateLimitHeadersMiddleware limits req h) = Normal tt.
Proof.
  unfold rateLimitHeadersMiddleware. destruct (strict_ne_null (remaining limits));
    reflexivity.
Qed.

Lemma botDetectionHeadersMiddleware_normal req h :
  completion (botDetectionHeadersMiddleware req h) = Normal tt.
Proof.
  unfold botDetectionHeadersMiddleware, req_get.
  do 2 (rewrite run_bind; cbn [completion headers events]).
  unfold set_if_truthy.
  destruct (truthy (default JUndefined (req_headers req !! lower "CF-Bot-Score"))),
    (truthy (default JUndefined (req_headers req !! lower "CF-Verified-Bot")));
    reflexivity.
Qed.

Lemma securityHeadersMiddleware_lenient_normal config req h :
  lenient_config config = true ->
  normal_response h = true ->
  completion (securityHeadersMiddleware config req h) = Normal tt.
Proof.
  intros Hc Hr. rewrite middleware_blocks.
  destruct (prefix_blocks_lenient config (cache_block config;; next) h Hc)
    as (pre & h' & Hct & HQ & ->).
  assert (Hr' : normal_response h' = true)
    by (unfold normal_response in *; rewrite Hct; exact Hr).
  unfold prepend. cbn [completion]. rewrite run_bind, (cache_block_run _ _ Hr').
  destruct (includes "image" (content_type_of h') || includes "font" (content_type_of h')
            || includes "css" (content_type_of h')
            || includes "javascript" (content_type_of h')); reflexivity.
Qed.

Lemma settled_securityHeadersMiddleware config req h :
  lenient_config config = true ->
  normal_response h = true ->
  settled h (securityHeadersMiddleware config req).
Proof.
  intros Hc Hr. split; [apply tame_securityHeadersMiddleware|].
  intros h' Hct. apply securityHeadersMiddleware_lenient_normal; [exact Hc|].
  unfold normal_response in *. rewrite Hct. exact Hr.
Qed.

Lemma settled_content_type (h h' : gmap string JsVal) (m : M unit) :
  h' !! "content-type" = h !! "content-type" -> settled h m -> settled h' m.
Proof.
  intros Hct (Ht & Hn). split; [exact Ht|].
  intros h'' Hct'. apply Hn. rewrite Hct'. exact Hct.
Qed.

(** Settled handlers run one after the other to the end, and each makes
    the calls it makes when it runs alone. *)
Lemma run_chain_settled (handlers : list (Request -> M unit)) (req : Request) :
  forall h,
    Forall (fun m => settled h (m req)) handlers ->
    completion (run_chain handlers req h) = Normal tt /\
    events (run_chain handlers req h)
    = concat (map (fun m => events (m req h)) handlers) /\
    headers (run_chain handlers req h) = replay (events (run_chain handlers req h)) h.
Proof.
  induction handlers as [|m rest IH]; intros h HF.
  - repeat split.
  - apply List.Forall_cons_iff in HF as ((Ht & Hn) & HF).
    pose proof (tame_content_type _ h Ht) as Hct.
    destruct (IH (headers (m req h))) as (Hc & He & Hh).
    { revert HF. apply List.Forall_impl. intros m'. apply settled_content_type, Hct. }
    cbn [run_chain foldr]. fold (run_chain rest req). rewrite run_bind.
    rewrite (Hn h eq_refl). cbn zeta. cbn [completion headers events].
    split; [exact Hc|]. split.
    + cbn [map concat]. f_equal. rewrite He. f_equal.
      apply List.map_ext_in. intros m' Hin.
      apply List.Forall_forall with (x := m') in HF; [|exact Hin].
      destruct HF as (Ht' & _). destruct (Ht' h) as (_ & _ & Hsame).
      apply (Hsame _ Hct).
    + rewrite Hh, replay_app. f_equal. destruct (Ht h) as (Hm & _). exact Hm.
Qed.

Lemma last_write_app key (a b : list Event) :
  last_write key (a ++ b) =
  match last_write key b with Some v => Some v | None => last_write key a end.
Proof.
  induction b as [|e b IH] using rev_ind; [rewrite app_nil_r; reflexivity|].
  rewrite app_assoc, !last_write_snoc.
  destruct e as [n v| |]; try exact IH.
  destruct (String.eqb (lower n) key); [reflexivity | exact IH].
Qed.

Lemma last_write_concat key (ls : list (list Event)) :
  last_write key (concat ls) = last (omap (last_write key) ls).
Proof.
  induction ls as [|l ls IH]; [reflexivity|].
  cbn [concat omap list_omap]. rewrite last_write_app, IH.
  destruct (last_write key l) as [v|]; [|destruct (last _); reflexivity].
  rewrite last_cons. reflexivity.
Qed.

Lemma last_write_leaves key (evs : list Event) :
  forallb (leaves key) evs = true -> last_write key evs = None.
Proof.
  induction evs as [|e evs IH] using rev_ind; [reflexivity|].
  rewrite forallb_app, andb_true_iff, last_write_snoc. intros (Hevs & He).
  destruct e as [n v| |]; try exact (IH Hevs).
  cbn [forallb leaves] in He. rewrite andb_true_r in He. apply negb_true_iff in He.
  rewrite He. exact (IH Hevs).
Qed.

Lemma tame_lookup {A} (m : M A) (key : string) (h : gmap string JsVal) :
  tame m ->
  headers (m h) !! key
  = match last_write key (events (m h)) with Some v => Some v | None => h !! key end.
Proof. intros Ht. destruct (Ht h) as (Hh & _). rewrite Hh at 1. apply lookup_replay. Qed.

(** No two of the three middlewares write the same header. *)
Lemma keys_apart :
  Forall (fun k => (k ∉ rateLimit_keys) /\ (k ∉ botDetection_keys)) security_keys /\
  Forall (fun k => k ∉ botDetection_keys) rateLimit_keys.
Proof. split; (apply (bool_decide_unpack _); vm_compute; exact I). Qed.

(** On a response that stores the writes of a handler, the handler is
    settled when it is settled on the header sink. *)
Lemma settled_follows {R : Response} (m sink : M unit) (h : gmap string JsVal) :
  follows m sink -> tame m -> tame sink -> settled h sink ->
  forallb accepted (events (sink h)) = true ->
  settled h m.
Proof.
  intros Hf Ht Hts (_ & Hn) Ha. split; [exact Ht|]. intros h' Hct.
  destruct (Hts h) as (_ & _ & Hsame). destruct (Hsame h' Hct) as (_ & He).
  rewrite (follows_accepted m sink h' Hf) by (rewrite He; exact Ha).
  apply Hn, Hct.
Qed.

Lemma settled_rateLimitHeadersMiddleware limits req h :
  settled h (rateLimitHeadersMiddleware limits req).
Proof.
  split; [apply tame_rateLimitHeadersMiddleware|].
  intros. apply rateLimitHeadersMiddleware_normal.
Qed.

Lemma settled_botDetectionHeadersMiddleware req h :
  settled h (botDetectionHeadersMiddleware req).
Proof.
  split; [apply tame_botDetectionHeadersMiddleware|].
  intros. apply botDetectionHeadersMiddleware_normal.
Qed.

(** X14. The three middlewares do not interfere.  Run one after the other
    on a response that stores the headers they write, in any order, they
    all complete, and each header then holds what the middleware that owns
    it leaves when it runs alone; a header of none of them is left as it
    was.  So the order in which they are mounted does not change the
    response headers. *)
Theorem chain_any_order {R : Response} (config : Config) (limits : RateLimitConfig)
    (req : Request) (h : gmap string JsVal) (handlers : list (Request -> M unit)) :
  lenient_config config = true ->
  normal_response h = true ->
  forallb accepted
    (events (securityHeadersMiddleware (R := header_sink) config req h)) = true ->
  forallb accepted
    (events (rateLimitHeadersMiddleware (R := header_sink) limits req h)) = true ->
  forallb accepted
    (events (botDetectionHeadersMiddleware (R := header_sink) req h)) = true ->
  handlers ≡ₚ [ securityHeadersMiddleware config;
                rateLimitHeadersMiddleware limits;
                botDetectionHeadersMiddleware ] ->
  completion (run_chain handlers req h) = Normal tt /\
  forall key,
    headers (run_chain handlers req h) !! key
    = if bool_decide (key ∈ security_keys)
      then headers (securityHeadersMiddleware config req h) !! key
      else if bool_decide (key ∈ rateLimit_keys)
      then headers (rateLimitHeadersMiddleware limits req h) !! key
      else if bool_decide (key ∈ botDetection_keys)
      then headers (botDetectionHeadersMiddleware req h) !! key
      else h !! key.
Proof.
  intros Hc Hr As Ar Ab Hp.
  assert (HF : Forall (fun m => settled h (m req)) handlers).
  { apply (Permutation_Forall (Permutation_sym Hp)).
    repeat apply List.Forall_cons; [| | |apply List.Forall_nil].
    - exact (settled_follows _ _ h (follows_securityHeadersMiddleware config req)
               (tame_securityHeadersMiddleware config req)
               (tame_securityHeadersMiddleware config req)
               (settled_securityHeadersMiddleware config req h Hc Hr) As).
    - exact (settled_follows _ _ h (follows_rateLimitHeadersMiddleware limits req)
               (tame_rateLimitHeadersMiddleware limits req)
               (tame_rateLimitHeadersMiddleware limits req)
               (settled_rateLimitHeadersMiddleware limits req h) Ar).
    - exact (settled_follows _ _ h (follows_botDetectionHeadersMiddleware req)
               (tame_botDetectionHeadersMiddleware req)
               (tame_botDetectionHeadersMiddleware req)
               (settled_botDetectionHeadersMiddleware req h) Ab). }
  destruct (run_chain_settled handlers req h HF) as (Hn & He & Hh).
  split; [exact Hn|]. intros key.
  rewrite Hh, lookup_replay, He, last_write_concat.
  pose proof (omap_Permutation (last_write key) _ _
                (Permutation_map (fun m => events (m req h)) Hp)) as Hl.
  cbn [map] in Hl.
  rewrite (tame_lookup _ key h (tame_securityHeadersMiddleware config req)),
    (tame_lookup _ key h (tame_rateLimitHeadersMiddleware limits req)),
    (tame_lookup _ key h (tame_botDetectionHeadersMiddleware req)).
  pose proof (respects_securityHeadersMiddleware_keys config req h) as Ks.
  pose proof (respects_rateLimitHeadersMiddleware_keys limits req h) as Kr.
  pose proof (respects_botDetectionHeadersMiddleware_keys req h) as Kb.
  destruct keys_apart as (Hsr & Hrb).
  rewrite Forall_forall in Hsr. rewrite Forall_forall in Hrb.
  assert (Hquiet : forall keys evs,
             key ∉ keys -> forallb (writes_within keys) evs = true ->
             last_write key evs = None).
  { intros keys evs Hk Hw. apply last_write_leaves.
    exact (writes_within_leaves keys key evs Hk Hw). }
  revert Hl. cbn [omap list_omap].
  destruct (bool_decide (key ∈ security_keys)) eqn:Ds.
  { apply bool_decide_eq_true in Ds. destruct (Hsr key Ds) as (Nr & Nb).
    rewrite (Hquiet _ _ Nr Kr), (Hquiet _ _ Nb Kb).
    destruct (last_write key (events (securityHeadersMiddleware config req h))).
    - intros Hl. apply Permutation_singleton_r in Hl. rewrite Hl. reflexivity.
    - intros Hl. apply Permutation_nil_r in Hl. rewrite Hl. reflexivity. }
  apply bool_decide_eq_false in Ds. rewrite (Hquiet _ _ Ds Ks).
  destruct (bool_decide (key ∈ rateLimit_keys)) eqn:Dr.
  { apply bool_decide_eq_true in Dr. pose proof (Hrb key Dr) as Nb.
    rewrite (Hquiet _ _ Nb Kb).
    destruct (last_write key (events (rateLimitHeadersMiddleware limits req h))).
    - intros Hl. apply Permutation_singleton_r in Hl. rewrite Hl. reflexivity.
    - intros Hl. apply Permutation_nil_r in Hl. rewrite Hl. reflexivity. }
  apply bool_decide_eq_false in Dr. rewrite (Hquiet _ _ Dr Kr).
  destruct (bool_decide (key ∈ botDetection_keys)) eqn:Db.
  { destruct (last_write key (events (botDetectionHeadersMiddleware req h))).
    - intros Hl. apply Permutation_singleton_r in Hl. rewrite Hl. reflexivity.
    - intros Hl. apply Permutation_nil_r in Hl. rewrite Hl. reflexivity. }
  apply bool_decide_eq_false in Db. rewrite (Hquiet _ _ Db Kb).
  intros Hl. apply Permutation_nil_r in Hl. rewrite Hl. reflexivity.
Qed.

(** ** The calls of the Hono handler *)

(** X15. The Hono handler calls [next] first and writes its headers when
    the rest of the chain has run.  After Strict-Transport-Security,
    written as in the Express middleware, it writes X-Frame-Options,
    X-Content-Type-Options and Referrer-Policy unconditionally: a falsy
    option such as [false] is written as the header value, where the
    Express middleware omits the header.  The handler completes on a
    response that stores these writes. *)
Theorem hono_handler_calls {R : Response} (options : JsVal) (aconfig : AdapterConfig)
    (h : gmap string JsVal) (n : string) :
  buildConfig options = Normal aconfig ->
  ToString (maxAge (adapter_hsts aconfig)) = Normal n ->
  forallb accepted
    (events (securityHeadersHono_handler (R := header_sink) aconfig h)) = true ->
  completion (securityHeadersHono_handler aconfig h) = Normal tt /\
  events (securityHeadersHono_handler aconfig h)
  = (EvNext
     :: (if truthy (hsts_enabled (adapter_hsts aconfig))
         then [EvSetHeader "Strict-Transport-Security"
                 (JStr ("max-age=" +:+ n
                        +:+ suffix_if (truthy (includeSubDomains (adapter_hsts aconfig)))
                              "; includeSubDomains"
                        +:+ suffix_if (truthy (preload (adapter_hsts aconfig)))
                              "; preload"))]
         else [])
     ++ [ EvSetHeader "X-Frame-Options" (property options "xFrameOptions" ?? JStr "DENY");
          EvSetHeader "X-Content-Type-Options"
            (property options "xContentTypeOptions" ?? JStr "nosniff");
          EvSetHeader "Referrer-Policy"
            (property options "referrerPolicy"
             ?? JStr "strict-origin-when-cross-origin") ])%list.
Proof.
  intros Hb Hn Ha.
  rewrite (follows_accepted _ _ h (follows_securityHeadersHono_handler aconfig) Ha).
  clear Ha.
  assert (Hnull : options <> JNull) by (intros ->; discriminate).
  apply default_param_nullish in Hnull. unfold buildConfig in Hb.
  rewrite !(option2_run _ _ _ _ Hnull), !(option1_run _ _ _ Hnull),
    !property_default_param in Hb.
  cbn [mbind Completion_bind] in Hb. injection Hb as <-.
  cbn [adapter_hsts adapter_xFrameOptions adapter_xContentTypeOptions
       adapter_referrerPolicy] in *.
  unfold securityHeadersHono_handler.
  cbn [adapter_hsts adapter_xFrameOptions adapter_xContentTypeOptions
       adapter_referrerPolicy].
  rewrite (run_bind next). cbn [next completion headers events].
  rewrite run_bind.
  match goal with
  | |- context [truthy (hsts_enabled ?c)] =>
      rewrite (hstsValue_printed c n Hn); destruct (truthy (hsts_enabled c))
  end; split; reflexivity.
Qed.

(** ** Allow lists that are not lists *)

Lemma permissions_entry_blank (feature : string) (allowList : JsVal) :
  blank_origins allowList = true ->
  permissions_entry (feature, allowList)
  = Normal (feature +:+ "=(" +:+ String.concat " " (strings_of allowList) +:+ ")").
Proof.
  destruct allowList as [| |b|n|s| |]; try discriminate; intros Hb; try reflexivity.
  cbn [blank_origins] in Hb. apply String.eqb_eq in Hb. subst s. reflexivity.
Qed.

Lemma permissionsValue_loose (props : list (string * JsVal)) :
  loose_permissions props = true ->
  permissionsValue (JObj props) = Normal (permissions_rendering props).
Proof.
  unfold loose_permissions, permissionsValue, permissions_rendering, Object_entries.
  cbn [nullish own_entries mbind Completion_bind]. intros H.
  assert (Hmap : array_map permissions_entry props
                 = Normal (map (fun '(feature, allowList) =>
                                  feature +:+ "=(" +:+
                                  String.concat " " (strings_of allowList) +:+ ")")
                               props)).
  { induction props as [|[feature allowList] props IH]; [reflexivity|].
    cbn [forallb] in H. apply andb_true_iff in H as [Hx H].
    cbn [array_map map]. apply orb_true_iff in Hx as [Hx|Hx].
    - rewrite (permissions_entry_normal _ _ Hx).
      cbn [mbind Completion_bind]. rewrite (IH H). reflexivity.
    - rewrite (permissions_entry_blank _ _ Hx).
      cbn [mbind Completion_bind]. rewrite (IH H). reflexivity. }
  rewrite Hmap. reflexivity.
Qed.

(** X16. An allow list given as a boolean, a number or the empty string
    is rendered as the empty list ([strings_of] has no string for it): the
    feature is written [feature=()], which blocks it, so [camera: true]
    switches the camera off.  The other features are rendered as for a map
    of lists, in the map's order. *)
Theorem blank_origins_block_feature (config : Config) (req : Request)
    (h : gmap string JsVal) (props : list (string * JsVal)) :
  negb (truthy (hsts_enabled (hsts config))) || is_number (maxAge (hsts config)) = true ->
  negb (truthy (csp_enabled (csp config)))
  || normal_directives (directives (csp config)) = true ->
  permissionsPolicy config = JObj props ->
  loose_permissions props = true ->
  header_writes "Permissions-Policy"
    (events (securityHeadersMiddleware config req h))
  = [JStr (permissions_rendering props)].
Proof.
  intros Hn Hnd Hp Hl.
  - rewrite middleware_blocks, (seq_blocks_split 6 (prefix_blocks config)).
    cbn [prefix_blocks take drop firstn skipn].
    match goal with
    | |- context [seq_blocks ?bs ?k ?h] =>
        destruct (seq_blocks_steady (leaves (lower "Permissions-Policy")) bs k h)
          as (pre & h' & Hct & HQ & ->)
    end.
    { repeat (apply List.Forall_cons; [steady_block_lenient|]). apply List.Forall_nil. }
    unfold prepend. cbn [events seq_blocks foldr].
    rewrite header_writes_app, (header_writes_quiet _ _ HQ), header_writes_here.
    + unfold permissions_block. rewrite Hp. cbn [truthy]. rewrite run_bind.
      unfold lift. cbn [completion]. rewrite (permissionsValue_loose _ Hl). reflexivity.
    + tail_respects.
Qed.

(** ** A directive map that is not a map *)

Lemma pretty_N_char_digit (x : N) (s : string) :
  starts_with_digit (String (pretty_N_char x) s) = true.
Proof.
  destruct x as [|p]; [reflexivity|].
  repeat (destruct p as [p|p|]; try reflexivity).
Qed.

Lemma pretty_N_go_digit (x : N) :
  forall s, (0 < x)%N -> starts_with_digit (pretty_N_go x s) = true.
Proof.
  induction (N.lt_wf_0 x) as [x _ IH]. intros s Hx.
  rewrite pretty_N_go_step by exact Hx.
  destruct (N.eq_dec (N.div x 10) 0%N) as [Hz|Hz].
  - rewrite Hz, pretty_N_go_0. apply pretty_N_char_digit.
  - apply IH; [apply N.div_lt; lia | apply N.neq_0_lt_0; exact Hz].
Qed.

Lemma pretty_nat_digit (i : nat) : starts_with_digit (pretty i) = true.
Proof.
  unfold pretty, pretty_nat, pretty, pretty_N.
  destruct (decide (N.of_nat i = 0%N)); [reflexivity|].
  apply pretty_N_go_digit. lia.
Qed.

Lemma get_own_index_keys {A} (f : nat -> A -> string * JsVal) (l : list A)
    (k : string) :
  (forall i x, starts_with_digit (fst (f i x)) = true) ->
  starts_with_digit k = false ->
  get_own (imap f l) k = None.
Proof.
  intros Hf Hk. revert f Hf.
  induction l as [|x l IH]; intros f Hf; [reflexivity|].
  cbn [imap get_own]. pose proof (Hf 0%nat x) as H0.
  destruct (f 0%nat x) as [k' v]. cbn [fst] in H0.
  destruct (String.eqb_spec k' k) as [->|_]; [congruence|].
  apply IH. intros i y. apply Hf.
Qed.

Lemma get_prop_flat (v : JsVal) (k : string) :
  flat v = true ->
  starts_with_digit k = false ->
  String.eqb k "length" = false ->
  get_prop v k = Normal JUndefined.
Proof.
  intros Hv Hk Hl. destruct v as [| |b|n|s|elems|]; try discriminate;
    cbn [get_prop own_entries]; rewrite ?Hl; try reflexivity.
  - rewrite get_own_index_keys; [reflexivity | intros; apply pretty_nat_digit | exact Hk].
  - rewrite get_own_index_keys; [reflexivity | intros; apply pretty_nat_digit | exact Hk].
Qed.

Lemma cspValue_flat (v : JsVal) : flat v = true -> cspValue v = Normal "".
Proof.
  intros Hv. unfold cspValue, push_sources, push_flag.
  rewrite !(get_prop_flat v _ Hv) by reflexivity. reflexivity.
Qed.

(** X17. A [csp.directives] that is not a map but a string, a list, a
    number or a boolean has none of the directives the middleware reads:
    with CSP enabled the Content-Security-Policy header is written with
    the empty string as its value, and no error is raised.  A policy
    passed as one string is lost in this way. *)
Theorem flat_directives_give_empty_policy (config : Config) (req : Request)
    (h : gmap string JsVal) :
  negb (truthy (hsts_enabled (hsts config))) || is_number (maxAge (hsts config)) = true ->
  truthy (csp_enabled (csp config)) = true ->
  flat (directives (csp config)) = true ->
  header_writes "Content-Security-Policy"
    (events (securityHeadersMiddleware config req h))
  = [JStr ""].
Proof.
  intros Hn He Hflat.
  rewrite middleware_blocks, (seq_blocks_split 1 (prefix_blocks config)).
  cbn [prefix_blocks take drop firstn skipn].
  match goal with
  | |- context [seq_blocks ?bs ?k ?h] =>
      destruct (seq_blocks_steady (leaves (lower "Content-Security-Policy")) bs k h)
        as (pre & h' & Hct & HQ & ->)
  end.
  { repeat (apply List.Forall_cons; [steady_block_lenient|]). apply List.Forall_nil. }
  unfold prepend. cbn [events seq_blocks foldr].
  rewrite header_writes_app, (header_writes_quiet _ _ HQ), header_writes_here.
  - unfold csp_block. rewrite He, run_bind. unfold lift. cbn [completion].
    rewrite (cspValue_flat _ Hflat). reflexivity.
  - tail_respects.
Qed.

(** ** Option groups that are not objects *)

Lemma property_not_a_map (v : JsVal) (k : string) :
  not_a_map v = true ->
  starts_with_digit k = false ->
  String.eqb k "length" = false ->
  property v k = JUndefined.
Proof.
  intros Hv Hk Hl. unfold property.
  destruct (flat v) eqn:Hflat.
  - rewrite (get_prop_flat _ _ Hflat Hk Hl). reflexivity.
  - destruct v; try discriminate; reflexivity.
Qed.

Lemma not_a_map_group_defaults (options : JsVal) (config : Config) (k1 k2 : string)
    (f : Field) :
  securityHeaders_config options = Normal config ->
  not_a_map (property options k1) = true ->
  field_path f = (k1, Some k2) ->
  config_field config f = field_default f.
Proof.
  intros Hb Hp Hf.
  destruct (securityHeaders_config_fields options
              (securityHeaders_config_not_null _ _ Hb)) as (config' & Hb' & Hfields).
  rewrite Hb in Hb'. injection Hb' as <-. rewrite Hfields. unfold supplied.
  rewrite Hf, (property_not_a_map _ _ Hp); [reflexivity | |];
    destruct f; try discriminate; injection Hf as <- <-; reflexivity.
Qed.

(** X8. An option group ([hsts], [csp], [crossOrigin]) given as something
    other than an object (a boolean, a number, a string, a list) is
    ignored: every setting of the group takes its default.  In particular
    [hsts: false] does not switch HSTS off: the header is written with its
    default value. *)
Theorem group_not_a_map_ignored (options : JsVal) (config : Config) (k1 : string) :
  securityHeaders_config options = Normal config ->
  not_a_map (property options k1) = true ->
  (forall f k2, field_path f = (k1, Some k2) ->
                config_field config f = field_default f) /\
  (k1 = "hsts" ->
   forall req h,
     header_writes "Strict-Transport-Security"
       (events (securityHeadersMiddleware config req h))
     = [JStr "max-age=31536000; includeSubDomains"]).
Proof.
  intros Hb Hp. split.
  - intros f k2 Hf. exact (not_a_map_group_defaults _ _ _ _ _ Hb Hp Hf).
  - intros -> req h.
    pose proof (not_a_map_group_defaults _ _ _ "enabled" F_hsts_enabled Hb Hp eq_refl) as He.
    pose proof (not_a_map_group_defaults _ _ _ "maxAge" F_hsts_maxAge Hb Hp eq_refl) as Hm.
    pose proof (not_a_map_group_defaults _ _ _ "includeSubDomains"
                  F_hsts_includeSubDomains Hb Hp eq_refl) as Hi.
    pose proof (not_a_map_group_defaults _ _ _ "preload" F_hsts_preload Hb Hp eq_refl) as Hl.
    cbn [config_field field_default] in He, Hm, Hi, Hl.
    unfold securityHeadersMiddleware. rewrite header_writes_here by tail_respects.
    rewrite (hsts_block_printed _ _ "31536000") by (rewrite Hm; reflexivity).
    rewrite He, Hi, Hl. reflexivity.
Qed.

(** ** The headers the rate-limit middleware leaves *)

(** X18. [rateLimitHeadersMiddleware] overwrites X-RateLimit-Limit,
    X-RateLimit-Window and CF-Cache-Status, whatever a rate limiter
    mounted before it had set; X-RateLimit-Remaining is overwritten when
    [remaining] is configured and otherwise keeps the value it had, if
    any; every other header is left as it was. *)
Theorem rateLimitHeaders_final_headers (limits : RateLimitConfig) (req : Request)
    (h : gmap string JsVal) :
  headers (rateLimitHeadersMiddleware limits req h) !! "x-ratelimit-limit"
  = Some (limit limits) /\
  headers (rateLimitHeadersMiddleware limits req h) !! "x-ratelimit-window"
  = Some (window limits) /\
  headers (rateLimitHeadersMiddleware limits req h) !! "x-ratelimit-remaining"
  = (if strict_ne_null (remaining limits) then Some (remaining limits)
     else h !! "x-ratelimit-remaining") /\
  headers (rateLimitHeadersMiddleware limits req h) !! "cf-cache-status"
  = Some (JStr "DYNAMIC") /\
  forall key,
    key ∉ rateLimit_keys ->
    headers (rateLimitHeadersMiddleware limits req h) !! key = h !! key.
Proof.
  pose proof (tame_rateLimitHeadersMiddleware limits req) as Ht.
  assert (He : events (rateLimitHeadersMiddleware limits req h)
               = ([EvSetHeader "X-RateLimit-Limit" (limit limits);
                   EvSetHeader "X-RateLimit-Window" (window limits)]
                  ++ (if strict_ne_null (remaining limits)
                      then [EvSetHeader "X-RateLimit-Remaining" (remaining limits)]
                      else [])
                  ++ [EvSetHeader "CF-Cache-Status" (JStr "DYNAMIC"); EvNext])%list).
  { unfold rateLimitHeadersMiddleware.
    destruct (strict_ne_null (remaining limits)); reflexivity. }
  repeat split.
  - rewrite (tame_lookup _ _ h Ht), He.
    destruct (strict_ne_null (remaining limits)); reflexivity.
  - rewrite (tame_lookup _ _ h Ht), He.
    destruct (strict_ne_null (remaining limits)); reflexivity.
  - rewrite (tame_lookup _ _ h Ht), He.
    destruct (strict_ne_null (remaining limits)); reflexivity.
  - rewrite (tame_lookup _ _ h Ht), He.
    destruct (strict_ne_null (remaining limits)); reflexivity.
  - intros key Hk. destruct (Ht h) as (Hh & _). rewrite Hh.
    apply lookup_replay_leaves, (writes_within_leaves rateLimit_keys); [exact Hk|].
    apply respects_rateLimitHeadersMiddleware_keys.
Qed.

(** ** A response that refuses a header *)



End Middleware.

(** * Closed instances *)

(** The end-to-end scenario: the default configuration on a response with
    no Content-Type. *)
Example default_run :
  events (securityHeadersMiddleware digits_positive large_digits default_config empty_request ∅)
  = [ EvSetHeader "Strict-Transport-Security" (JStr "max-age=31536000; includeSubDomains");
      EvSetHeader "Content-Security-Policy"
        (JStr ("default-src 'self'; script-src 'self' 'unsafe-inline'; "
               +:+ "style-src 'self' 'unsafe-inline' https://fonts.googleapis.com; "
               +:+ "img-src 'self' data: https:; "
               +:+ "font-src 'self' https://fonts.gstatic.com; "
               +:+ "connect-src 'self'; frame-src 'none'; object-src 'none'; "
               +:+ "base-uri 'self'; form-action 'self'; frame-ancestors 'none'; "
               +:+ "upgrade-insecure-requests"));
      EvSetHeader "X-Frame-Options" (JStr "DENY");
      EvSetHeader "X-Content-Type-Options" (JStr "nosniff");
      EvSetHeader "X-XSS-Protection" (JStr "1; mode=block");
      EvSetHeader "Referrer-Policy" (JStr "strict-origin-when-cross-origin");
      EvSetHeader "Permissions-Policy"
        (JStr ("accelerometer=(), camera=(), geolocation=(), gyroscope=(), "
               +:+ "magnetometer=(), microphone=(), payment=(), usb=()"));
      EvSetHeader "Cross-Origin-Embedder-Policy" (JStr "require-corp");
      EvSetHeader "Cross-Origin-Opener-Policy" (JStr "same-origin");
      EvSetHeader "Cross-Origin-Resource-Policy" (JStr "same-origin");
      EvSetHeader "Cache-Control"
        (JStr "no-store, no-cache, must-revalidate, proxy-revalidate");
      EvSetHeader "Pragma" (JStr "no-cache");
      EvSetHeader "Expires" (JStr "0");
      EvNext ].
Proof. vm_compute. reflexivity. Qed.

(** [null] options throw when the configuration is built. *)
Example null_options_throw : securityHeaders_config JNull = Abrupt TypeError.
Proof. reflexivity. Qed.

(** A directive given as a string, not a list, makes the middleware throw
    after the HSTS header and before [next]. *)
Example string_directive_throws :
  let config := config_of (JObj [("csp", JObj [("directives",
                                   JObj [("defaultSrc", JStr "'self'")])])]) in
  let r := securityHeadersMiddleware digits_positive large_digits config empty_request ∅ in
  completion r = Abrupt TypeError /\
  events r = [EvSetHeader "Strict-Transport-Security"
                (JStr "max-age=31536000; includeSubDomains")].
Proof. vm_compute. split; reflexivity. Qed.

(** A directive the middleware does not know is ignored. *)
Example unknown_directive_ignored :
  cspValue large_digits (JObj [("defaultSrc", str_array ["'self'"]);
                  ("workerSrc", str_array ["'none'"])])
  = Normal "default-src 'self'".
Proof. reflexivity. Qed.

(** The bot-detection middleware, unlike [securityHeaders], reads the
    request. *)
Example botDetection_reads_request :
  events (botDetectionHeadersMiddleware
            {| req_headers := <["cf-bot-score" := JStr "30"]> ∅ |} ∅)
  = [EvReqGet "CF-Bot-Score"; EvReqGet "CF-Verified-Bot";
     EvSetHeader "X-Bot-Score" (JStr "30"); EvNext].
Proof. vm_compute. reflexivity. Qed.

Lemma securityHeaders_config_merges_witness :
  partial_options <> JNull /\
  exists config,
    securityHeaders_config partial_options = Normal config /\
    (forall f,
       (omitted partial_options f -> config_field config f = field_default f) /\
       (~ omitted partial_options f ->
        config_field config f = supplied partial_options f)) /\
    (forall f v,
       nullish v = false ->
       exists config',
         securityHeaders_config (override partial_options f v) = Normal config' /\
         config_field config' f = v /\
         forall g, g <> f -> config_field config' g = config_field config g).
Proof.
  split; [discriminate|].
  apply (securityHeaders_config_merges partial_options). discriminate.
Defined.

(** Overriding [hsts.maxAge] in the partial override above. *)
Example override_maxAge :
  override partial_options F_hsts_maxAge (JNum 86400)
  = JObj [ ("hsts", JObj [("preload", JBool true); ("maxAge", JNum 86400)]);
           ("csp", JObj [("directives", JObj [("defaultSrc", str_array ["'self'"])])]) ].
Proof. reflexivity. Qed.

(** The partial override above: [preload] is overridden, its siblings keep
    their defaults, and the supplied directive map replaces the default one
    (it has no [scriptSrc]). *)
Example partial_options_config :
  hsts (config_of partial_options)
  = {| hsts_enabled := JBool true; maxAge := JNum 31536000;
       includeSubDomains := JBool true; preload := JBool true |} /\
  directives (csp (config_of partial_options))
  = JObj [("defaultSrc", str_array ["'self'"])] /\
  csp_enabled (csp (config_of partial_options)) = JBool true /\
  permissionsPolicy (config_of partial_options) = default_permissionsPolicy.
Proof. repeat split. Qed.

Lemma hsts_header_emitted_witness :
  hsts (config_of partial_options)
  = {| hsts_enabled := JBool true; maxAge := JNum 31536000;
       includeSubDomains := JBool true; preload := JBool true |} /\
  isSafeInteger 31536000 = true /\
  header_writes "Strict-Transport-Security"
    (events (securityHeadersMiddleware digits_positive large_digits (config_of partial_options)
               empty_request ∅))
  = [JStr "max-age=31536000; includeSubDomains; preload"].
Proof.
  do 2 (split; [reflexivity|]).
  exact (hsts_header_emitted digits_positive large_digits (config_of partial_options)
           empty_request ∅ 31536000 true true true eq_refl eq_refl).
Defined.

Lemma csp_header_rendering_witness :
  is_number (maxAge (hsts (config_of partial_options))) = true /\
  truthy (csp_enabled (csp (config_of partial_options))) = true /\
  directives (csp (config_of partial_options))
  = JObj [("defaultSrc", str_array ["'self'"])] /\
  normal_directives (JObj [("defaultSrc", str_array ["'self'"])]) = true /\
  header_writes "Content-Security-Policy"
    (events (securityHeadersMiddleware digits_positive large_digits (config_of partial_options)
               empty_request ∅))
  = [JStr "default-src 'self'"].
Proof.
  do 4 (split; [reflexivity|]).
  exact (csp_header_rendering digits_positive large_digits (config_of partial_options) empty_request ∅
           [("defaultSrc", str_array ["'self'"])] eq_refl eq_refl eq_refl eq_refl).
Defined.

Lemma permissions_header_rendering_witness :
  is_number (maxAge (hsts (config_of camera_options))) = true /\
  normal_directives (directives (csp (config_of camera_options))) = true /\
  permissionsPolicy (config_of camera_options)
  = JObj [("camera", JArr []); ("geolocation", str_array ["'self'"])] /\
  normal_permissions (JObj [("camera", JArr []); ("geolocation", str_array ["'self'"])])
  = true /\
  header_writes "Permissions-Policy"
    (events (securityHeadersMiddleware digits_positive large_digits (config_of camera_options)
               empty_request ∅))
  = [JStr "camera=(), geolocation=('self')"].
Proof.
  do 4 (split; [reflexivity|]).
  exact (permissions_header_rendering digits_positive large_digits (config_of camera_options)
           empty_request ∅
           [("camera", JArr []); ("geolocation", str_array ["'self'"])]
           eq_refl eq_refl eq_refl eq_refl).
Defined.

(** C4, as stated, fails on the empty map: [{}] is truthy, so the header is
    emitted, with the empty string as its value. *)
Lemma empty_permissions_map_emits_header :
  securityHeaders_config no_permissions_options
  = Normal (config_of no_permissions_options) /\
  permissionsPolicy (config_of no_permissions_options) = JObj [] /\
  header_writes "Permissions-Policy"
    (events (securityHeadersMiddleware digits_positive large_digits
               (config_of no_permissions_options) empty_request ∅))
  = [JStr ""] /\
  headers (securityHeadersMiddleware digits_positive large_digits
             (config_of no_permissions_options) empty_request ∅)
    !! "permissions-policy" = Some (JStr "").
Proof. vm_compute. repeat split. Qed.

Lemma image_png_is_static : static_asset "image/png".
Proof. left. exists "", "/png". reflexivity. Qed.

Lemma text_html_is_dynamic : ~ static_asset "text/html".
Proof.
  intros [H|[H|[H|H]]]; apply includes_contains in H; discriminate.
Qed.

Lemma no_content_type_is_dynamic : ~ static_asset "".
Proof.
  intros [H|[H|[H|H]]]; apply includes_contains in H; discriminate.
Qed.

(** With Content-Type [image/png] none of the three headers is written;
    with [text/html] or no Content-Type all three are. *)
Lemma cache_control_rule_witness :
  normal_config default_config = true /\
  normal_response (with_content_type "image/png") = true /\
  normal_response (with_content_type "text/html") = true /\
  normal_response ∅ = true /\
  (header_writes "Cache-Control"
     (events (securityHeadersMiddleware digits_positive large_digits default_config empty_request
                (with_content_type "image/png"))) = [] /\
   header_writes "Pragma"
     (events (securityHeadersMiddleware digits_positive large_digits default_config empty_request
                (with_content_type "image/png"))) = [] /\
   header_writes "Expires"
     (events (securityHeadersMiddleware digits_positive large_digits default_config empty_request
                (with_content_type "image/png"))) = []) /\
  (header_writes "Cache-Control"
     (events (securityHeadersMiddleware digits_positive large_digits default_config empty_request
                (with_content_type "text/html")))
   = [JStr "no-store, no-cache, must-revalidate, proxy-revalidate"] /\
   header_writes "Pragma"
     (events (securityHeadersMiddleware digits_positive large_digits default_config empty_request
                (with_content_type "text/html"))) = [JStr "no-cache"] /\
   header_writes "Expires"
     (events (securityHeadersMiddleware digits_positive large_digits default_config empty_request
                (with_content_type "text/html"))) = [JStr "0"]) /\
  (header_writes "Cache-Control"
     (events (securityHeadersMiddleware digits_positive large_digits default_config empty_request ∅))
   = [JStr "no-store, no-cache, must-revalidate, proxy-revalidate"] /\
   header_writes "Pragma"
     (events (securityHeadersMiddleware digits_positive large_digits default_config empty_request ∅))
   = [JStr "no-cache"] /\
   header_writes "Expires"
     (events (securityHeadersMiddleware digits_positive large_digits default_config empty_request ∅))
   = [JStr "0"]).
Proof.
  do 4 (split; [reflexivity|]).
  split; [|split].
  - exact (proj2 (cache_control_rule digits_positive large_digits default_config empty_request
                    (with_content_type "image/png") eq_refl eq_refl)
                 image_png_is_static).
  - exact (proj1 (cache_control_rule digits_positive large_digits default_config empty_request
                    (with_content_type "text/html") eq_refl eq_refl)
                 text_html_is_dynamic).
  - exact (proj1 (cache_control_rule digits_positive large_digits default_config empty_request
                    ∅ eq_refl eq_refl)
                 no_content_type_is_dynamic).
Defined.

Lemma rateLimitHeaders_emitted_witness :
  exhausted_options <> JNull /\
  exists config,
    rateLimitHeaders_config exhausted_options = Normal config /\
    limit config = JNum 100 /\
    window config = JNum 60 /\
    completion (rateLimitHeadersMiddleware config empty_request ∅) = Normal tt /\
    events (rateLimitHeadersMiddleware config empty_request ∅)
    = [ EvSetHeader "X-RateLimit-Limit" (limit config);
        EvSetHeader "X-RateLimit-Window" (window config);
        EvSetHeader "X-RateLimit-Remaining" (JNum 0);
        EvSetHeader "CF-Cache-Status" (JStr "DYNAMIC");
        EvNext ].
Proof.
  split; [discriminate|].
  apply (rateLimitHeaders_emitted exhausted_options empty_request ∅). discriminate.
Defined.

(** Without a remaining count the header is left out. *)
Example rateLimitHeaders_default :
  exists config,
    rateLimitHeaders_config JUndefined = Normal config /\
    events (rateLimitHeadersMiddleware config empty_request ∅)
    = [ EvSetHeader "X-RateLimit-Limit" (JNum 100);
        EvSetHeader "X-RateLimit-Window" (JNum 60);
        EvSetHeader "CF-Cache-Status" (JStr "DYNAMIC");
        EvNext ].
Proof. eexists. split; reflexivity. Qed.

Lemma securityHeaders_never_throws_witness :
  normal_config default_config = true /\
  normal_response (with_content_type "text/html") = true /\
  forallb (accepted (R := checking_response))
    (events (securityHeadersMiddleware digits_positive large_digits default_config
               empty_request (with_content_type "text/html"))) = true /\
  calls_next_once
    (securityHeadersMiddleware (R := checking_response) digits_positive large_digits
       default_config empty_request (with_content_type "text/html")).
Proof.
  do 2 (split; [reflexivity|]). split; [vm_compute; reflexivity|].
  apply (securityHeaders_never_throws digits_positive large_digits
           (R := checking_response) default_config empty_request
           (with_content_type "text/html")); [reflexivity | reflexivity |].
  vm_compute. reflexivity.
Defined.

(** C8, as stated, fails on a response that checks the values it is given,
    as a Node response does: a configured header value with a line feed is
    a string, yet [res.setHeader] refuses it, the run throws and [next] is
    not called. *)
Lemma line_feed_value_throws :
  normal_config (config_of injected_options) = true /\
  normal_response ∅ = true /\
  is_string (xFrameOptions (config_of injected_options)) = true /\
  completion
    (securityHeadersMiddleware (R := checking_response) digits_positive large_digits
       (config_of injected_options) empty_request ∅) = Abrupt TypeError /\
  forallb is_set_header
    (events (securityHeadersMiddleware (R := checking_response) digits_positive
               large_digits (config_of injected_options) empty_request ∅)) = true.
Proof.
  split; [reflexivity|]. split; [reflexivity|]. split; [reflexivity|].
  split; vm_compute; reflexivity.
Qed.

(** C9, as stated, fails on the default options: the Express middleware
    sets Content-Security-Policy (and nine more headers), the Hono adapter
    sets four headers only. *)
Lemma hono_omits_headers :
  securityHeaders_config (JObj []) = Normal default_config /\
  buildConfig (JObj []) = Normal (adapter_of (JObj [])) /\
  is_Some (headers (securityHeadersMiddleware digits_positive large_digits default_config
                      empty_request ∅) !! "content-security-policy") /\
  headers (securityHeadersHono_handler large_digits (adapter_of (JObj [])) ∅)
    !! "content-security-policy" = None /\
  dom (headers (securityHeadersHono_handler large_digits (adapter_of (JObj [])) ∅))
  = {[ "strict-transport-security"; "x-frame-options"; "x-content-type-options";
       "referrer-policy" ]} /\
  size (headers (securityHeadersMiddleware digits_positive large_digits default_config
                   empty_request ∅)) = 13%nat.
Proof.
  split; [reflexivity|]. split; [reflexivity|]. split; [|split; [|split]].
  - vm_compute. eexists. reflexivity.
  - vm_compute. reflexivity.
  - apply set_eq. intros k. vm_compute headers. set_solver.
  - vm_compute. reflexivity.
Qed.

Lemma hono_writes_four_headers_witness :
  JObj [] <> JNull /\
  is_number (maxAge (hsts default_config)) = true /\
  normal_directives (directives (csp default_config)) = true /\
  truthy (xFrameOptions default_config) = true /\
  truthy (xContentTypeOptions default_config) = true /\
  truthy (referrerPolicy default_config) = true /\
  forallb adapter_call (events (securityHeadersHono_handler large_digits (adapter_of (JObj [])) ∅))
  = true /\
  Forall
    (fun name =>
       header_writes name (events (securityHeadersHono_handler large_digits (adapter_of (JObj [])) ∅))
       = header_writes name
           (events (securityHeadersMiddleware digits_positive large_digits default_config
                      empty_request ∅)))
    ["Strict-Transport-Security"; "X-Frame-Options"; "X-Content-Type-Options";
     "Referrer-Policy"].
Proof.
  split; [discriminate|]. do 5 (split; [reflexivity|]).
  destruct (hono_writes_four_headers digits_positive large_digits (JObj []) empty_request ∅)
    as (config & aconfig & Hc & Ha & _ & _ & _ & _ & Hcalls & Hsts & Hrest);
    [discriminate|].
  change (securityHeaders_config (JObj [])) with (Normal default_config) in Hc.
  change (buildConfig (JObj [])) with (Normal (adapter_of (JObj []))) in Ha.
  injection Hc as <-. injection Ha as <-.
  split; [exact Hcalls|].
  specialize (Hrest eq_refl eq_refl eq_refl eq_refl eq_refl).
  repeat apply List.Forall_cons; try apply List.Forall_nil.
  - exact Hsts.
  - apply Hrest. simpl. tauto.
  - apply Hrest. simpl. tauto.
  - apply Hrest. simpl. tauto.
Defined.

(** ** Instances of the further properties *)

Lemma disabled_policies_not_evaluated_witness :
  lenient_config (config_of switched_off_options) = true /\
  normal_response ∅ = true /\
  forallb (accepted (R := checking_response))
    (events (securityHeadersMiddleware digits_positive large_digits
               (config_of switched_off_options) empty_request ∅)) = true /\
  calls_next_once
    (securityHeadersMiddleware (R := checking_response) digits_positive large_digits
       (config_of switched_off_options) empty_request ∅) /\
  header_writes "Strict-Transport-Security"
    (events (securityHeadersMiddleware (R := checking_response) digits_positive
               large_digits (config_of switched_off_options) empty_request ∅)) = [] /\
  header_writes "Content-Security-Policy"
    (events (securityHeadersMiddleware (R := checking_response) digits_positive
               large_digits (config_of switched_off_options) empty_request ∅)) = [] /\
  header_writes "Permissions-Policy"
    (events (securityHeadersMiddleware (R := checking_response) digits_positive
               large_digits (config_of switched_off_options) empty_request ∅)) = [].
Proof.
  do 2 (split; [reflexivity|]).
  assert (Ha : forallb (accepted (R := checking_response))
                 (events (securityHeadersMiddleware digits_positive large_digits
                            (config_of switched_off_options) empty_request ∅)) = true)
    by (vm_compute; reflexivity).
  split; [exact Ha|]. split; [|split; [|split]].
  - exact (proj1 (disabled_policies_not_evaluated digits_positive large_digits
                    (R := checking_response) (config_of switched_off_options)
                    empty_request ∅ eq_refl eq_refl) Ha).
  - exact (proj1 (proj2 (disabled_policies_not_evaluated digits_positive large_digits
                           (R := checking_response) (config_of switched_off_options)
                           empty_request ∅ eq_refl eq_refl)) eq_refl).
  - exact (proj1 (proj2 (proj2 (disabled_policies_not_evaluated digits_positive
                                  large_digits (R := checking_response)
                                  (config_of switched_off_options) empty_request ∅
                                  eq_refl eq_refl))) eq_refl).
  - exact (proj2 (proj2 (proj2 (disabled_policies_not_evaluated digits_positive
                                  large_digits (R := checking_response)
                                  (config_of switched_off_options) empty_request ∅
                                  eq_refl eq_refl))) eq_refl).
Defined.

Lemma malformed_directive_throws_witness :
  directives (csp (config_of string_source_options))
  = JObj [("defaultSrc", JStr "'self'")] /\
  In ("defaultSrc", "default-src") source_directives /\
  is_array (JStr "'self'") = false /\
  completion (securityHeadersMiddleware digits_positive large_digits
                (config_of string_source_options) empty_request ∅)
  = Abrupt TypeError /\
  forallb (is_write_to "Strict-Transport-Security")
    (events (securityHeadersMiddleware digits_positive large_digits
               (config_of string_source_options) empty_request ∅)) = true.
Proof.
  split; [reflexivity|]. split; [left; reflexivity|]. split; [reflexivity|].
  exact (malformed_directive_throws digits_positive large_digits (config_of string_source_options)
           empty_request ∅ [("defaultSrc", JStr "'self'")] "defaultSrc" "default-src"
           (JStr "'self'") eq_refl eq_refl eq_refl (or_introl eq_refl) eq_refl eq_refl
           eq_refl).
Defined.

Lemma malformed_origins_throw_witness :
  permissionsPolicy (config_of string_origins_options) = JObj [("camera", JStr "self")] /\
  bad_origins (JStr "self") = true /\
  completion (securityHeadersMiddleware digits_positive large_digits
                (config_of string_origins_options) empty_request ∅)
  = Abrupt TypeError /\
  forallb is_set_header
    (events (securityHeadersMiddleware digits_positive large_digits
               (config_of string_origins_options) empty_request ∅)) = true /\
  header_writes "Permissions-Policy"
    (events (securityHeadersMiddleware digits_positive large_digits
               (config_of string_origins_options) empty_request ∅)) = [].
Proof.
  do 2 (split; [reflexivity|]).
  exact (malformed_origins_throw digits_positive large_digits (config_of string_origins_options)
           empty_request ∅ [("camera", JStr "self")] "camera" (JStr "self")
           eq_refl eq_refl eq_refl (or_introl eq_refl) eq_refl).
Defined.

Lemma simple_header_switch_witness :
  securityHeaders_config frame_options_off = Normal (config_of frame_options_off) /\
  lenient_config (config_of frame_options_off) = true /\
  header_writes "X-Frame-Options"
    (events (securityHeadersMiddleware digits_positive large_digits (config_of frame_options_off)
               empty_request ∅)) = [] /\
  header_writes "Referrer-Policy"
    (events (securityHeadersMiddleware digits_positive large_digits (config_of frame_options_off)
               empty_request ∅)) = [JStr "no-referrer"] /\
  header_writes "X-XSS-Protection"
    (events (securityHeadersMiddleware digits_positive large_digits (config_of frame_options_off)
               empty_request ∅)) = [JStr "1; mode=block"].
Proof.
  do 2 (split; [reflexivity|]). split; [|split].
  - apply (simple_header_switch digits_positive large_digits frame_options_off
             (config_of frame_options_off) empty_request ∅
             "X-Frame-Options" F_xFrameOptions eq_refl eq_refl).
    left. reflexivity.
  - apply (simple_header_switch digits_positive large_digits frame_options_off
             (config_of frame_options_off) empty_request ∅
             "Referrer-Policy" F_referrerPolicy eq_refl eq_refl).
    do 3 right. left. reflexivity.
  - apply (simple_header_switch digits_positive large_digits frame_options_off
             (config_of frame_options_off) empty_request ∅
             "X-XSS-Protection" F_xXssProtection eq_refl eq_refl).
    do 2 right. left. reflexivity.
Defined.

Lemma hsts_header_coerced_witness :
  ToString large_digits (maxAge (hsts (config_of coerced_hsts_options))) = Normal "86400" /\
  header_writes "Strict-Transport-Security"
    (events (securityHeadersMiddleware digits_positive large_digits (config_of coerced_hsts_options)
               empty_request ∅))
  = [JStr "max-age=86400; includeSubDomains"].
Proof.
  split; [reflexivity|].
  exact (hsts_header_coerced digits_positive large_digits (config_of coerced_hsts_options)
           empty_request ∅ "86400" eq_refl).
Defined.

Lemma group_not_a_map_ignored_witness :
  securityHeaders_config hsts_false_options = Normal (config_of hsts_false_options) /\
  not_a_map (property hsts_false_options "hsts") = true /\
  hsts (config_of hsts_false_options) = hsts default_config /\
  header_writes "Strict-Transport-Security"
    (events (securityHeadersMiddleware digits_positive large_digits (config_of hsts_false_options)
               empty_request ∅))
  = [JStr "max-age=31536000; includeSubDomains"].
Proof.
  do 3 (split; [reflexivity|]).
  exact (proj2 (group_not_a_map_ignored digits_positive large_digits hsts_false_options
                  (config_of hsts_false_options) "hsts" eq_refl eq_refl)
               eq_refl empty_request ∅).
Defined.

Lemma header_values_defined_witness :
  securityHeaders_config JUndefined = Normal default_config /\
  rateLimitHeaders_config exhausted_options = Normal exhausted_limits /\
  (forall f, nullish (config_field default_config f) = false) /\
  forallb defined_write
    (events (securityHeadersMiddleware digits_positive large_digits default_config empty_request ∅))
  = true /\
  forallb defined_write (events (rateLimitHeadersMiddleware exhausted_limits empty_request ∅))
  = true /\
  forallb defined_write (events (botDetectionHeadersMiddleware empty_request ∅)) = true.
Proof.
  do 2 (split; [reflexivity|]).
  exact (header_values_defined digits_positive large_digits JUndefined exhausted_options default_config
           exhausted_limits empty_request ∅ eq_refl eq_refl).
Defined.

Lemma csp_ignores_unknown_directives_witness :
  (forall prop, In prop known_directives ->
                get_own worker_directives prop
                = get_own [("defaultSrc", str_array ["'self'"])] prop) /\
  cspValue large_digits (JObj worker_directives)
  = cspValue large_digits (JObj [("defaultSrc", str_array ["'self'"])]).
Proof.
  assert (Hsame : forall prop, In prop known_directives ->
                               get_own worker_directives prop
                               = get_own [("defaultSrc", str_array ["'self'"])] prop).
  { intros prop Hin. unfold known_directives in Hin.
    cbn [map fst source_directives app In] in Hin.
    repeat (destruct Hin as [<-|Hin]; [reflexivity|]). destruct Hin. }
  split; [exact Hsame|].
  exact (csp_ignores_unknown_directives large_digits worker_directives
           [("defaultSrc", str_array ["'self'"])] Hsame).
Defined.

Lemma non_string_content_type_throws_witness :
  lenient_config default_config = true /\
  numeric_content_type !! "content-type" = Some (JNum 5) /\
  no_includes (JNum 5) = true /\
  completion (securityHeadersMiddleware digits_positive large_digits default_config empty_request
                numeric_content_type) = Abrupt TypeError /\
  forallb before_cache
    (events (securityHeadersMiddleware digits_positive large_digits default_config empty_request
               numeric_content_type)) = true.
Proof.
  do 3 (split; [reflexivity|]).
  exact (non_string_content_type_throws digits_positive large_digits default_config empty_request
           numeric_content_type (JNum 5) eq_refl eq_refl eq_refl).
Defined.

Lemma chain_any_order_witness :
  lenient_config default_config = true /\
  normal_response ∅ = true /\
  forallb (accepted (R := checking_response))
    (events (securityHeadersMiddleware digits_positive large_digits default_config
               empty_request ∅)) = true /\
  forallb (accepted (R := checking_response))
    (events (rateLimitHeadersMiddleware exhausted_limits empty_request ∅)) = true /\
  forallb (accepted (R := checking_response))
    (events (botDetectionHeadersMiddleware empty_request ∅)) = true /\
  [ botDetectionHeadersMiddleware (R := checking_response);
    securityHeadersMiddleware (R := checking_response) digits_positive large_digits default_config;
    rateLimitHeadersMiddleware (R := checking_response) exhausted_limits ]
  ≡ₚ [ securityHeadersMiddleware (R := checking_response) digits_positive large_digits default_config;
       rateLimitHeadersMiddleware (R := checking_response) exhausted_limits;
       botDetectionHeadersMiddleware (R := checking_response) ] /\
  completion
    (run_chain [ botDetectionHeadersMiddleware (R := checking_response);
                 securityHeadersMiddleware (R := checking_response) digits_positive large_digits default_config;
                 rateLimitHeadersMiddleware (R := checking_response) exhausted_limits ]
       empty_request ∅)
  = Normal tt /\
  forall key,
    headers
      (run_chain [ botDetectionHeadersMiddleware (R := checking_response);
                   securityHeadersMiddleware (R := checking_response) digits_positive large_digits default_config;
                   rateLimitHeadersMiddleware (R := checking_response) exhausted_limits ]
         empty_request ∅) !! key
    = if bool_decide (key ∈ security_keys)
      then headers (securityHeadersMiddleware (R := checking_response) digits_positive large_digits default_config
                      empty_request ∅) !! key
      else if bool_decide (key ∈ rateLimit_keys)
      then headers (rateLimitHeadersMiddleware (R := checking_response) exhausted_limits empty_request ∅) !! key
      else if bool_decide (key ∈ botDetection_keys)
      then headers (botDetectionHeadersMiddleware (R := checking_response) empty_request ∅) !! key
      else (∅ : gmap string JsVal) !! key.
Proof.
  do 2 (split; [reflexivity|]).
  assert (As : forallb (accepted (R := checking_response))
                 (events (securityHeadersMiddleware digits_positive large_digits
                            default_config empty_request ∅)) = true)
    by (vm_compute; reflexivity).
  assert (Ar : forallb (accepted (R := checking_response))
                 (events (rateLimitHeadersMiddleware exhausted_limits empty_request ∅))
               = true)
    by (vm_compute; reflexivity).
  assert (Ab : forallb (accepted (R := checking_response))
                 (events (botDetectionHeadersMiddleware empty_request ∅)) = true)
    by (vm_compute; reflexivity).
  do 3 (split; [assumption|]).
  assert (Hp : [ botDetectionHeadersMiddleware (R := checking_response);
                 securityHeadersMiddleware (R := checking_response) digits_positive large_digits default_config;
                 rateLimitHeadersMiddleware (R := checking_response) exhausted_limits ]
               ≡ₚ [ securityHeadersMiddleware (R := checking_response) digits_positive large_digits default_config;
                    rateLimitHeadersMiddleware (R := checking_response) exhausted_limits;
                    botDetectionHeadersMiddleware (R := checking_response) ]).
  { exact (Permutation_cons_append
             [ securityHeadersMiddleware (R := checking_response) digits_positive large_digits default_config;
               rateLimitHeadersMiddleware (R := checking_response) exhausted_limits ]
             (botDetectionHeadersMiddleware (R := checking_response))). }
  split; [exact Hp|].
  exact (chain_any_order digits_positive large_digits (R := checking_response)
           default_config exhausted_limits empty_request ∅ _ eq_refl eq_refl As Ar Ab Hp).
Defined.

Lemma hono_handler_calls_witness :
  buildConfig frame_options_off = Normal (adapter_of frame_options_off) /\
  ToString large_digits (maxAge (adapter_hsts (adapter_of frame_options_off)))
  = Normal "31536000" /\
  forallb (accepted (R := checking_response))
    (events (securityHeadersHono_handler large_digits (adapter_of frame_options_off) ∅))
  = true /\
  completion (securityHeadersHono_handler (R := checking_response) large_digits
                (adapter_of frame_options_off) ∅) = Normal tt /\
  events (securityHeadersHono_handler (R := checking_response) large_digits
            (adapter_of frame_options_off) ∅)
  = [ EvNext;
      EvSetHeader "Strict-Transport-Security" (JStr "max-age=31536000; includeSubDomains");
      EvSetHeader "X-Frame-Options" (JBool false);
      EvSetHeader "X-Content-Type-Options" (JStr "nosniff");
      EvSetHeader "Referrer-Policy" (JStr "no-referrer") ].
Proof.
  do 2 (split; [reflexivity|]).
  assert (Ha : forallb (accepted (R := checking_response))
                 (events (securityHeadersHono_handler large_digits
                            (adapter_of frame_options_off) ∅)) = true)
    by (vm_compute; reflexivity).
  split; [exact Ha|].
  exact (hono_handler_calls large_digits (R := checking_response) frame_options_off
           (adapter_of frame_options_off) ∅ "31536000" eq_refl eq_refl Ha).
Defined.

Lemma blank_origins_block_feature_witness :
  permissionsPolicy (config_of camera_true_options)
  = JObj [("camera", JBool true); ("geolocation", str_array ["'self'"])] /\
  loose_permissions [("camera", JBool true); ("geolocation", str_array ["'self'"])]
  = true /\
  header_writes "Permissions-Policy"
    (events (securityHeadersMiddleware digits_positive large_digits (config_of camera_true_options)
               empty_request ∅))
  = [JStr "camera=(), geolocation=('self')"].
Proof.
  do 2 (split; [reflexivity|]).
  exact (blank_origins_block_feature digits_positive large_digits (config_of camera_true_options)
           empty_request ∅ _ eq_refl eq_refl eq_refl eq_refl).
Defined.

Lemma flat_directives_give_empty_policy_witness :
  truthy (csp_enabled (csp (config_of string_policy_options))) = true /\
  flat (directives (csp (config_of string_policy_options))) = true /\
  header_writes "Content-Security-Policy"
    (events (securityHeadersMiddleware digits_positive large_digits (config_of string_policy_options)
               empty_request ∅))
  = [JStr ""].
Proof.
  do 2 (split; [reflexivity|]).
  exact (flat_directives_give_empty_policy digits_positive large_digits
           (config_of string_policy_options) empty_request ∅ eq_refl eq_refl eq_refl).
Defined.
